(** * Gmail-OpenAI-Email: the resumable batch cursor, the row extractor,
      the message composer and the MIME builder, embedded from the Go source.

    The repository holds four near-identical programs (src/main.go,
    src/unnamed/part_000 and the two programs of src/unnamed/part_001).
    Shared code (cursor, row extraction, MIME assembly) is embedded once;
    the places where the programs differ (composition step, constants) are
    embedded per program, each in a module of its own.

    Conventions.
    - A Go [string] and a Go [[]byte] are byte sequences: Rocq [string]
      (a list of 8-bit [ascii]).
    - A Go [int] is a 64-bit two's complement integer: a [Z] with the
      wrap-around of every addition written out ([GoInt.add]).
    - Calls that leave the process (file reads, the chat completion, the
      draft creation, the random draw) are fields of an explicit [World]. *)

From Equations Require Import Equations.
From Stdlib Require Import ZArith List String Ascii Bool Lia.
Import ListNotations.

Local Open Scope string_scope.
Local Open Scope Z_scope.

(* ===================================================================== *)
(** ** Go machine integers *)

Module GoInt.

Definition min_int : Z := - 2 ^ 63.
Definition max_int : Z := 2 ^ 63 - 1.
Definition max_uint64 : Z := 2 ^ 64 - 1.

Definition in_range (z : Z) : Prop := min_int <= z <= max_int.

(** Two's complement wrap-around of a mathematical integer into [int]. *)
Definition wrap (z : Z) : Z := (z + 2 ^ 63) mod 2 ^ 64 - 2 ^ 63.

(** [a + b] on [int]. *)
Definition add (a b : Z) : Z := wrap (a + b).

End GoInt.

(* ===================================================================== *)
(** ** Bytes and characters *)

Definition byteZ (c : ascii) : Z := Z.of_N (N_of_ascii c).
Definition Zbyte (z : Z) : ascii := ascii_of_N (Z.to_N (z mod 256)).

Definition chr (z : Z) : string := String (Zbyte z) EmptyString.

Definition CR : string := chr 13.
Definition LF : string := chr 10.
Definition CRLF : string := CR ++ LF.
Definition DQUOTE : string := chr 34.

(** Go's [len(s)] for a string. *)
Definition len (s : string) : Z := Z.of_nat (String.length s).

(** White space as Go sees it ([unicode.IsSpace], and the table of
    package fmt): the ASCII characters TAB, LF, VT, FF, CR and SPACE, and
    the UTF-8 encodings of U+0085, U+00A0, U+1680, U+2000..U+200A, U+2028,
    U+2029, U+202F, U+205F and U+3000. *)
Definition asciiSpace (a : Z) : bool :=
  ((9 <=? a) && (a <=? 13)) || (a =? 32).

Definition space2 (a b : Z) : bool :=
  (a =? 194) && ((b =? 133) || (b =? 160)).

Definition space3 (a b c : Z) : bool :=
  ((a =? 225) && (b =? 154) && (c =? 128))
  || ((a =? 226) && (b =? 128)
      && (((128 <=? c) && (c <=? 138)) || (c =? 168) || (c =? 169) || (c =? 175)))
  || ((a =? 226) && (b =? 129) && (c =? 159))
  || ((a =? 227) && (b =? 128) && (c =? 128)).

(* ===================================================================== *)
(** ** Library routines used by the cursor: fmt.Sprintf and fmt.Sscanf at
       the format "%d" (Go standard library, called from generateDrafts) *)

Module Fmt.

Definition digit (d : Z) : ascii := Zbyte (48 + d).

(** The digit loop of the integer formatter: least significant digit
    first, written right to left in front of [acc]. *)
Fixpoint fmtDigits (fuel : nat) (u : Z) (acc : string) : string :=
  match fuel with
  | O => acc
  | S fuel' =>
      if u <? 10 then String (digit u) acc
      else fmtDigits fuel' (u / 10) (String (digit (u mod 10)) acc)
  end.

(** [fmt.Sprintf("%d", n)] for an [int]: the digits of the magnitude,
    preceded by a minus sign when negative.  A 64-bit magnitude has at
    most 20 digits, so the loop ends before the fuel does
    ([Sscanf_Sprintf] reads every [int] back from this text). *)
Definition Sprintf_d (n : Z) : string :=
  if n <? 0 then String (Zbyte 45) (fmtDigits 20 (- n) EmptyString)
  else fmtDigits 20 n EmptyString.

Definition isDigit (a : Z) : bool := (48 <=? a) && (a <=? 57).

(** [strconv.ParseUint(s, 10, 64)]: [n] is the value read so far.  A
    character that is not a decimal digit is a syntax error, a value
    above 2^64-1 a range error; the caller treats both alike. *)
Fixpoint ParseUint_from (n : Z) (s : string) : option Z :=
  match s with
  | EmptyString => Some n
  | String c rest =>
      if isDigit (byteZ c) then
        let d := byteZ c - 48 in
        if n >=? GoInt.max_uint64 / 10 + 1 then None
        else
          let n1 := (n * 10 + d) mod 2 ^ 64 in
          if (n1 <? n) || (n1 >? GoInt.max_uint64) then None
          else ParseUint_from n1 rest
      else None
  end.

Definition ParseUint (s : string) : option Z :=
  match s with
  | EmptyString => None
  | _ => ParseUint_from 0 s
  end.

(** [strconv.ParseInt(s, 10, 64)]. *)
Definition ParseInt (s : string) : option Z :=
  match s with
  | EmptyString => None
  | String c rest =>
      let neg := byteZ c =? 45 in
      let body := if (byteZ c =? 43) || neg then rest else s in
      match ParseUint body with
      | None => None
      | Some un =>
          let cutoff := 2 ^ 63 in
          if negb neg && (un >=? cutoff) then None
          else if neg && (un >? cutoff) then None
          else Some (if neg then GoInt.wrap (- GoInt.wrap un) else GoInt.wrap un)
      end
  end.

(** [ss.SkipSpace] with [nlIsSpace = false]: white space is skipped,
    a line feed is the error "unexpected newline" ([None]). *)
Fixpoint SkipSpace (s : string) : option string :=
  match s with
  | EmptyString => Some EmptyString
  | String a r1 =>
      if byteZ a =? 10 then None
      else if asciiSpace (byteZ a) then SkipSpace r1
      else
        match r1 with
        | String b r2 =>
            if space2 (byteZ a) (byteZ b) then SkipSpace r2
            else
              match r2 with
              | String c r3 =>
                  if space3 (byteZ a) (byteZ b) (byteZ c)
                  then SkipSpace r3 else Some s
              | EmptyString => Some s
              end
        | EmptyString => Some s
        end
  end.

(** The longest prefix accepted by [s.accept("0123456789")]: at the verb
    [%d] the digits of [getBase] are the ten decimal digits and nothing
    else (the underscore belongs to the verb [%v] only). *)
Fixpoint acceptDigits (s : string) : string :=
  match s with
  | String c rest =>
      if isDigit (byteZ c)
      then String c (acceptDigits rest) else EmptyString
  | EmptyString => EmptyString
  end.

(** [ss.scanInt('d', 64)] on what is left of the input. *)
Definition scanInt (s : string) : option Z :=
  match SkipSpace s with
  | None => None
  | Some EmptyString => None                       (* notEOF *)
  | Some (String c rest as s1) =>
      let signed := (byteZ c =? 43) || (byteZ c =? 45) in
      let tok := acceptDigits (if signed then rest else s1) in
      match tok with
      | EmptyString => None                        (* EOF / expected integer *)
      | _ => ParseInt (if signed then String c tok else tok)
      end
  end.

(** [fmt.Sscanf(input, "%d", &v)]: [Some v] when it returns no error. *)
Definition Sscanf_d (input : string) : option Z :=
  match SkipSpace input with
  | None => None
  | Some s => scanInt s
  end.

End Fmt.

(* ===================================================================== *)
(** ** Batch cursor (generateDrafts, src/main.go lines 69-80 and 146-151) *)

(** [startIndex] after lines 71-78.  [file] is the result of
    [os.ReadFile(progressFile)]: [None] when the read fails. *)
Definition loadStart (file : option string) : Z :=
  let startIndex := 1 in
  match file with
  | Some data =>
      match Fmt.Sscanf_d data with
      | Some savedIndex => savedIndex
      | None => startIndex
      end
  | None => startIndex
  end.

(** Line 80: [endIndex := startIndex + maxDrafts]. *)
Definition endIndexOf (startIndex batchSize : Z) : Z :=
  GoInt.add startIndex batchSize.

(** Lines 147-150: [newProgress], the end index clamped to [len(rows)]. *)
Definition newProgressOf (endIndex totalRows : Z) : Z :=
  let newProgress := endIndex in
  if newProgress >? totalRows then totalRows else newProgress.

(** The window of one run: the start index as loaded and the end that is
    saved for the next run. *)
Definition computeWindow (start batchSize totalRows : Z) : Z * Z :=
  (start, newProgressOf (endIndexOf start batchSize) totalRows).

(** *** The text of a cursor file, byte by byte *)

(** The white space of one byte other than the line feed: TAB, VT, FF, CR
    and SPACE. *)
Definition isBlankByte (a : Z) : bool :=
  (a =? 9) || (a =? 11) || (a =? 12) || (a =? 13) || (a =? 32).

Fixpoint allBlank (s : string) : bool :=
  match s with
  | EmptyString => true
  | String c rest => isBlankByte (byteZ c) && allBlank rest
  end.

Definition isSign (a : Z) : bool := (a =? 43) || (a =? 45).

(** What may follow a number in the file: nothing, or a byte that is not
    a decimal digit. *)
Definition endsNumber (tail : string) : bool :=
  match tail with
  | EmptyString => true
  | String c _ => negb (Fmt.isDigit (byteZ c))
  end.

(** A text at whose start no integer can be read: it is empty, or begins
    with a line feed, or with a sign that no digit follows, or with an
    ASCII character that is neither white space nor a digit nor a sign. *)
Definition notANumber (rest : string) : bool :=
  match rest with
  | EmptyString => true
  | String c r =>
      (byteZ c =? 10)
      || (isSign (byteZ c) && endsNumber r)
      || ((byteZ c <? 128) && negb (asciiSpace (byteZ c))
          && negb (Fmt.isDigit (byteZ c)) && negb (isSign (byteZ c)))
  end.

(** The decimal digits of a natural number below 10^20. *)
Definition decimal (u : Z) : string := Fmt.fmtDigits 20 u EmptyString.

(* ===================================================================== *)
(** ** Library routines on strings: strings.TrimSpace, strings.SplitN,
       filepath.Split, filepath.Ext *)

Module Strings.

Definition rev (s : string) : string :=
  string_of_list_ascii (List.rev (list_ascii_of_string s)).

(** Leading white space removed (the forward scan of TrimSpace). *)
Fixpoint TrimLeftSpace (s : string) : string :=
  match s with
  | EmptyString => EmptyString
  | String a r1 =>
      if asciiSpace (byteZ a) then TrimLeftSpace r1
      else
        match r1 with
        | String b r2 =>
            if space2 (byteZ a) (byteZ b) then TrimLeftSpace r2
            else
              match r2 with
              | String c r3 =>
                  if space3 (byteZ a) (byteZ b) (byteZ c)
                  then TrimLeftSpace r3 else s
              | EmptyString => s
              end
        | EmptyString => s
        end
  end.

(** The backward scan of TrimSpace, on the reversed string: the bytes of
    a multi-byte white space rune arrive last byte first. *)
Fixpoint trimRevSpace (s : string) : string :=
  match s with
  | EmptyString => EmptyString
  | String c r1 =>
      if asciiSpace (byteZ c) then trimRevSpace r1
      else
        match r1 with
        | String b r2 =>
            if space2 (byteZ b) (byteZ c) then trimRevSpace r2
            else
              match r2 with
              | String a r3 =>
                  if space3 (byteZ a) (byteZ b) (byteZ c)
                  then trimRevSpace r3 else s
              | EmptyString => s
              end
        | EmptyString => s
        end
  end.

Definition TrimRightSpace (s : string) : string :=
  rev (trimRevSpace (rev s)).

(** [strings.TrimSpace]. *)
Definition TrimSpace (s : string) : string :=
  TrimRightSpace (TrimLeftSpace s).

(** The text before and after the first byte equal to [sep], if any. *)
Fixpoint cut (sep : Z) (s : string) : option (string * string) :=
  match s with
  | EmptyString => None
  | String c rest =>
      if byteZ c =? sep then Some (EmptyString, rest)
      else
        match cut sep rest with
        | Some (before, after) => Some (String c before, after)
        | None => None
        end
  end.

(** [strings.SplitN(s, ":", 2)]. *)
Definition SplitN_colon_2 (s : string) : list string :=
  match cut 58 s with
  | Some (before, after) => [before; after]
  | None => [s]
  end.

(** The reversed last path element: the reversed path up to its first
    slash. *)
Fixpoint revBase (s : string) : string :=
  match s with
  | EmptyString => EmptyString
  | String c rest =>
      if byteZ c =? 47 then EmptyString else String c (revBase rest)
  end.

(** The file component of [filepath.Split(path)]. *)
Definition SplitFile (path : string) : string := rev (revBase (rev path)).

(** [filepath.Ext(path)]: the suffix from the last dot of the last
    element, empty when there is none. *)
Fixpoint revExt (s : string) : option string :=
  match s with
  | EmptyString => None
  | String c rest =>
      if byteZ c =? 47 then None
      else if byteZ c =? 46 then Some (String c EmptyString)
      else
        match revExt rest with
        | Some e => Some (String c e)
        | None => None
        end
  end.

Definition Ext (path : string) : string :=
  match revExt (rev path) with
  | Some e => rev e
  | None => EmptyString
  end.

End Strings.

(* ===================================================================== *)
(** ** Row extractor (generateDrafts, src/main.go lines 106-126) *)

Record Recipient : Type := mkRecipient {
  name : string;
  email : string;
  researchText : string
}.

(** Go's [row[k]] for an index the length check has admitted. *)
Definition cell (row : list string) (k : nat) : string := nth k row EmptyString.

(** [None] is the [continue] of lines 107, 114, 119 and 125. *)
Definition extractRecipient (row : list string) : option Recipient :=
  if Z.of_nat (List.length row) <? 3 then None
  else
    let profInfo := Strings.TrimSpace (cell row 1) in
    let research := Strings.TrimSpace (cell row 2) in
    if (profInfo =? "")%string || (research =? "")%string then None
    else
      let parts := Strings.SplitN_colon_2 profInfo in
      if Z.of_nat (List.length parts) <? 2 then None
      else
        let name := Strings.TrimSpace (cell parts 0) in
        let email := Strings.TrimSpace (cell parts 1) in
        if (name =? "")%string || (email =? "")%string then None
        else Some (mkRecipient name email research).

(* ===================================================================== *)
(** ** Base64 (encoding/base64 of the Go standard library) *)

Module Base64.

Definition encodeStd : string :=
  "ABCDEFGHIJKLMNOPQRSTUVWXYZabcdefghijklmnopqrstuvwxyz0123456789+/".
Definition encodeURL : string :=
  "ABCDEFGHIJKLMNOPQRSTUVWXYZabcdefghijklmnopqrstuvwxyz0123456789-_".

Definition padChar : ascii := Zbyte 61.

(** [enc.encode[k]]. *)
Definition encodeAt (alphabet : string) (k : Z) : ascii :=
  match String.get (Z.to_nat k) alphabet with
  | Some c => c
  | None => Zbyte 0
  end.

(** [Encoding.Encode] with padding: three source bytes give four
    characters; one or two trailing bytes give a padded group. *)
Fixpoint EncodeToString (alphabet : string) (src : string) : string :=
  match src with
  | String a (String b (String c rest)) =>
      let val := Z.lor (Z.shiftl (byteZ a) 16)
                   (Z.lor (Z.shiftl (byteZ b) 8) (byteZ c)) in
      String (encodeAt alphabet (Z.land (Z.shiftr val 18) 63))
        (String (encodeAt alphabet (Z.land (Z.shiftr val 12) 63))
           (String (encodeAt alphabet (Z.land (Z.shiftr val 6) 63))
              (String (encodeAt alphabet (Z.land val 63))
                 (EncodeToString alphabet rest))))
  | String a (String b EmptyString) =>
      let val := Z.lor (Z.shiftl (byteZ a) 16) (Z.shiftl (byteZ b) 8) in
      String (encodeAt alphabet (Z.land (Z.shiftr val 18) 63))
        (String (encodeAt alphabet (Z.land (Z.shiftr val 12) 63))
           (String (encodeAt alphabet (Z.land (Z.shiftr val 6) 63))
              (String padChar EmptyString)))
  | String a EmptyString =>
      let val := Z.shiftl (byteZ a) 16 in
      String (encodeAt alphabet (Z.land (Z.shiftr val 18) 63))
        (String (encodeAt alphabet (Z.land (Z.shiftr val 12) 63))
           (String padChar (String padChar EmptyString)))
  | EmptyString => EmptyString
  end.

(** The decoder is not part of the program (it only encodes); this is
    the standard decoder of RFC 4648 section 4, the inverse the mail
    reader applies to the attachment part. *)
Fixpoint indexFrom (k : Z) (alphabet : string) (c : ascii) : option Z :=
  match alphabet with
  | EmptyString => None
  | String x rest =>
      if Ascii.eqb x c then Some k else indexFrom (k + 1) rest c
  end.

Definition decodeChar (alphabet : string) (c : ascii) : option Z :=
  indexFrom 0 alphabet c.

Definition isPad (c : ascii) : bool := Ascii.eqb c padChar.

Fixpoint DecodeString (alphabet : string) (s : string) : option string :=
  match s with
  | EmptyString => Some EmptyString
  | String a (String b (String c (String d rest))) =>
      match decodeChar alphabet a, decodeChar alphabet b with
      | Some s0, Some s1 =>
          let b0 := Zbyte (Z.lor (Z.shiftl s0 2) (Z.shiftr s1 4)) in
          if isPad d then
            match rest with
            | EmptyString =>
                if isPad c then Some (String b0 EmptyString)
                else
                  match decodeChar alphabet c with
                  | Some s2 =>
                      let b1 := Zbyte (Z.lor (Z.shiftl s1 4) (Z.shiftr s2 2)) in
                      Some (String b0 (String b1 EmptyString))
                  | None => None
                  end
            | _ => None
            end
          else
            match decodeChar alphabet c, decodeChar alphabet d,
                  DecodeString alphabet rest with
            | Some s2, Some s3, Some tail =>
                let b1 := Zbyte (Z.lor (Z.shiftl s1 4) (Z.shiftr s2 2)) in
                let b2 := Zbyte (Z.lor (Z.shiftl s2 6) s3) in
                Some (String b0 (String b1 (String b2 tail)))
            | _, _, _ => None
            end
      | _, _ => None
      end
  | _ => None
  end.

(** The characters CR and LF removed (they carry no data in a base64
    body). *)
Fixpoint stripCRLF (s : string) : string :=
  match s with
  | EmptyString => EmptyString
  | String c rest =>
      if (byteZ c =? 13) || (byteZ c =? 10) then stripCRLF rest
      else String c (stripCRLF rest)
  end.

End Base64.

(* ===================================================================== *)
(** ** The attachment line wrapper (buildRawEmail, src/main.go lines 289-296) *)

(** Go's [s[i:j]] for [0 <= i <= j <= len(s)]. *)
Definition slice (s : string) (i j : Z) : string :=
  String.substring (Z.to_nat i) (Z.to_nat (j - i)) s.

(** The loop [for i := 0; i < len(encoded); i += 76], entered at index [i]
    with [msg] written so far.  The index stays below [len(encoded) + 76],
    the length of a string held in memory, so its additions are exact. *)
Equations? wrapLoop (encoded : string) (i : Z) (msg : string) : string
  by wf (Z.to_nat (len encoded - i)) lt :=
  wrapLoop encoded i msg with Z_lt_dec i (len encoded) => {
    | left _ :=
        let end_ := i + 76 in
        let end_ := if end_ >? len encoded then len encoded else end_ in
        wrapLoop encoded (i + 76) (msg ++ (slice encoded i end_ ++ CRLF));
    | right _ := msg }.
Proof. lia. Qed.

(** The loop run on an empty builder: the lines it appends. *)
Definition wrapLines (encoded : string) : string :=
  wrapLoop encoded 0 EmptyString.

(* ===================================================================== *)
(** ** The world outside the process *)

Inductive result (A : Type) : Type :=
| Ok (a : A)
| Err (e : string).
Arguments Ok {A} a.
Arguments Err {A} e.

Record ChatRequest : Type := mkChatRequest {
  Model : string;
  Messages : list (string * string);      (* role, content *)
  Temperature : string                    (* decimal text, empty when unset *)
}.

(** What [client.CreateChatCompletion] returns: an error, or the contents
    of [resp.Choices] in order. *)
Inductive ChatResult : Type :=
| ChatError (e : string)
| ChatChoices (contents : list string).

(** Every call that leaves the process.  The calls made while row [i] is
    handled take [i]: each is made at most once per row, so its answer
    may differ from row to row.  Of [getGmailService] (src/main.go lines
    224-243) the world holds the error it returns to [generateDrafts]
    only; what the authorisation does on its way (the token file it may
    save and the line it logs then, its prompt, its fatal exits) is not
    part of the traces below, which record what [generateDrafts] and the
    functions it calls for a recipient do themselves. *)
Record World : Type := mkWorld {
  OpenFile : string -> option string;
  GetRows : string -> result (list (list string));
  ReadProgress : string -> option string;
  Getenv : string -> string;
  getGmailService : option string;         (* the error returned, if any *)
  CreateChatCompletion : Z -> ChatRequest -> ChatResult;
  ReadAttachment : Z -> string -> result string;
  TypeByExtension : string -> string;
  DraftsCreate : Z -> string -> option string;
  Int31 : Z -> Z
}.

(** What a run does to the world, in order. *)
Inductive Event : Type :=
| Log (line : string)
| DraftsCreateCall (raw : string)
| Sleep (seconds : Z)
| WriteFile (path content : string).

(* ===================================================================== *)
(** ** MIME builder and draft dispatcher (buildRawEmail and createDraft,
       src/main.go lines 245-303; the same text in all four programs) *)

Definition buildRawEmail (w : World) (i : Z)
  (to subject plainBody attachmentFile : string) : result string :=
  let boundary := "BOUNDARY123" in
  let msg := EmptyString in
  let msg := msg ++ ("To: " ++ to ++ CRLF) in
  let msg := msg ++ ("Subject: " ++ subject ++ CRLF) in
  let msg := msg ++ ("MIME-Version: 1.0" ++ CRLF) in
  let msg := msg ++ ("Content-Type: multipart/mixed; boundary=" ++ boundary ++ CRLF) in
  let msg := msg ++ CRLF in
  let msg := msg ++ ("--" ++ boundary ++ CRLF) in
  let msg := msg ++ ("Content-Type: text/html; charset=utf-8" ++ CRLF ++ CRLF) in
  let msg := msg ++ (plainBody ++ CRLF) in
  match ReadAttachment w i attachmentFile with
  | Err err => Err err
  | Ok data =>
      let fileName := Strings.SplitFile attachmentFile in
      let mimeType := TypeByExtension w (Strings.Ext fileName) in
      let mimeType :=
        if (mimeType =? "")%string then "application/octet-stream" else mimeType in
      let msg := msg ++ ("--" ++ boundary ++ CRLF) in
      let msg := msg ++ ("Content-Type: " ++ mimeType ++ "; name=" ++ DQUOTE
                          ++ fileName ++ DQUOTE ++ CRLF) in
      let msg := msg ++ ("Content-Transfer-Encoding: base64" ++ CRLF) in
      let msg := msg ++ ("Content-Disposition: attachment; filename=" ++ DQUOTE
                          ++ fileName ++ DQUOTE ++ CRLF ++ CRLF) in
      let encoded := Base64.EncodeToString Base64.encodeStd data in
      let msg := wrapLoop encoded 0 msg in
      let msg := msg ++ ("--" ++ boundary ++ "--") in
      Ok (Base64.EncodeToString Base64.encodeURL msg)
  end.

(** The events of the call and the error it returns ([None] for nil). *)
Definition createDraft (w : World) (i : Z)
  (to subject body attachmentFile : string) : list Event * option string :=
  match buildRawEmail w i to subject body attachmentFile with
  | Err err => ([], Some ("build email: " ++ err))
  | Ok rawMsg => ([DraftsCreateCall rawMsg], DraftsCreate w i rawMsg)
  end.

(** The state of the row loop: the draft counter and the events so far. *)
Record LoopState : Type := mkLoopState {
  count : Z;
  events : list Event
}.

Definition emit (st : LoopState) (evs : list Event) : LoopState :=
  mkLoopState (count st) (events st ++ evs)%list.

(** What [generateDrafts] returns and leaves behind. *)
Inductive RunResult : Type :=
| SetupError (err : string)
| Completed (final : LoopState).

(** The fallback paragraph (the Sprintf of the error branch). *)
Definition fallbackParagraph (research : string) : string :=
  "Your research on " ++ research
  ++ " strongly aligns with my academic background and interests.".

(* ===================================================================== *)
(** ** src/main.go *)

Module MainGo.

Definition excelPath : string := "professors.xlsx".
Definition sheetName : string := "UESTC".
Definition schoolName : string :=
  "School of Information and Software Engineering, University of Electronic Science and Technology of China (UESTC)".
Definition attachmentPath : string := "UsamaShoukatCV.pdf".
Definition openAIModel : string := "gpt-4o-mini".
Definition maxDrafts : Z := 30.

(** The request of lines 159-182. *)
Definition researchRequest (research : string) : ChatRequest :=
  let prompt := ("You are helping a student write a short email paragraph to a professor about their research.
The paragraph should sound human, polite, and written in simple, clear English — like a non-native speaker who writes carefully.

Guidelines:
- Write 2–3 sentences only.
- Avoid greetings or professor’s name.
- Keep grammar correct but simple (no complex vocabulary).
- Use phrases like “Your contribution to… was of great interest to me,” “I was interested in knowing how…,” “It is interesting to consider…”
- Avoid phrases like “I would love to learn more,” “I’m excited,” or “I am passionate.”
- Write in a natural, slightly formal tone — respectful but not robotic.
- Connect my background naturally to their work.

Professor’s research area: " ++ research ++ "

My background: I have experience in backend development, Golang, distributed systems, and AI. 
Link this background naturally to their research.") in
  mkChatRequest openAIModel
    [("system", "You are a professional academic writing assistant.");
     ("user", prompt)] EmptyString.

(** Lines 158-192. *)
Definition generateResearchParagraph (w : World) (i : Z) (research : string)
  : result string :=
  match CreateChatCompletion w i (researchRequest research) with
  | ChatError err => Err err
  | ChatChoices [] => Err "no choices returned"
  | ChatChoices (content :: _) => Ok (Strings.TrimSpace content)
  end.

Definition generateEmailBody (profName researchPara : string) : string * string :=
  let subject := "Request for Master's Supervision (September 2026 Intake)" in
  let body := ("
<html>
<body>
Dear Professor " ++ profName ++ ",<br><br>

I hope you are in a good health. I am <b>Usama Shoukat</b>, and I recently completed my <b>Bachelor's in Computer Science</b> from the <b>Government College University of Faisalabad, Pakistan</b> with a CGPA of <b>3.51/4.00</b>. I have a strong background in <b>software engineering and backend systems</b> where I have worked with Golang, JavaScript, APIs, distributed systems and different AI tools.<br><br>

I want to apply for a <b>Master’s Program under your supervision at the " ++ schoolName ++ "</b> via the <b>Chinese Government Scholarship (CSC) 2026</b>.<br><br>

" ++ researchPara ++ "<br><br>

If you are accepting new students, I would like to contribute to your research and learn under your guidance for the <b>2026 intake</b>. I have attached my CV for your review.<br><br>

Looking forward to hearing back from you.<br><br>

Best regards,<br>
<b>Usama Shoukat</b><br>
WeChat ID: UsamaShoukatCS<br>
GitHub: <a href=" ++ DQUOTE ++ "https://github.com/usamashoukatcs" ++ DQUOTE ++ ">github.com/usamashoukatcs</a><br>
LinkedIn: <a href=" ++ DQUOTE ++ "https://www.linkedin.com/in/usama-shoukat/" ++ DQUOTE ++ ">linkedin.com/in/usama-shoukat</a>
</body>
</html>
") in
  (subject, body).

(** Lines 128-134: the paragraph (generated, or the fallback with its
    log line) and the subject and body composed from it. *)
Definition composeFor (w : World) (i : Z) (r : Recipient)
  : list Event * (string * string) :=
  let '(evs, para) :=
    match generateResearchParagraph w i (researchText r) with
    | Err err =>
        ([Log ("OpenAI error for " ++ name r ++ ": " ++ err
               ++ " (fallback used)")],
         fallbackParagraph (researchText r))
    | Ok para => ([], para)
    end in
  (evs, generateEmailBody (name r) para).

(** Lines 136-143: the draft is created, the outcome logged and counted,
    and the loop pauses. *)
Definition dispatch (w : World) (i : Z) (r : Recipient)
  (subject body : string) (st : LoopState) : LoopState :=
  let '(evs, err) := createDraft w i (email r) subject body attachmentPath in
  let st := emit st evs in
  let st :=
    match err with
    | Some err =>
        emit st [Log ("❌ Draft creation failed for " ++ name r ++ ": " ++ err)]
    | None =>
        mkLoopState (GoInt.add (count st) 1)
          (events st ++ [Log ("✅ Draft created for " ++ name r ++ " <"
                              ++ email r ++ ">")])%list
    end in
  emit st [Sleep 2].

(** Lines 128-143: one recipient, from the generation call to the
    pause. *)
Definition processRecipient (w : World) (i : Z) (r : Recipient)
  (st : LoopState) : LoopState :=
  let '(evs, (subject, body)) := composeFor w i r in
  dispatch w i r subject body (emit st evs).

(** Lines 98-144: [for i, row := range rows], entered at index [i] with
    the rows from [i] on. *)
Fixpoint rowLoop (w : World) (startIndex endIndex : Z) (i : Z)
  (rows : list (list string)) (st : LoopState) : LoopState :=
  match rows with
  | [] => st
  | row :: rest =>
      if i <? startIndex then rowLoop w startIndex endIndex (i + 1) rest st
      else if i >=? endIndex then st
      else
        match extractRecipient row with
        | None => rowLoop w startIndex endIndex (i + 1) rest st
        | Some r =>
            rowLoop w startIndex endIndex (i + 1) rest
              (processRecipient w i r st)
        end
  end.

(** Lines 54-156. *)
Definition generateDrafts (w : World) : RunResult :=
  match OpenFile w excelPath with
  | Some err => SetupError ("open excel: " ++ err)
  | None =>
  match GetRows w sheetName with
  | Err err => SetupError ("read rows: " ++ err)
  | Ok rows =>
  if Z.of_nat (List.length rows) <=? 1 then SetupError "no data rows found"
  else
    let progressFile := "progress.txt" in
    let startIndex := loadStart (ReadProgress w progressFile) in
    let endIndex := endIndexOf startIndex maxDrafts in
    let st := mkLoopState 0
                [Log ("Processing professors " ++ Fmt.Sprintf_d startIndex
                      ++ " to " ++ Fmt.Sprintf_d endIndex ++ " ...")] in
    match getGmailService w with
    | Some err => SetupError ("gmail auth: " ++ err)
    | None =>
    if (Getenv w "OPENAI_API_KEY" =? "")%string
    then SetupError "OPENAI_API_KEY not set"
    else
      let st := rowLoop w startIndex endIndex 0 rows st in
      let newProgress := newProgressOf endIndex (Z.of_nat (List.length rows)) in
      Completed
        (emit st
           [WriteFile progressFile (Fmt.Sprintf_d newProgress);
            Log ("Total drafts created: " ++ Fmt.Sprintf_d (count st));
            Log ("Progress saved: next run will start from row "
                 ++ Fmt.Sprintf_d newProgress)])
    end
  end
  end.

End MainGo.

(* ===================================================================== *)
(** ** The second program of src/unnamed/part_001 (lines 491-854): the
       composer calls the model itself and draws its subject at random *)

Module Part001b.

Definition excelPath : string := "professors.xlsx".
Definition scholarshipType : string := "CSC Scholarship".
Definition followUpSheetName : string := "ZJU".
Definition sheetName : string := "UESTC".
Definition attachmentPath : string := "UsamaShoukatCV.pdf".
Definition openAIModel : string := "gpt-4o-mini".
Definition maxDrafts : Z := 30.

Definition subjects : list string :=
  [ "Request for Master's Supervision (September 2026 Intake)";
    "Prospective Master's Student Interested in Your Research (2026 Intake)";
    "Supervision Inquiry for Master's Program (Fall 2026)";
    "Seeking Master's Supervision at Your Research Group (2026)";
    "Application for Master's Supervision - September 2026";
    "Interest in Joining Your Research Group for Master's 2026";
    "Inquiry Regarding Master's Supervision (2026 Admission)";
    "Exploring Master's Research Opportunities with You (2026)";
    "Request to Pursue Master's Studies Under Your Guidance (2026)";
    "Potential Master's Student Interested in Your Research Work" ].

(** Lines 733-748.  The generator is seeded from the clock at each call,
    so its draw is an answer of the world: [Int31 w i] is the 31-bit value
    that [Intn] accepts while row [i] is handled, and [Intn(n)] returns
    it modulo [n]. *)
Definition getRandomSubject (w : World) (i : Z) : string :=
  let n := Z.of_nat (List.length subjects) in
  nth (Z.to_nat (Int31 w i mod n)) subjects EmptyString.

(** The request of lines 661-674. *)
Definition topicsRequest (researchText : string) : ChatRequest :=
  let prompt := ("
Extract 1–2 main research topics or directions from the professor’s research text below (keep it short and clear, no sentences).
Professor's research text:
" ++ researchText ++ "
") in
  mkChatRequest openAIModel
    [("system", "You are a concise academic assistant summarizing professors’ research fields in a few words.");
     ("user", prompt)] "0.4".

(** Lines 660-731. *)
Definition generateEmail (w : World) (i : Z)
  (profName researchText mode : string)
  : list Event * result (string * string) :=
  let resp := CreateChatCompletion w i (topicsRequest researchText) in
  let failed err :=
    [Log ("⚠️ OpenAI topic extraction failed for " ++ profName ++ ": " ++ err)] in
  match resp with
  | ChatError err => (failed err, Err err)
  | ChatChoices [] =>
      (* line 675-677: [err] is nil when only the choices are missing,
         and nil is what is returned *)
      (failed "<nil>", Ok (EmptyString, EmptyString))
  | ChatChoices (content :: _) =>
      let researchTopics := Strings.TrimSpace content in
      let researchTopics :=
        if (researchTopics =? "")%string
        then "computer science and related technologies" else researchTopics in
      let researchPlan := ("
My intended research plan involves exploring distributed systems and backend technologies using Go,
with an emphasis on building efficient, reliable, and scalable software systems.
I am also interested in integrating AI-based optimization or automation approaches into software engineering problems.
") in
      let intro := ("
Respected Professor " ++ profName ++ ",<br><br>
I hope you are doing well.") in
      let intro :=
        if (mode =? "followup")%string then ("
Respected Professor " ++ profName ++ ",<br><br>
I hope you are doing well. I wanted to kindly follow up on my previous email regarding the possibility of pursuing a Master's degree under your supervision.") else intro in
      let subject := getRandomSubject w i in
      let body := ("
<html>
<body>
" ++ intro ++ "<br><br>

I am <b>Usama Shoukat</b> from Pakistan, and I have completed my Bachelor's in Computer Science
with a CGPA of <b>3.51/4.00</b> from Government College University Faisalabad, a well-known institution in Pakistan.<br><br>

I came across your research profile and was deeply impressed by your work in <b>" ++ researchTopics ++ "</b>.
I find your research directions highly relevant to my academic background and interests.<br><br>

" ++ researchPlan ++ "<br><br>

I am highly motivated to pursue a Master's degree under your supervision and intend to apply for the <b>" ++ scholarshipType ++ "</b>
(or any equivalent scholarship offered by your institution).<br><br>

If you find my profile suitable, it would be an honor to discuss the possibility of joining your research group.
I have attached my CV for your review.<br><br>

Thank you very much for your time and consideration.<br><br>

Best regards,<br>
<b>Usama Shoukat</b><br>
WeChat ID: UsamaShoukatCS<br>
</body>
</html>
") in
      ([], Ok (subject, body))
  end.

(** Lines 639-646: the draft is created, the outcome logged and counted,
    and the loop pauses. *)
Definition dispatch (w : World) (i : Z) (r : Recipient)
  (subject body : string) (st : LoopState) : LoopState :=
  let '(evs, err) := createDraft w i (email r) subject body attachmentPath in
  let st := emit st evs in
  let st :=
    match err with
    | Some err =>
        emit st [Log ("❌ Draft creation failed for " ++ name r ++ ": " ++ err)]
    | None =>
        mkLoopState (GoInt.add (count st) 1)
          (events st ++ [Log ("✅ Draft created for " ++ name r ++ " <"
                              ++ email r ++ ">")])%list
    end in
  emit st [Sleep 2].

(** Lines 633-646: one recipient. *)
Definition processRecipient (w : World) (mode : string) (i : Z) (r : Recipient)
  (st : LoopState) : LoopState :=
  let '(evs, res) := generateEmail w i (name r) (researchText r) mode in
  let st := emit st evs in
  match res with
  | Err err =>
      emit st [Log ("❌ Email generation failed for " ++ name r ++ ": " ++ err)]
  | Ok (subject, body) => dispatch w i r subject body st
  end.

(** Lines 604-647. *)
Fixpoint rowLoop (w : World) (mode : string) (startIndex endIndex : Z) (i : Z)
  (rows : list (list string)) (st : LoopState) : LoopState :=
  match rows with
  | [] => st
  | row :: rest =>
      if i <? startIndex then rowLoop w mode startIndex endIndex (i + 1) rest st
      else if i >=? endIndex then st
      else
        match extractRecipient row with
        | None => rowLoop w mode startIndex endIndex (i + 1) rest st
        | Some r =>
            rowLoop w mode startIndex endIndex (i + 1) rest
              (processRecipient w mode i r st)
        end
  end.

(** Lines 554-658. *)
Definition generateDrafts (w : World) (mode : string) : RunResult :=
  match OpenFile w excelPath with
  | Some err => SetupError ("open excel: " ++ err)
  | None =>
  let sheet := if (mode =? "followup")%string then followUpSheetName else sheetName in
  match GetRows w sheet with
  | Err err => SetupError ("read rows: " ++ err)
  | Ok rows =>
  if Z.of_nat (List.length rows) <=? 1 then SetupError "no data rows found"
  else
    let progressFile := sheet ++ "Progress.txt" in
    let progressFile :=
      if (mode =? "followup")%string then "followUpProgress.txt" else progressFile in
    let startIndex := loadStart (ReadProgress w progressFile) in
    let endIndex := endIndexOf startIndex maxDrafts in
    let st := mkLoopState 0
                [Log ("Processing professors " ++ Fmt.Sprintf_d startIndex
                      ++ " to " ++ Fmt.Sprintf_d endIndex ++ " ...")] in
    match getGmailService w with
    | Some err => SetupError ("gmail auth: " ++ err)
    | None =>
    if (Getenv w "OPENAI_API_KEY" =? "")%string
    then SetupError "OPENAI_API_KEY not set"
    else
      let st := rowLoop w mode startIndex endIndex 0 rows st in
      let newProgress := newProgressOf endIndex (Z.of_nat (List.length rows)) in
      Completed
        (emit st
           [WriteFile progressFile (Fmt.Sprintf_d newProgress);
            Log ("Total drafts created: " ++ Fmt.Sprintf_d (count st));
            Log ("Progress saved: next run will start from row "
                 ++ Fmt.Sprintf_d newProgress)])
    end
  end
  end.

End Part001b.

(* ===================================================================== *)
(** ** Reading the results of a run *)

(** [sub] occurs in [s]. *)
Definition contains (s sub : string) : Prop :=
  exists pre post, s = (pre ++ sub ++ post)%string.

(** The number of drafts a run reports ("Total drafts created"). *)
Definition draftsCreated (r : RunResult) : Z :=
  match r with
  | Completed final => count final
  | SetupError _ => 0
  end.

Definition isDraftsCreateCall (e : Event) : bool :=
  match e with
  | DraftsCreateCall _ => true
  | _ => false
  end.

(** The model call failed: an error, or no candidate at all. *)
Definition chatFailed (c : ChatResult) : Prop :=
  match c with
  | ChatError _ => True
  | ChatChoices [] => True
  | ChatChoices (_ :: _) => False
  end.

(** The text of a list of lines, each closed by CRLF. *)
Fixpoint joinLines (chunks : list string) : string :=
  match chunks with
  | [] => EmptyString
  | c :: rest => (c ++ CRLF ++ joinLines rest)%string
  end.

(** The chunks put end to end. *)
Fixpoint concatChunks (chunks : list string) : string :=
  match chunks with
  | [] => EmptyString
  | c :: rest => (c ++ concatChunks rest)%string
  end.

(** Lines of 76 characters, the last one of 1 to 76. *)
Inductive wrapped76 : list string -> Prop :=
| wrapped_none : wrapped76 []
| wrapped_last (c : string) :
    (1 <= String.length c <= 76)%nat -> wrapped76 [c]
| wrapped_full (c : string) (rest : list string) :
    String.length c = 76%nat -> rest <> [] -> wrapped76 rest ->
    wrapped76 (c :: rest).

(* ===================================================================== *)
(** ** Sample worlds *)

Module Sample.

Definition rows : list (list string) :=
  [ ["No"; "Professor"; "Research"];
    ["1"; " Ann Lee : ann@uni.example "; " graph algorithms "];
    ["2"; "Bo Chen:bo@uni.example"; "consensus protocols"] ].

(** Everything succeeds; the cursor file holds [progress]. *)
Definition world (progress : option string) : World :=
  {| OpenFile := fun _ => None;
     GetRows := fun _ => Ok rows;
     ReadProgress := fun _ => progress;
     Getenv := fun _ => "sk-test";
     getGmailService := None;
     CreateChatCompletion := fun _ _ => ChatChoices ["Your work on graphs is of interest."];
     ReadAttachment := fun _ _ => Ok "%PDF-1.4 sample";
     TypeByExtension := fun _ => "application/pdf";
     DraftsCreate := fun _ _ => None;
     Int31 := fun i => i |}.

(** The model call returns an error for every row. *)
Definition chatDown : World :=
  {| OpenFile := fun _ => None;
     GetRows := fun _ => Ok rows;
     ReadProgress := fun _ => None;
     Getenv := fun _ => "sk-test";
     getGmailService := None;
     CreateChatCompletion := fun _ _ => ChatError "request timed out";
     ReadAttachment := fun _ _ => Ok "%PDF-1.4 sample";
     TypeByExtension := fun _ => "application/pdf";
     DraftsCreate := fun _ _ => None;
     Int31 := fun i => i |}.

(** The attachment cannot be read. *)
Definition noAttachment : World :=
  {| OpenFile := fun _ => None;
     GetRows := fun _ => Ok rows;
     ReadProgress := fun _ => None;
     Getenv := fun _ => "sk-test";
     getGmailService := None;
     CreateChatCompletion := fun _ _ => ChatChoices ["Your work on graphs is of interest."];
     ReadAttachment := fun _ _ => Err "open UsamaShoukatCV.pdf: no such file or directory";
     TypeByExtension := fun _ => "application/pdf";
     DraftsCreate := fun _ _ => None;
     Int31 := fun i => i |}.

Definition ann : Recipient :=
  mkRecipient "Ann Lee" "ann@uni.example" "graph algorithms".

Definition start : LoopState := mkLoopState 0 [].

End Sample.

(* ===================================================================== *)
(** ** The first program of src/unnamed/part_001 (lines 1-490): two modes,
       a first contact and a follow-up *)

Module Part001a.

Definition excelPath : string := "professors.xlsx".
Definition scholarshipType : string := "ANSO Scholarship ".
Definition followUpSheetName : string := "ZJU".
Definition followUpSchoolName : string := "Zhejiang University".
Definition sheetName : string := "UCAS".
Definition schoolName : string := "University of Chinese Academy of Sciences".
Definition attachmentPath : string := "UsamaShoukatCV.pdf".
Definition openAIModel : string := "gpt-4o-mini".
Definition maxDrafts : Z := 30.

(** Lines 50-53: the mode chosen from [os.Args]. *)
Definition selectMode (args : list string) : string :=
  let mode := "initial" in
  if (1 <? Z.of_nat (List.length args))
     && ((cell args 1 =? "followup")%string || (cell args 1 =? "initial")%string)
  then cell args 1 else mode.

(** The request of lines 221-251. *)
Definition researchRequest0 (research : string) : ChatRequest :=
  let prompt := ("
Extract the main research topics or directions from the text below. Then:

1. Compare these topics with the following background areas:
   Backend Development, Golang, Software Engineering, Distributed Systems, Databases, Cloud Computing, Cybersecurity, and AI.

2. If two or more topics align with the background:
   - Return only two that align the most based on relevance.

3. If only one topic aligns:
   - Return only that one.

4. If none align:
   - Return any two key topics from the research text.

STRICT FORMAT RULES:
- Output MUST contain exactly one " ++ DQUOTE ++ " and " ++ DQUOTE ++ " joining exactly two topics (unless only one aligns).
- No commas, no extra " ++ DQUOTE ++ "and" ++ DQUOTE ++ "s, no sentences, no punctuation.
- Only the topic name(s), all in lowercase.

Professor’s research text:
" ++ research ++ "
") in
  mkChatRequest openAIModel
    [("system", "You are an expert assistant extracting relevant research topics from text.");
     ("user", prompt)] EmptyString.

(** Lines 220-261. *)
Definition generateResearchParagraph0 (w : World) (i : Z) (research : string)
  : result string :=
  match CreateChatCompletion w i (researchRequest0 research) with
  | ChatError err => Err err
  | ChatChoices [] => Err "no choices returned"
  | ChatChoices (content :: _) => Ok (Strings.TrimSpace content)
  end.

(** Lines 263-286 (not called by this program's generateDrafts). *)
Definition generateEmailBody (profName researchPara : string) : string * string :=
  let subject := "Request for Master's Supervision (September 2026 Intake)" in
  let body := ("
	<html> <body> Dear Professor " ++ profName ++ ",<br><br> 
	I hope you are in a good health. I am <b>Usama Shoukat</b>, and I recently completed my <b>Bachelor's in Computer Science</b> 
from the <b>Government College University of Faisalabad, Pakistan</b> with a CGPA of <b>3.51/4.00</b>. 
I have a strong background in <b>software engineering and backend systems</b> where I have worked with Golang, JavaScript, 
APIs, distributed systems and different AI tools.<br><br> 
	I want to apply for a <b>Master’s Program under your supervision at the " ++ schoolName ++ "</b> via the <b>" ++ researchPara ++ " 2026</b>.<br><br> 
	" ++ scholarshipType ++ "
	<br><br> 
	If you are accepting new students, I would like to contribute to your research and learn under your guidance for the 
<b>2026 intake</b>. I have attached my CV for your review.<br><br> 
	Looking forward to hearing back from you.<br><br> Best regards,<br> 
	<b>Usama Shoukat</b><br> 
	WeChat ID: UsamaShoukatCS<br> 
	GitHub: <a href=" ++ DQUOTE ++ "https://github.com/usamashoukatcs" ++ DQUOTE ++ ">github.com/usamashoukatcs</a><br> 
	LinkedIn: <a href=" ++ DQUOTE ++ "https://www.linkedin.com/in/usama-shoukat/" ++ DQUOTE ++ ">linkedin.com/in/usama-shoukat</a> 
	</body> 
	</html>
	") in
  (subject, body).

(** Lines 288-313. *)
Definition generateEmailBody1 (profName researchPara : string) : string * string :=
  let subject := "Request for Master's Supervision (September 2026 Intake)" in
  let body := ("
	<html> <body> Respected Professor " ++ profName ++ ",<br><br> 
	I hope you are fine and good. I am Usama Shoukat from Pakistan. I have done my Bachelors in the field of Computer Science with a CGPA 
	of <b>3.51/4.00</b> from Government College University Faisalabad a well known University in Pakistan. 
	I have reviewed your research profile, and I am deeply inspired by your work, especially in the areas 
	of <b>" ++ researchPara ++ "</b>. I would be eager to explore these areas further under your guidance.<br><br> 
	I am highly motivated to pursue a Master's degree under your supervision and am fully prepared to contribute to your research group. 
	I am confident in my ability to adapt and work on ongoing or new research directions under your guidance.<br><br>
	I plan to apply for the " ++ scholarshipType ++ " or any equivalent scholarship offered by your institution, 
	which would cover all my academic expenses during my studies.<br><br>
	If possible, I kindly request an acceptance letter or email of interest from you, 
	as this would greatly strengthen my scholarship application. I have attached my CV with this email for your review.<br><br>
	Thank you very much for your time and consideration. I look forward to the possibility of working with you.<br><br> 
	Best regards,<br> 
	<b>Usama Shoukat</b><br> 
	WeChat ID: UsamaShoukatCS<br> 
	GitHub: <a href=" ++ DQUOTE ++ "https://github.com/usamashoukatcs" ++ DQUOTE ++ ">github.com/usamashoukatcs</a><br> 
	LinkedIn: <a href=" ++ DQUOTE ++ "https://www.linkedin.com/in/usama-shoukat/" ++ DQUOTE ++ ">linkedin.com/in/usama-shoukat</a> 
	</body> 
	</html>
	") in
  (subject, body).

(** The request of lines 316-331. *)
Definition topicsRequest (researchDirection : string) : ChatRequest :=
  let prompt := ("From the following research directions, extract only the main topics that are most relevant to backend development, Golang, software engineering, distributed systems, and AI. 
Return only the topic names as a short, comma-separated list (no sentences, no extra words).

Research directions:
" ++ researchDirection) in
  mkChatRequest openAIModel [("user", prompt)] "0.3".

(** Lines 315-340: the log line of the error branch and the topics. *)
Definition getRelevantTopics (w : World) (i : Z) (researchDirection : string)
  : list Event * string :=
  match CreateChatCompletion w i (topicsRequest researchDirection) with
  | ChatError err => ([Log ("Error extracting topics: " ++ err)], EmptyString)
  | ChatChoices [] => ([], EmptyString)
  | ChatChoices (content :: _) => ([], Strings.TrimSpace content)
  end.

(** Lines 342-375. *)
Definition generateFollowupEmailBody (professorName universityName topics : string)
  : string :=
  let topicLine :=
    if negb (topics =? "")%string
    then ("<p>I’m particularly interested in your research on <strong>" ++ topics ++ "</strong>, and I believe my background in backend development and Golang aligns well with these areas.</p>")
    else "<p>I remain deeply interested in your ongoing research directions.</p>" in
  ("
<html>
<body>
<p>Dear Professor " ++ professorName ++ ",</p>

<p>I hope you are doing well. I’m writing to follow up on my previous message to express my continued interest in joining your research group at <strong>" ++ universityName ++ "</strong>.</p>

" ++ topicLine ++ "

<p>I’m eager to contribute meaningfully and willing to put in the work required to progress effectively under your guidance.</p>

<p>For your convenience, I have reattached my CV.</p>

<p>Thank you for your time and kind consideration.</p>

<p>Best regards,<br>
<strong>Usama Shoukat</strong><br>
WeChat ID: UsamaShoukatCS<br>
GitHub: <a href=" ++ DQUOTE ++ "https://github.com/usamashoukatcs" ++ DQUOTE ++ ">github.com/usamashoukatcs</a><br>
LinkedIn: <a href=" ++ DQUOTE ++ "https://www.linkedin.com/in/usama-shoukat/" ++ DQUOTE ++ ">linkedin.com/in/usama-shoukat</a>
</p>
</body>
</html>
").

(** Lines 146-160: the subject and body for one recipient, with the log
    lines written on the way. *)
Definition composeFor (w : World) (mode : string) (i : Z) (r : Recipient)
  : list Event * (string * string) :=
  if (mode =? "followup")%string then
    let '(evs, topics) := getRelevantTopics w i (researchText r) in
    let subject := "Follow up on Master's Supervision Request (September 2026 Intake)" in
    let body := generateFollowupEmailBody (name r) followUpSchoolName topics in
    (evs, (subject, body))
  else
    let '(evs, para) :=
      match generateResearchParagraph0 w i (researchText r) with
      | Err err =>
          ([Log ("OpenAI error for " ++ name r ++ ": " ++ err
                 ++ " (fallback used)")],
           fallbackParagraph (researchText r))
      | Ok para => ([], para)
      end in
    (evs, generateEmailBody1 (name r) para).

(** Lines 162-169. *)
Definition dispatch (w : World) (i : Z) (r : Recipient)
  (subject body : string) (st : LoopState) : LoopState :=
  let '(evs, err) := createDraft w i (email r) subject body attachmentPath in
  let st := emit st evs in
  let st :=
    match err with
    | Some err =>
        emit st [Log ("❌ Draft creation failed for " ++ name r ++ ": " ++ err)]
    | None =>
        mkLoopState (GoInt.add (count st) 1)
          (events st ++ [Log ("✅ Draft created for " ++ name r ++ " <"
                              ++ email r ++ ">")])%list
    end in
  emit st [Sleep 2].

(** Lines 146-169: one recipient. *)
Definition processRecipient (w : World) (mode : string) (i : Z) (r : Recipient)
  (st : LoopState) : LoopState :=
  let '(evs, (subject, body)) := composeFor w mode i r in
  dispatch w i r subject body (emit st evs).

(** Lines 116-170. *)
Fixpoint rowLoop (w : World) (mode : string) (startIndex endIndex : Z) (i : Z)
  (rows : list (list string)) (st : LoopState) : LoopState :=
  match rows with
  | [] => st
  | row :: rest =>
      if i <? startIndex then rowLoop w mode startIndex endIndex (i + 1) rest st
      else if i >=? endIndex then st
      else
        match extractRecipient row with
        | None => rowLoop w mode startIndex endIndex (i + 1) rest st
        | Some r =>
            rowLoop w mode startIndex endIndex (i + 1) rest
              (processRecipient w mode i r st)
        end
  end.

(** The sheet and the cursor file of a mode (lines 70-73 and 84-87). *)
Definition sheetOf (mode : string) : string :=
  if (mode =? "followup")%string then followUpSheetName else sheetName.

Definition progressFileOf (mode : string) : string :=
  let progressFile := (sheetOf mode ++ "Progress.txt")%string in
  if (mode =? "followup")%string then "followUpProgress.txt" else progressFile.

(** Lines 64-182. *)
Definition generateDrafts (w : World) (mode : string) : RunResult :=
  match OpenFile w excelPath with
  | Some err => SetupError ("open excel: " ++ err)
  | None =>
  let sheet := sheetOf mode in
  match GetRows w sheet with
  | Err err => SetupError ("read rows: " ++ err)
  | Ok rows =>
  if Z.of_nat (List.length rows) <=? 1 then SetupError "no data rows found"
  else
    let progressFile := progressFileOf mode in
    let startIndex := loadStart (ReadProgress w progressFile) in
    let endIndex := endIndexOf startIndex maxDrafts in
    let st := mkLoopState 0
                [Log ("Processing professors " ++ Fmt.Sprintf_d startIndex
                      ++ " to " ++ Fmt.Sprintf_d endIndex ++ " ...")] in
    match getGmailService w with
    | Some err => SetupError ("gmail auth: " ++ err)
    | None =>
    if (Getenv w "OPENAI_API_KEY" =? "")%string
    then SetupError "OPENAI_API_KEY not set"
    else
      let st := rowLoop w mode startIndex endIndex 0 rows st in
      let newProgress := newProgressOf endIndex (Z.of_nat (List.length rows)) in
      Completed
        (emit st
           [WriteFile progressFile (Fmt.Sprintf_d newProgress);
            Log ("Total drafts created: " ++ Fmt.Sprintf_d (count st));
            Log ("Progress saved: next run will start from row "
                 ++ Fmt.Sprintf_d newProgress)])
    end
  end
  end.

End Part001a.

(* ===================================================================== *)
(** ** Counting what a run did *)

Definition isSleep (e : Event) : bool :=
  match e with
  | Sleep _ => true
  | _ => false
  end.

Definition isWriteFile (e : Event) : bool :=
  match e with
  | WriteFile _ _ => true
  | _ => false
  end.

(** How many events of a kind a list holds. *)
Definition countOf (kind : Event -> bool) (evs : list Event) : Z :=
  Z.of_nat (List.length (filter kind evs)).

(** The cursor file as the run leaves it: the content of the last write
    to [path], the content [before] the run when it wrote none. *)
Fixpoint fileAfter (path : string) (before : option string) (evs : list Event)
  : option string :=
  match evs with
  | [] => before
  | WriteFile p content :: rest =>
      if (p =? path)%string then fileAfter path (Some content) rest
      else fileAfter path before rest
  | _ :: rest => fileAfter path before rest
  end.

(** The world of the next run: the same, with the cursor file replaced. *)
Definition withProgress (w : World) (file : option string) : World :=
  {| OpenFile := OpenFile w;
     GetRows := GetRows w;
     ReadProgress := fun _ => file;
     Getenv := Getenv w;
     getGmailService := getGmailService w;
     CreateChatCompletion := CreateChatCompletion w;
     ReadAttachment := ReadAttachment w;
     TypeByExtension := TypeByExtension w;
     DraftsCreate := DraftsCreate w;
     Int31 := Int31 w |}.

(** The MIME document buildRawEmail assembles before its final encoding,
    given the attachment bytes it read (lines 257-299). *)
Definition mimeDocument (w : World) (to subject plainBody attachmentFile data : string)
  : string :=
  let fileName := Strings.SplitFile attachmentFile in
  let mimeType := TypeByExtension w (Strings.Ext fileName) in
  let mimeType :=
    if (mimeType =? "")%string then "application/octet-stream" else mimeType in
  ("To: " ++ to ++ CRLF
   ++ "Subject: " ++ subject ++ CRLF
   ++ "MIME-Version: 1.0" ++ CRLF
   ++ "Content-Type: multipart/mixed; boundary=BOUNDARY123" ++ CRLF
   ++ CRLF
   ++ "--BOUNDARY123" ++ CRLF
   ++ "Content-Type: text/html; charset=utf-8" ++ CRLF ++ CRLF
   ++ plainBody ++ CRLF
   ++ "--BOUNDARY123" ++ CRLF
   ++ "Content-Type: " ++ mimeType ++ "; name=" ++ DQUOTE ++ fileName ++ DQUOTE ++ CRLF
   ++ "Content-Transfer-Encoding: base64" ++ CRLF
   ++ "Content-Disposition: attachment; filename=" ++ DQUOTE ++ fileName ++ DQUOTE
   ++ CRLF ++ CRLF
   ++ wrapLines (Base64.EncodeToString Base64.encodeStd data)
   ++ "--BOUNDARY123--")%string.

(** Every byte of [s] is a character of [alphabet] or the padding. *)
Fixpoint inAlphabet (alphabet : string) (s : string) : bool :=
  match s with
  | EmptyString => true
  | String c rest =>
      (match Base64.decodeChar alphabet c with Some _ => true | None => false end
       || Base64.isPad c)
      && inAlphabet alphabet rest
  end.

(** The row loop with the work on one recipient left open: the shape
    shared by the loops of all programs. *)
Fixpoint loopWith (process : Z -> Recipient -> LoopState -> LoopState)
  (startIndex endIndex : Z) (i : Z) (rows : list (list string)) (st : LoopState)
  : LoopState :=
  match rows with
  | [] => st
  | row :: rest =>
      if i <? startIndex then loopWith process startIndex endIndex (i + 1) rest st
      else if i >=? endIndex then st
      else
        match extractRecipient row with
        | None => loopWith process startIndex endIndex (i + 1) rest st
        | Some r =>
            loopWith process startIndex endIndex (i + 1) rest (process i r st)
        end
  end.

(** The world as a run of src/main.go leaves it for the next run: the
    cursor file holds what the run wrote. *)
Definition nextWorld (w : World) : World :=
  match MainGo.generateDrafts w with
  | Completed final =>
      withProgress w
        (fileAfter "progress.txt" (ReadProgress w "progress.txt") (events final))
  | SetupError _ => w
  end.

Fixpoint afterRuns (n : nat) (w : World) : World :=
  match n with
  | O => w
  | S n' => nextWorld (afterRuns n' w)
  end.

(** The events of a run, none when it stopped in its setup. *)
Definition finalEvents (r : RunResult) : list Event :=
  match r with
  | Completed final => events final
  | SetupError _ => []
  end.

(** The books of a run balance: drafts counted, draft calls made and
    pauses taken, in that order, below the batch size. *)
Definition accounted (r : RunResult) (batchSize : Z) : Prop :=
  0 <= draftsCreated r
  /\ draftsCreated r <= countOf isDraftsCreateCall (finalEvents r)
  /\ countOf isDraftsCreateCall (finalEvents r) <= countOf isSleep (finalEvents r)
  /\ countOf isSleep (finalEvents r) <= batchSize.

(** The setup of src/main.go passes (lines 56-93) on a sheet of [rows]. *)
Definition setupPasses (w : World) (rows : list (list string)) : Prop :=
  OpenFile w MainGo.excelPath = None
  /\ GetRows w MainGo.sheetName = Ok rows
  /\ 2 <= Z.of_nat (List.length rows)
  /\ getGmailService w = None
  /\ Getenv w "OPENAI_API_KEY" <> EmptyString.

(** The scan shared by the two directions of TrimSpace: a leading white
    space unit of one, two or three bytes is dropped, as long as there is
    one. *)
Fixpoint trimWith (p1 : Z -> bool) (p2 : Z -> Z -> bool) (p3 : Z -> Z -> Z -> bool)
  (s : string) : string :=
  match s with
  | EmptyString => EmptyString
  | String a r1 =>
      if p1 (byteZ a) then trimWith p1 p2 p3 r1
      else
        match r1 with
        | String b r2 =>
            if p2 (byteZ a) (byteZ b) then trimWith p1 p2 p3 r2
            else
              match r2 with
              | String c r3 =>
                  if p3 (byteZ a) (byteZ b) (byteZ c)
                  then trimWith p1 p2 p3 r3 else s
              | EmptyString => s
              end
        | EmptyString => s
        end
  end.

(** More sample worlds. *)
Module Edge.

(** The model answers without an error and without a candidate. *)
Definition noCandidates : World :=
  {| OpenFile := fun _ => None;
     GetRows := fun _ => Ok Sample.rows;
     ReadProgress := fun _ => None;
     Getenv := fun _ => "sk-test";
     getGmailService := None;
     CreateChatCompletion := fun _ _ => ChatChoices [];
     ReadAttachment := fun _ _ => Ok "%PDF-1.4 sample";
     TypeByExtension := fun _ => "application/pdf";
     DraftsCreate := fun _ _ => None;
     Int31 := fun i => i |}.

(** The model answers with blank text. *)
Definition blankAnswer : World :=
  {| OpenFile := fun _ => None;
     GetRows := fun _ => Ok Sample.rows;
     ReadProgress := fun _ => None;
     Getenv := fun _ => "sk-test";
     getGmailService := None;
     CreateChatCompletion := fun _ _ => ChatChoices ["  "];
     ReadAttachment := fun _ _ => Ok "%PDF-1.4 sample";
     TypeByExtension := fun _ => "application/pdf";
     DraftsCreate := fun _ _ => None;
     Int31 := fun i => i |}.

End Edge.

(* ===================================================================== *)
(** * Properties *)

(** ** Machine integers and bytes *)

Lemma wrap_in_range (z : Z) : GoInt.in_range z -> GoInt.wrap z = z.
Proof.
  unfold GoInt.in_range, GoInt.min_int, GoInt.max_int, GoInt.wrap.
  intros H. rewrite Z.mod_small; lia.
Qed.

Lemma wrap_range (z : Z) : GoInt.in_range (GoInt.wrap z).
Proof.
  unfold GoInt.in_range, GoInt.min_int, GoInt.max_int, GoInt.wrap.
  pose proof (Z.mod_pos_bound (z + 2 ^ 63) (2 ^ 64) ltac:(lia)). lia.
Qed.

Lemma byteZ_range (c : ascii) : 0 <= byteZ c < 256.
Proof.
  unfold byteZ. pose proof (N_ascii_bounded c). lia.
Qed.

Lemma byteZ_Zbyte (z : Z) : 0 <= z < 256 -> byteZ (Zbyte z) = z.
Proof.
  intros H. unfold byteZ, Zbyte.
  rewrite Z.mod_small by lia.
  rewrite N_ascii_embedding by lia. lia.
Qed.

Lemma Zbyte_byteZ (c : ascii) : Zbyte (byteZ c) = c.
Proof.
  unfold Zbyte. rewrite Z.mod_small by apply byteZ_range.
  unfold byteZ. rewrite N2Z.id. apply ascii_N_embedding.
Qed.

(** ** Decimal text: what Sprintf writes, Sscanf reads back *)

Section DecimalRoundTrip.

Import Fmt.

Lemma digit_value (d : Z) :
  0 <= d < 10 -> byteZ (digit d) = 48 + d.
Proof. intros H. unfold digit. apply byteZ_Zbyte. lia. Qed.

Lemma digit_isDigit (d : Z) :
  0 <= d < 10 -> isDigit (byteZ (digit d)) = true.
Proof.
  intros H. rewrite digit_value by assumption. unfold isDigit. lia.
Qed.

Lemma fmtDigits_app (fuel : nat) (u : Z) (acc tail : string) :
  (fmtDigits fuel u acc ++ tail)%string = fmtDigits fuel u (acc ++ tail).
Proof.
  revert u acc. induction fuel as [|fuel IH]; intros u acc; simpl.
  - reflexivity.
  - destruct (u <? 10); [reflexivity|]. now rewrite IH.
Qed.

(** Reading back the digits just written continues from their value. *)
Lemma ParseUint_fmtDigits (fuel : nat) :
  forall (u : Z) (acc : string),
    0 <= u <= GoInt.max_uint64 -> u < 10 ^ Z.of_nat fuel ->
    ParseUint_from 0 (fmtDigits fuel u acc) = ParseUint_from u acc.
Proof.
  unfold GoInt.max_uint64.
  induction fuel as [|fuel IH]; intros u acc Hu Hlt.
  - simpl in Hlt. assert (u = 0) by lia. subst u. reflexivity.
  - cbn [fmtDigits]. destruct (u <? 10) eqn:Hsmall.
    + apply Z.ltb_lt in Hsmall. cbn [ParseUint_from].
      rewrite digit_isDigit, digit_value by lia.
      unfold GoInt.max_uint64.
      replace (0 >=? (2 ^ 64 - 1) / 10 + 1) with false by reflexivity.
      replace ((0 * 10 + (48 + u - 48)) mod 2 ^ 64) with u
        by (rewrite Z.mod_small; lia).
      replace ((u <? 0) || (u >? 2 ^ 64 - 1)) with false by lia.
      reflexivity.
    + apply Z.ltb_ge in Hsmall.
      assert (Hq : 0 <= u / 10 <= 2 ^ 64 - 1 /\ u / 10 < 10 ^ Z.of_nat fuel).
      { rewrite Nat2Z.inj_succ, Z.pow_succ_r in Hlt by lia.
        split; [split|].
        - apply Z.div_pos; lia.
        - apply Z.div_le_upper_bound; lia.
        - apply Z.div_lt_upper_bound; lia. }
      rewrite IH by tauto.
      cbn [ParseUint_from].
      pose proof (Z.mod_pos_bound u 10 ltac:(lia)) as Hm.
      rewrite digit_isDigit, digit_value by lia.
      unfold GoInt.max_uint64.
      pose proof (Z.div_mod u 10 ltac:(lia)) as Hdm.
      assert (Hc : (2 ^ 64 - 1) / 10 + 1 = 1844674407370955162) by reflexivity.
      rewrite Hc.
      replace (u / 10 >=? 1844674407370955162) with false by lia.
      replace ((u / 10 * 10 + (48 + u mod 10 - 48)) mod 2 ^ 64) with u
        by (rewrite Z.mod_small; lia).
      replace ((u <? u / 10) || (u >? 2 ^ 64 - 1)) with false by lia.
      reflexivity.
Qed.

Lemma acceptDigits_fmtDigits (fuel : nat) :
  forall (u : Z) (acc : string),
    0 <= u ->
    acceptDigits (fmtDigits fuel u acc) = fmtDigits fuel u (acceptDigits acc).
Proof.
  induction fuel as [|fuel IH]; intros u acc Hu.
  - reflexivity.
  - cbn [fmtDigits]. destruct (u <? 10) eqn:Hsmall.
    + apply Z.ltb_lt in Hsmall. cbn [acceptDigits].
      now rewrite digit_isDigit by lia.
    + apply Z.ltb_ge in Hsmall.
      rewrite IH by (apply Z.div_pos; lia).
      cbn [acceptDigits].
      pose proof (Z.mod_pos_bound u 10 ltac:(lia)).
      now rewrite digit_isDigit by lia.
Qed.

(** The text written for a number begins with a digit. *)
Lemma fmtDigits_head (fuel : nat) :
  forall (u : Z) (acc : string),
    0 <= u ->
    exists c rest,
      fmtDigits (S fuel) u acc = String c rest /\ isDigit (byteZ c) = true.
Proof.
  induction fuel as [|fuel IH]; intros u acc Hu.
  - cbn [fmtDigits]. destruct (u <? 10) eqn:Hsmall.
    + apply Z.ltb_lt in Hsmall. eexists _, _. split; [reflexivity|].
      apply digit_isDigit; lia.
    + pose proof (Z.mod_pos_bound u 10 ltac:(lia)).
      eexists _, _. split; [reflexivity|]. apply digit_isDigit; lia.
  - change (fmtDigits (S (S fuel)) u acc)
      with (if u <? 10 then String (digit u) acc
            else fmtDigits (S fuel) (u / 10) (String (digit (u mod 10)) acc)).
    destruct (u <? 10) eqn:Hsmall.
    + apply Z.ltb_lt in Hsmall. eexists _, _. split; [reflexivity|].
      apply digit_isDigit; lia.
    + apply Z.ltb_ge in Hsmall. apply IH. apply Z.div_pos; lia.
Qed.

(** Nothing is skipped in front of a digit or a sign. *)
Lemma SkipSpace_token (c : ascii) (rest : string) :
  isDigit (byteZ c) = true \/ byteZ c = 45 ->
  SkipSpace (String c rest) = Some (String c rest).
Proof.
  intros H. cbn [SkipSpace].
  assert (Ha : 45 <= byteZ c <= 57) by (unfold isDigit in H; lia).
  replace (byteZ c =? 10) with false by lia.
  replace (asciiSpace (byteZ c)) with false by (unfold asciiSpace; lia).
  destruct rest as [|b r2]; [reflexivity|].
  replace (space2 (byteZ c) (byteZ b)) with false by (unfold space2; lia).
  destruct r2 as [|d r3]; [reflexivity|].
  replace (space3 (byteZ c) (byteZ b) (byteZ d)) with false
    by (unfold space3; lia).
  reflexivity.
Qed.

End DecimalRoundTrip.

Lemma Sscanf_Sprintf (n : Z) (tail : string) :
  GoInt.in_range n ->
  Fmt.acceptDigits tail = EmptyString ->
  Fmt.Sscanf_d (Fmt.Sprintf_d n ++ tail) = Some n.
Proof.
  unfold GoInt.in_range, GoInt.min_int, GoInt.max_int.
  intros Hn Htail.
  assert (Hparse : forall u, 0 <= u <= 2 ^ 63 ->
            Fmt.ParseUint (Fmt.fmtDigits 20 u EmptyString) = Some u).
  { intros u Hu.
    destruct (fmtDigits_head 19 u EmptyString ltac:(lia)) as (c & r & Hs & _).
    unfold Fmt.ParseUint. rewrite Hs, <- Hs.
    rewrite ParseUint_fmtDigits; [reflexivity| |].
    - unfold GoInt.max_uint64. lia.
    - change (10 ^ Z.of_nat 20) with 100000000000000000000. lia. }
  unfold Fmt.Sprintf_d. destruct (n <? 0) eqn:Hneg.
  - apply Z.ltb_lt in Hneg.
    change (String (Zbyte 45) (Fmt.fmtDigits 20 (- n) EmptyString) ++ tail)%string
      with (String (Zbyte 45) (Fmt.fmtDigits 20 (- n) EmptyString ++ tail)%string).
    rewrite fmtDigits_app. cbn [append].
    assert (Hminus : byteZ (Zbyte 45) = 45) by reflexivity.
    unfold Fmt.Sscanf_d, Fmt.scanInt.
    rewrite !SkipSpace_token by (right; exact Hminus).
    rewrite Hminus. cbn [Z.eqb orb Pos.eqb].
    rewrite acceptDigits_fmtDigits, Htail by lia.
    destruct (fmtDigits_head 19 (- n) EmptyString ltac:(lia)) as (c & r & Hs & _).
    rewrite Hs, <- Hs.
    unfold Fmt.ParseInt. rewrite Hminus. cbn [Z.eqb orb Pos.eqb].
    rewrite Hparse by lia. cbn [negb andb].
    replace (- n >? 2 ^ 63) with false by lia.
    f_equal.
    unfold GoInt.wrap.
    pose proof (Z.mod_pos_bound (- n + 2 ^ 63) (2 ^ 64) ltac:(lia)).
    destruct (Z.eq_dec n (- 2 ^ 63)) as [->|Hne]; [reflexivity|].
    rewrite (Z.mod_small (- n + 2 ^ 63)) by lia.
    replace (- (- n + 2 ^ 63 - 2 ^ 63) + 2 ^ 63) with (n + 2 ^ 63) by lia.
    rewrite Z.mod_small by lia. lia.
  - apply Z.ltb_ge in Hneg.
    rewrite fmtDigits_app. cbn [append].
    destruct (fmtDigits_head 19 n tail ltac:(lia)) as (c & r & Hs & Hc).
    unfold Fmt.Sscanf_d, Fmt.scanInt.
    rewrite Hs, !SkipSpace_token by (left; exact Hc). rewrite <- Hs.
    assert (Hc' : 48 <= byteZ c <= 57) by (unfold Fmt.isDigit in Hc; lia).
    replace ((byteZ c =? 43) || (byteZ c =? 45)) with false by lia.
    rewrite acceptDigits_fmtDigits, Htail by lia.
    destruct (fmtDigits_head 19 n EmptyString ltac:(lia)) as (c0 & r0 & Hs0 & Hc0).
    rewrite Hs0. unfold Fmt.ParseInt.
    assert (Hc0' : 48 <= byteZ c0 <= 57) by (unfold Fmt.isDigit in Hc0; lia).
    replace (byteZ c0 =? 45) with false by lia.
    replace (byteZ c0 =? 43) with false by lia.
    cbn [orb negb andb]. rewrite <- Hs0.
    rewrite Hparse by lia.
    replace (n >=? 2 ^ 63) with false by lia.
    f_equal. apply wrap_in_range.
    unfold GoInt.in_range, GoInt.min_int, GoInt.max_int. lia.
Qed.

(** ** Batch cursor *)

Lemma ParseInt_in_range (s : string) (n : Z) :
  Fmt.ParseInt s = Some n -> GoInt.in_range n.
Proof.
  unfold Fmt.ParseInt. destruct s as [|a body]; [discriminate|].
  destruct (Fmt.ParseUint _) as [un|]; [|discriminate].
  destruct (negb _ && _); [discriminate|].
  destruct (_ && _); [discriminate|].
  intros H. injection H as <-.
  destruct (byteZ a =? 45); apply wrap_range.
Qed.

Lemma Sscanf_d_in_range (data : string) (n : Z) :
  Fmt.Sscanf_d data = Some n -> GoInt.in_range n.
Proof.
  unfold Fmt.Sscanf_d, Fmt.scanInt.
  destruct (Fmt.SkipSpace data) as [s|]; [|discriminate].
  destruct (Fmt.SkipSpace s) as [[|c rest]|]; try discriminate.
  destruct (Fmt.acceptDigits _); [discriminate|].
  apply ParseInt_in_range.
Qed.

Lemma loadStart_in_range (file : option string) : GoInt.in_range (loadStart file).
Proof.
  unfold loadStart. destruct file as [data|].
  - destruct (Fmt.Sscanf_d data) as [n|] eqn:H.
    + eapply Sscanf_d_in_range; eassumption.
    + unfold GoInt.in_range, GoInt.min_int, GoInt.max_int. lia.
  - unfold GoInt.in_range, GoInt.min_int, GoInt.max_int. lia.
Qed.

(** C1, as stated, fails: a start index beyond the last row is not clamped,
    so the saved end (the row count) lies below it. *)
Lemma computeWindow_end_below_start :
  ~ (snd (computeWindow 50 30 10) = Z.min (50 + 30) 10
     /\ snd (computeWindow 50 30 10) >= 50).
Proof.
  intros [_ H]. vm_compute in H. apply H. reflexivity.
Qed.

(** C1 (amended): when [start + batchSize] fits in an [int], the end of
    the window is [min(start + batchSize, totalRows)]; it is at least
    [start] whenever the batch size is non-negative and [start] does not
    exceed [totalRows]. *)
Theorem computeWindow_end (start batchSize totalRows : Z) :
  GoInt.in_range (start + batchSize) ->
  snd (computeWindow start batchSize totalRows) = Z.min (start + batchSize) totalRows
  /\ (0 <= batchSize -> start <= totalRows ->
      snd (computeWindow start batchSize totalRows) >= start).
Proof.
  intros Hr. unfold computeWindow, endIndexOf, newProgressOf, GoInt.add. cbn [snd].
  rewrite wrap_in_range by assumption.
  destruct (start + batchSize >? totalRows) eqn:Hgt; lia.
Qed.

Lemma computeWindow_end_witness :
  GoInt.in_range (1 + 30)
  /\ snd (computeWindow 1 30 3) = Z.min (1 + 30) 3
  /\ snd (computeWindow 1 30 3) >= 1.
Proof.
  assert (Hr : GoInt.in_range (1 + 30)).
  { unfold GoInt.in_range, GoInt.min_int, GoInt.max_int. lia. }
  split; [exact Hr|].
  destruct (computeWindow_end 1 30 3 Hr) as [He Hs].
  split; [exact He|]. apply Hs; lia.
Defined.

Lemma endsNumber_accept (tail : string) :
  endsNumber tail = true -> Fmt.acceptDigits tail = EmptyString.
Proof.
  destruct tail as [|c r]; [reflexivity|]. cbn [endsNumber Fmt.acceptDigits].
  destruct (Fmt.isDigit (byteZ c)); [discriminate|reflexivity].
Qed.

(** Blanks in front of the text are skipped. *)
Lemma SkipSpace_blanks (blanks rest : string) :
  allBlank blanks = true ->
  Fmt.SkipSpace (blanks ++ rest) = Fmt.SkipSpace rest.
Proof.
  induction blanks as [|a b IH]; intros H; [reflexivity|].
  cbn [allBlank] in H. apply andb_true_iff in H. destruct H as [Ha Hb].
  cbn [append Fmt.SkipSpace].
  unfold isBlankByte in Ha.
  replace (byteZ a =? 10) with false by lia.
  replace (asciiSpace (byteZ a)) with true by (unfold asciiSpace; lia).
  now apply IH.
Qed.

Lemma Sscanf_blanks (blanks rest : string) :
  allBlank blanks = true ->
  Fmt.Sscanf_d (blanks ++ rest) = Fmt.Sscanf_d rest.
Proof.
  intros H. unfold Fmt.Sscanf_d. now rewrite SkipSpace_blanks.
Qed.

(** Nothing is skipped in front of an ASCII character that is not white
    space. *)
Lemma SkipSpace_plain (c : ascii) (rest : string) :
  byteZ c < 128 -> asciiSpace (byteZ c) = false ->
  Fmt.SkipSpace (String c rest) = Some (String c rest).
Proof.
  intros Hc Hs. cbn [Fmt.SkipSpace]. rewrite Hs.
  replace (byteZ c =? 10) with false by (unfold asciiSpace in Hs; lia).
  destruct rest as [|b r2]; [reflexivity|].
  replace (space2 (byteZ c) (byteZ b)) with false by (unfold space2; lia).
  destruct r2 as [|d r3]; [reflexivity|].
  replace (space3 (byteZ c) (byteZ b) (byteZ d)) with false
    by (unfold space3; lia).
  reflexivity.
Qed.

Lemma Sscanf_notANumber (rest : string) :
  notANumber rest = true -> Fmt.Sscanf_d rest = None.
Proof.
  destruct rest as [|c r]; [reflexivity|].
  unfold notANumber. intros H.
  destruct (byteZ c =? 10) eqn:Hlf.
  { unfold Fmt.Sscanf_d. cbn [Fmt.SkipSpace]. now rewrite Hlf. }
  cbn [orb] in H.
  assert (Hplain : byteZ c < 128 /\ asciiSpace (byteZ c) = false).
  { unfold isSign, asciiSpace in *. lia. }
  destruct Hplain as [Hc Hs].
  unfold Fmt.Sscanf_d, Fmt.scanInt.
  rewrite !SkipSpace_plain by assumption.
  fold (isSign (byteZ c)).
  destruct (isSign (byteZ c)) eqn:Hsign.
  - cbn [andb orb] in H. destruct (endsNumber r) eqn:He.
    + now rewrite (endsNumber_accept r He).
    + cbn [negb andb] in H. rewrite !andb_false_r in H. discriminate.
  - cbn [andb orb negb] in H.
    cbn [Fmt.acceptDigits].
    destruct (Fmt.isDigit (byteZ c)); [|reflexivity].
    cbn [negb andb] in H. rewrite !andb_false_r in H. discriminate.
Qed.

(** Reading back the digits of any natural number: the value when it
    fits in 64 bits, a range error when it does not. *)
Lemma ParseUint_fmtDigits_any (fuel : nat) :
  forall (u : Z) (acc : string),
    0 <= u < 10 ^ Z.of_nat fuel ->
    Fmt.ParseUint_from 0 (Fmt.fmtDigits fuel u acc)
    = if u <=? GoInt.max_uint64 then Fmt.ParseUint_from u acc else None.
Proof.
  unfold GoInt.max_uint64.
  induction fuel as [|fuel IH]; intros u acc Hu.
  - simpl in Hu. assert (u = 0) by lia. subst u. reflexivity.
  - destruct (Z.leb_spec u (2 ^ 64 - 1)) as [Hfit|Hbig].
    + rewrite ParseUint_fmtDigits; [reflexivity| |lia].
      unfold GoInt.max_uint64. lia.
    + cbn [Fmt.fmtDigits].
      replace (u <? 10) with false by lia.
      assert (Hq : 0 <= u / 10 < 10 ^ Z.of_nat fuel).
      { rewrite Nat2Z.inj_succ, Z.pow_succ_r in Hu by lia.
        split; [apply Z.div_pos; lia|apply Z.div_lt_upper_bound; lia]. }
      rewrite IH by assumption.
      destruct (Z.leb_spec (u / 10) (2 ^ 64 - 1)) as [Hqfit|Hqbig]; [|reflexivity].
      cbn [Fmt.ParseUint_from].
      pose proof (Z.mod_pos_bound u 10 ltac:(lia)) as Hm.
      pose proof (Z.div_mod u 10 ltac:(lia)) as Hdm.
      rewrite digit_isDigit, digit_value by lia.
      unfold GoInt.max_uint64.
      assert (Hc : (2 ^ 64 - 1) / 10 + 1 = 1844674407370955162) by reflexivity.
      rewrite Hc.
      destruct (Z.geb_spec (u / 10) 1844674407370955162) as [Hge|Hlt];
        [reflexivity|].
      replace ((u / 10 * 10 + (48 + u mod 10 - 48)) mod 2 ^ 64) with (u - 2 ^ 64)
        by (apply Z.mod_unique with 1; lia).
      replace (u - 2 ^ 64 <? u / 10) with true by lia.
      reflexivity.
Qed.

(** A number beyond the range of an [int] is a range error of the scan. *)
Lemma Sscanf_out_of_range (u : Z) (tail : string) :
  2 ^ 63 <= u < 10 ^ 20 -> endsNumber tail = true ->
  Fmt.Sscanf_d (decimal u ++ tail) = None
  /\ (2 ^ 63 < u -> Fmt.Sscanf_d ("-" ++ decimal u ++ tail) = None).
Proof.
  intros Hu Htail. apply endsNumber_accept in Htail.
  unfold decimal.
  assert (Hparse : Fmt.ParseUint (Fmt.fmtDigits 20 u EmptyString)
                   = if u <=? GoInt.max_uint64 then Some u else None).
  { destruct (fmtDigits_head 19 u EmptyString ltac:(lia)) as (c & r & Hs & _).
    unfold Fmt.ParseUint. rewrite Hs, <- Hs.
    rewrite ParseUint_fmtDigits_any; [reflexivity|].
    change (10 ^ Z.of_nat 20) with (10 ^ 20). lia. }
  split.
  - rewrite fmtDigits_app. cbn [append].
    destruct (fmtDigits_head 19 u tail ltac:(lia)) as (c & r & Hs & Hc).
    unfold Fmt.Sscanf_d, Fmt.scanInt.
    rewrite Hs, !SkipSpace_token by (left; exact Hc). rewrite <- Hs.
    assert (Hc' : 48 <= byteZ c <= 57) by (unfold Fmt.isDigit in Hc; lia).
    replace ((byteZ c =? 43) || (byteZ c =? 45)) with false by lia.
    rewrite acceptDigits_fmtDigits, Htail by lia.
    destruct (fmtDigits_head 19 u EmptyString ltac:(lia)) as (c0 & r0 & Hs0 & Hc0).
    rewrite Hs0. unfold Fmt.ParseInt.
    assert (Hc0' : 48 <= byteZ c0 <= 57) by (unfold Fmt.isDigit in Hc0; lia).
    replace (byteZ c0 =? 45) with false by lia.
    replace (byteZ c0 =? 43) with false by lia.
    cbn [orb negb andb]. rewrite <- Hs0, Hparse.
    destruct (u <=? GoInt.max_uint64); [|reflexivity].
    replace (u >=? 2 ^ 63) with true by lia. reflexivity.
  - intros Hneg.
    change ("-" ++ Fmt.fmtDigits 20 u EmptyString ++ tail)%string
      with (String (Zbyte 45) (Fmt.fmtDigits 20 u EmptyString ++ tail)%string).
    rewrite fmtDigits_app. cbn [append].
    assert (Hminus : byteZ (Zbyte 45) = 45) by reflexivity.
    unfold Fmt.Sscanf_d, Fmt.scanInt.
    rewrite !SkipSpace_token by (right; exact Hminus).
    rewrite Hminus. cbn [Z.eqb orb Pos.eqb].
    rewrite acceptDigits_fmtDigits, Htail by lia.
    destruct (fmtDigits_head 19 u EmptyString ltac:(lia)) as (c & r & Hs & _).
    rewrite Hs, <- Hs.
    unfold Fmt.ParseInt. rewrite Hminus. cbn [Z.eqb orb Pos.eqb].
    rewrite Hparse.
    destruct (u <=? GoInt.max_uint64); [|reflexivity].
    cbn [negb andb].
    replace (u >? 2 ^ 63) with true by lia. reflexivity.
Qed.

(** The program reads past an underscore no further than past any other
    character that is not a digit. *)
Example loadStart_stops_at_underscore :
  loadStart (Some "7_") = 7 /\ loadStart (Some "2_000") = 2.
Proof. split; reflexivity. Qed.

(** C3, as stated, fails: a cursor file holding zero is taken as it is. *)
Lemma loadStart_zero_not_positive :
  ~ (loadStart (Some "0") >= 1).
Proof.
  vm_compute. intros H. apply H. reflexivity.
Qed.

(** C3 (amended): the start index is the integer scanned from the cursor
    file, unchanged, when the file scans as an integer, and 1 otherwise
    (the file is missing, or does not scan).  Every [int], zero and the
    negative ones included, is read back unchanged from its decimal text,
    so the start index is below 1 for such a file; and the start index is
    at least 1 exactly when the file is missing, does not scan, or holds
    an integer that is itself at least 1. *)
Theorem loadStart_lower_bound :
  (forall data n, Fmt.Sscanf_d data = Some n -> loadStart (Some data) = n)
  /\ loadStart None = 1
  /\ (forall data, Fmt.Sscanf_d data = None -> loadStart (Some data) = 1)
  /\ (forall n tail,
        GoInt.in_range n -> endsNumber tail = true ->
        loadStart (Some (Fmt.Sprintf_d n ++ tail)) = n
        /\ (loadStart (Some (Fmt.Sprintf_d n ++ tail)) >= 1 <-> 1 <= n))
  /\ (forall file,
        loadStart file >= 1
        <-> (forall data n,
                file = Some data -> Fmt.Sscanf_d data = Some n -> 1 <= n)).
Proof.
  split; [|split; [|split; [|split]]].
  - intros data n H. unfold loadStart. now rewrite H.
  - reflexivity.
  - intros data H. unfold loadStart. now rewrite H.
  - intros n tail Hn Htail.
    assert (E : loadStart (Some (Fmt.Sprintf_d n ++ tail)) = n).
    { unfold loadStart.
      now rewrite Sscanf_Sprintf by (try apply endsNumber_accept; assumption). }
    rewrite E. split; [reflexivity|lia].
  - intros file. unfold loadStart. destruct file as [data|].
    + destruct (Fmt.Sscanf_d data) as [m|] eqn:Hs; split.
      * intros H data' n' Hd Hn. injection Hd as <-.
        assert (n' = m) by congruence. lia.
      * intros H. specialize (H data m eq_refl Hs). lia.
      * intros _ data' n' Hd Hn. injection Hd as <-. congruence.
      * intros _. lia.
    + split; [intros _ data n Hd; discriminate|intros _; lia].
Qed.

Lemma loadStart_lower_bound_witness :
  loadStart (Some (Fmt.Sprintf_d (-5) ++ LF)) = -5
  /\ (loadStart (Some (Fmt.Sprintf_d (-5) ++ LF)) >= 1 <-> 1 <= -5).
Proof.
  apply (proj1 (proj2 (proj2 (proj2 loadStart_lower_bound))) (-5) LF).
  - unfold GoInt.in_range, GoInt.min_int, GoInt.max_int. lia.
  - reflexivity.
Defined.

(** C6: a cursor file that holds the decimal text of an integer [n] with
    [1 <= n <= totalRows], after any blanks and before anything that is
    not a digit, loads as exactly [n].  A missing file loads as 1, and so
    does a file in which no integer can be read: an empty or blank file,
    a file whose number comes after a line feed, after a sign that no
    digit follows, or after a character that is neither white space, digit
    nor sign, and a file whose number is beyond the range of an [int].
    The result is always a plain integer: there is no failure to report
    to the caller. *)
Theorem loadStart_valid_or_default :
  (forall (blanks : string) (n totalRows : Z) (tail : string),
      allBlank blanks = true ->
      1 <= n <= totalRows -> totalRows <= GoInt.max_int ->
      endsNumber tail = true ->
      loadStart (Some (blanks ++ Fmt.Sprintf_d n ++ tail)) = n)
  /\ loadStart None = 1
  /\ (forall blanks rest,
        allBlank blanks = true -> notANumber rest = true ->
        loadStart (Some (blanks ++ rest)) = 1)
  /\ (forall blanks u tail,
        allBlank blanks = true -> 2 ^ 63 <= u < 10 ^ 20 ->
        endsNumber tail = true ->
        loadStart (Some (blanks ++ decimal u ++ tail)) = 1)
  /\ (forall data, Fmt.Sscanf_d data = None -> loadStart (Some data) = 1).
Proof.
  split; [|split; [|split; [|split]]].
  - intros blanks n totalRows tail Hb Hn Ht Htail. unfold loadStart.
    rewrite Sscanf_blanks by assumption.
    rewrite Sscanf_Sprintf; [reflexivity| |now apply endsNumber_accept].
    unfold GoInt.in_range, GoInt.min_int, GoInt.max_int in *. lia.
  - reflexivity.
  - intros blanks rest Hb Hr. unfold loadStart.
    rewrite Sscanf_blanks by assumption.
    now rewrite Sscanf_notANumber.
  - intros blanks u tail Hb Hu Htail. unfold loadStart.
    rewrite Sscanf_blanks by assumption.
    destruct (Sscanf_out_of_range u tail Hu Htail) as [E _]. now rewrite E.
  - intros data H. unfold loadStart. now rewrite H.
Qed.

Lemma loadStart_valid_or_default_witness :
  loadStart (Some (" " ++ Fmt.Sprintf_d 26 ++ LF)) = 26.
Proof.
  apply (proj1 loadStart_valid_or_default " " 26 40 LF).
  - reflexivity.
  - lia.
  - unfold GoInt.max_int. lia.
  - reflexivity.
Defined.

(** ** The row loop of src/main.go *)

Lemma string_app_assoc (a b c : string) :
  ((a ++ b) ++ c)%string = (a ++ (b ++ c))%string.
Proof.
  induction a as [|x a IH]; simpl; [reflexivity|]. now rewrite IH.
Qed.

Lemma contains_here (sub post : string) : contains (sub ++ post) sub.
Proof. exists EmptyString, post. reflexivity. Qed.

Lemma contains_later (pre s sub : string) :
  contains s sub -> contains (pre ++ s) sub.
Proof.
  intros (p & q & ->). exists (pre ++ p)%string, q.
  now rewrite string_app_assoc.
Qed.

Section MainLoop.

Import MainGo.
Variable w : World.

Lemma dispatch_count (i : Z) (r : Recipient) (subject body : string)
  (st : LoopState) :
  count (dispatch w i r subject body st) = count st
  \/ count (dispatch w i r subject body st) = GoInt.add (count st) 1.
Proof.
  unfold dispatch.
  destruct (createDraft w i (email r) subject body attachmentPath) as [evs [err|]];
    cbn; auto.
Qed.

Lemma dispatch_events (i : Z) (r : Recipient) (subject body : string)
  (st : LoopState) :
  exists evs, events (dispatch w i r subject body st) = (events st ++ evs)%list.
Proof.
  unfold dispatch.
  destruct (createDraft w i (email r) subject body attachmentPath) as [evs [err|]];
    cbn; rewrite <- ?app_assoc; eexists; reflexivity.
Qed.

Lemma processRecipient_count (i : Z) (r : Recipient) (st : LoopState) :
  count (processRecipient w i r st) = count st
  \/ count (processRecipient w i r st) = GoInt.add (count st) 1.
Proof.
  unfold processRecipient.
  destruct (composeFor w i r) as [evs [subject body]].
  apply (dispatch_count i r subject body (emit st evs)).
Qed.

Lemma processRecipient_events (i : Z) (r : Recipient) (st : LoopState) :
  exists evs, events (processRecipient w i r st) = (events st ++ evs)%list.
Proof.
  unfold processRecipient.
  destruct (composeFor w i r) as [evs [subject body]].
  destruct (dispatch_events i r subject body (emit st evs)) as [evs' H].
  rewrite H. cbn. rewrite <- app_assoc. eexists; reflexivity.
Qed.

(** One full pass through the loop body. *)
Lemma rowLoop_step (s e i : Z) (row : list string) (rest : list (list string))
  (r : Recipient) (st : LoopState) :
  s <= i < e -> extractRecipient row = Some r ->
  rowLoop w s e i (row :: rest) st
  = rowLoop w s e (i + 1) rest (processRecipient w i r st).
Proof.
  intros Hi Hr. cbn [rowLoop]. rewrite Hr.
  replace (i <? s) with false by lia.
  replace (i >=? e) with false by lia.
  reflexivity.
Qed.

(** The counter grows by at most one per index of the window that is
    still ahead. *)
Lemma rowLoop_count (s e : Z) :
  forall (rows : list (list string)) (i : Z) (st : LoopState),
    count st + Z.max 0 (e - Z.max i s) <= GoInt.max_int ->
    GoInt.min_int <= count st ->
    count st <= count (rowLoop w s e i rows st)
             <= count st + Z.max 0 (e - Z.max i s).
Proof.
  induction rows as [|row rest IH]; intros i st Hmax Hmin; cbn [rowLoop].
  - lia.
  - destruct (i <? s) eqn:Hlt.
    + specialize (IH (i + 1) st). lia.
    + destruct (i >=? e) eqn:Hge; [lia|].
      destruct (extractRecipient row) as [r|].
      * destruct (processRecipient_count i r st) as [Hc|Hc].
        -- specialize (IH (i + 1) (processRecipient w i r st)).
           rewrite Hc in IH. lia.
        -- assert (Hadd : GoInt.add (count st) 1 = count st + 1).
           { apply wrap_in_range. unfold GoInt.in_range. lia. }
           rewrite Hadd in Hc.
           specialize (IH (i + 1) (processRecipient w i r st)).
           rewrite Hc in IH. lia.
      * specialize (IH (i + 1) st). lia.
Qed.

Lemma rowLoop_events (s e : Z) :
  forall (rows : list (list string)) (i : Z) (st : LoopState),
    exists evs, events (rowLoop w s e i rows st) = (events st ++ evs)%list.
Proof.
  induction rows as [|row rest IH]; intros i st; cbn [rowLoop].
  - exists []. now rewrite app_nil_r.
  - destruct (i <? s); [apply IH|].
    destruct (i >=? e); [exists []; now rewrite app_nil_r|].
    destruct (extractRecipient row) as [r|]; [|apply IH].
    destruct (IH (i + 1) (processRecipient w i r st)) as [evs2 H2].
    destruct (processRecipient_events i r st) as [evs1 H1].
    rewrite H2, H1, <- app_assoc. eexists; reflexivity.
Qed.

(** No row is reached when the start index lies beyond the rows. *)
Lemma rowLoop_past_end (s e : Z) :
  forall (rows : list (list string)) (i : Z) (st : LoopState),
    i + Z.of_nat (List.length rows) <= s ->
    rowLoop w s e i rows st = st.
Proof.
  induction rows as [|row rest IH]; intros i st H; cbn [rowLoop].
  - reflexivity.
  - cbn [List.length] in H. replace (i <? s) with true by lia.
    apply IH. lia.
Qed.

End MainLoop.

Lemma endIndexOf_le (start batchSize : Z) :
  GoInt.in_range start -> 0 <= batchSize <= GoInt.max_int ->
  endIndexOf start batchSize <= start + batchSize.
Proof.
  unfold endIndexOf, GoInt.add, GoInt.wrap, GoInt.in_range,
    GoInt.min_int, GoInt.max_int.
  intros Hs Hb.
  pose proof (Z.mod_le (start + batchSize + 2 ^ 63) (2 ^ 64) ltac:(lia) ltac:(lia)).
  lia.
Qed.

(** C10: a run reports at most [maxDrafts] drafts created. *)
Theorem drafts_at_most_maxDrafts (w : World) :
  0 <= draftsCreated (MainGo.generateDrafts w) <= MainGo.maxDrafts.
Proof.
  unfold MainGo.generateDrafts, MainGo.maxDrafts.
  destruct (OpenFile w MainGo.excelPath); [cbn; lia|].
  destruct (GetRows w MainGo.sheetName) as [rows|]; [|cbn; lia].
  destruct (Z.of_nat (List.length rows) <=? 1); [cbn; lia|].
  destruct (getGmailService w); [cbn; lia|].
  destruct (Getenv w "OPENAI_API_KEY" =? "")%string; [cbn; lia|].
  cbn [draftsCreated emit count].
  set (s := loadStart (ReadProgress w "progress.txt")).
  set (st0 := mkLoopState 0 _).
  pose proof (loadStart_in_range (ReadProgress w "progress.txt")) as Hs.
  fold s in Hs.
  assert (He : endIndexOf s 30 <= s + 30).
  { apply endIndexOf_le; [assumption|]. unfold GoInt.max_int. lia. }
  pose proof (rowLoop_count w s (endIndexOf s 30) rows 0 st0) as H.
  change (count st0) with 0 in H.
  unfold GoInt.max_int, GoInt.min_int in H. lia.
Qed.

(** C2, as stated, fails: with the cursor file at the largest [int] the
    end index wraps around; no row is handled (the start lies beyond the
    three rows), yet what is written is the wrapped end, not the row
    count 3. *)
Lemma cursor_wraps_counterexample :
  exists final,
    MainGo.generateDrafts (Sample.world (Some "9223372036854775807"))
    = Completed final
    /\ loadStart (Some "9223372036854775807") >= Z.of_nat (List.length Sample.rows)
    /\ In (WriteFile "progress.txt" "-9223372036854775779") (events final)
    /\ ~ In (WriteFile "progress.txt" (Fmt.Sprintf_d (Z.of_nat (List.length Sample.rows))))
           (events final).
Proof.
  eexists. split; [vm_compute; reflexivity|].
  split; [vm_compute; discriminate|].
  split.
  - cbn. right. left. reflexivity.
  - cbn. intros [H|[H|[H|[H|[]]]]]; discriminate H.
Qed.

(** C2 (amended): in every run of src/main.go that gets past its setup
    and whose start index leaves room for the batch
    ([startIndex + maxDrafts] fits in an [int]), the last file write of
    the run stores [min(startIndex + maxDrafts, totalRows)] in the cursor
    file, whatever the per-recipient calls returned; when moreover
    [startIndex >= totalRows] the loop handles no row at all and the value
    stored is [totalRows]. *)
Theorem cursor_saved_after_batch
  (w : World) (rows : list (list string)) (final : LoopState) :
  let start := loadStart (ReadProgress w "progress.txt") in
  let total := Z.of_nat (List.length rows) in
  GetRows w MainGo.sheetName = Ok rows ->
  MainGo.generateDrafts w = Completed final ->
  start + MainGo.maxDrafts <= GoInt.max_int ->
  (exists loopEvents,
      events final
      = (Log ("Processing professors " ++ Fmt.Sprintf_d start ++ " to "
              ++ Fmt.Sprintf_d (start + MainGo.maxDrafts) ++ " ...")
         :: loopEvents
         ++ [WriteFile "progress.txt"
               (Fmt.Sprintf_d (Z.min (start + MainGo.maxDrafts) total));
             Log ("Total drafts created: " ++ Fmt.Sprintf_d (count final));
             Log ("Progress saved: next run will start from row "
                  ++ Fmt.Sprintf_d (Z.min (start + MainGo.maxDrafts) total))])%list)
  /\ (start >= total ->
      count final = 0
      /\ events final
         = [Log ("Processing professors " ++ Fmt.Sprintf_d start ++ " to "
                 ++ Fmt.Sprintf_d (start + MainGo.maxDrafts) ++ " ...");
            WriteFile "progress.txt" (Fmt.Sprintf_d total);
            Log "Total drafts created: 0";
            Log ("Progress saved: next run will start from row "
                 ++ Fmt.Sprintf_d total)]).
Proof.
  intros start total Hrows Hrun Hfit.
  unfold MainGo.generateDrafts in Hrun. rewrite Hrows in Hrun.
  destruct (OpenFile w MainGo.excelPath); [discriminate|].
  destruct (Z.of_nat (List.length rows) <=? 1); [discriminate|].
  destruct (getGmailService w); [discriminate|].
  destruct (Getenv w "OPENAI_API_KEY" =? "")%string; [discriminate|].
  fold start in Hrun. fold total in Hrun.
  pose proof (loadStart_in_range (ReadProgress w "progress.txt")) as Hs.
  fold start in Hs.
  assert (Hend : endIndexOf start MainGo.maxDrafts = start + MainGo.maxDrafts).
  { unfold endIndexOf, GoInt.add. apply wrap_in_range.
    unfold GoInt.in_range, MainGo.maxDrafts in *. lia. }
  rewrite Hend in Hrun.
  assert (Hnew : newProgressOf (start + MainGo.maxDrafts) total
                 = Z.min (start + MainGo.maxDrafts) total).
  { unfold newProgressOf.
    destruct (start + MainGo.maxDrafts >? total) eqn:Hgt; lia. }
  rewrite Hnew in Hrun.
  match type of Hrun with
  | Completed (emit (MainGo.rowLoop _ _ _ _ _ ?st0) _) = _ =>
      set (init := st0) in *
  end.
  match type of Hrun with
  | Completed ?f = _ => assert (Hf : final = f) by congruence
  end.
  clear Hrun. subst final. cbn [emit count events].
  split.
  - destruct (rowLoop_events w start (start + MainGo.maxDrafts) rows 0 init)
      as [evs Hevs].
    exists evs. rewrite Hevs. reflexivity.
  - intros Hpast.
    rewrite rowLoop_past_end by (fold total; lia).
    replace (Z.min (start + MainGo.maxDrafts) total) with total
      by (unfold MainGo.maxDrafts; lia).
    split; reflexivity.
Qed.

Lemma cursor_saved_after_batch_witness :
  exists final loopEvents,
    MainGo.generateDrafts Sample.noAttachment = Completed final
    /\ events final
       = (Log "Processing professors 1 to 31 ..."
          :: loopEvents
          ++ [WriteFile "progress.txt" "3";
              Log "Total drafts created: 0";
              Log "Progress saved: next run will start from row 3"])%list.
Proof.
  assert (Hrun : exists final,
             MainGo.generateDrafts Sample.noAttachment = Completed final
             /\ count final = 0).
  { eexists. split; vm_compute; reflexivity. }
  destruct Hrun as (final & Hrun & Hcount).
  assert (Hfit : loadStart (ReadProgress Sample.noAttachment "progress.txt")
                 + MainGo.maxDrafts <= GoInt.max_int).
  { vm_compute. discriminate. }
  destruct (cursor_saved_after_batch Sample.noAttachment Sample.rows final
              eq_refl Hrun Hfit) as [[loopEvents Hev] _].
  exists final, loopEvents. split; [exact Hrun|].
  rewrite Hev, Hcount. reflexivity.
Defined.

(** ** Failures of a single recipient *)

Lemma composeFor_no_dispatch (w : World) (i : Z) (r : Recipient) :
  existsb isDraftsCreateCall (fst (MainGo.composeFor w i r)) = false.
Proof.
  unfold MainGo.composeFor.
  destruct (MainGo.generateResearchParagraph w i (researchText r)); reflexivity.
Qed.

Lemma generateEmailBody_contains (profName researchPara : string) :
  contains (snd (MainGo.generateEmailBody profName researchPara)) researchPara.
Proof.
  unfold MainGo.generateEmailBody. cbn [snd].
  do 5 apply contains_later. apply contains_here.
Qed.

(** C8: when the attachment cannot be read while row [i] is handled, the
    MIME build returns the read error, the draft creation returns it
    wrapped without calling the mail service, the recipient is logged as
    failed and not counted, and the loop goes on with the next row. *)
Theorem unreadable_attachment_skips_dispatch
  (w : World) (s e i : Z) (row : list string) (rest : list (list string))
  (r : Recipient) (st : LoopState) (err : string) :
  s <= i < e ->
  extractRecipient row = Some r ->
  ReadAttachment w i MainGo.attachmentPath = Err err ->
  (forall to subject body,
      buildRawEmail w i to subject body MainGo.attachmentPath = Err err
      /\ createDraft w i to subject body MainGo.attachmentPath
         = ([], Some ("build email: " ++ err)))
  /\ count (MainGo.processRecipient w i r st) = count st
  /\ events (MainGo.processRecipient w i r st)
     = (events st ++ fst (MainGo.composeFor w i r)
        ++ [Log ("❌ Draft creation failed for " ++ name r ++ ": "
                 ++ ("build email: " ++ err));
            Sleep 2])%list
  /\ existsb isDraftsCreateCall (fst (MainGo.composeFor w i r)) = false
  /\ MainGo.rowLoop w s e i (row :: rest) st
     = MainGo.rowLoop w s e (i + 1) rest (MainGo.processRecipient w i r st).
Proof.
  intros Hi Hrow Hread.
  assert (Hbuild : forall to subject body,
             buildRawEmail w i to subject body MainGo.attachmentPath = Err err).
  { intros. unfold buildRawEmail. now rewrite Hread. }
  assert (Hdraft : forall to subject body,
             createDraft w i to subject body MainGo.attachmentPath
             = ([], Some ("build email: " ++ err))).
  { intros. unfold createDraft. now rewrite Hbuild. }
  split; [intros; split; [apply Hbuild | apply Hdraft]|].
  unfold MainGo.processRecipient, MainGo.dispatch.
  destruct (MainGo.composeFor w i r) as [evs [subject body]] eqn:Hc.
  rewrite Hdraft. cbn [emit count events fst].
  split; [reflexivity|].
  split; [now rewrite app_nil_r, <- !app_assoc|].
  split.
  - pose proof (composeFor_no_dispatch w i r) as H. now rewrite Hc in H.
  - rewrite (rowLoop_step w s e i row rest r st Hi Hrow).
    unfold MainGo.processRecipient, MainGo.dispatch.
    rewrite Hc, Hdraft. reflexivity.
Qed.

Lemma unreadable_attachment_skips_dispatch_witness :
  createDraft Sample.noAttachment 1 "ann@uni.example" "subject" "body"
    MainGo.attachmentPath
  = ([], Some "build email: open UsamaShoukatCV.pdf: no such file or directory")
  /\ count (MainGo.processRecipient Sample.noAttachment 1 Sample.ann Sample.start) = 0.
Proof.
  assert (Hi : 1 <= 1 < 31) by lia.
  assert (Hrow : extractRecipient
                   ["1"; " Ann Lee : ann@uni.example "; " graph algorithms "]
                 = Some Sample.ann) by reflexivity.
  destruct (unreadable_attachment_skips_dispatch Sample.noAttachment 1 31 1
              _ [] Sample.ann Sample.start _ Hi Hrow eq_refl)
    as (Hcalls & Hcount & _).
  split.
  - exact (proj2 (Hcalls "ann@uni.example" "subject" "body")).
  - exact Hcount.
Defined.

(** C5, as stated, fails in the second program of part_001: when its
    model call returns an error no email body is composed at all (the
    recipient is only logged), so no body carries the fallback sentence. *)
Lemma no_fallback_counterexample :
  chatFailed (CreateChatCompletion Sample.chatDown 1
                (Part001b.topicsRequest (researchText Sample.ann)))
  /\ snd (Part001b.generateEmail Sample.chatDown 1 (name Sample.ann)
            (researchText Sample.ann) "initial")
     = Err "request timed out"
  /\ events (Part001b.processRecipient Sample.chatDown "initial" 1 Sample.ann
               Sample.start)
     = [Log "⚠️ OpenAI topic extraction failed for Ann Lee: request timed out";
        Log "❌ Email generation failed for Ann Lee: request timed out"].
Proof.
  split; [exact I|]. split; reflexivity.
Qed.

(** C5 (amended): in src/main.go, when the model call for a recipient
    fails (an error, or no candidate), the body composed for that
    recipient is the template filled with the fallback sentence built from
    the research text, and so contains that sentence, and the loop goes on
    to dispatch it and then to the next row.  In the second program of
    part_001, when the model call returns an error, nothing is composed:
    the recipient is logged and skipped, and the loop goes on with the
    next row. *)
Theorem generation_failure_handling
  (w : World) (s e i : Z) (row : list string) (rest : list (list string))
  (r : Recipient) (st : LoopState) :
  s <= i < e ->
  extractRecipient row = Some r ->
  (chatFailed (CreateChatCompletion w i (MainGo.researchRequest (researchText r))) ->
   (exists err,
       MainGo.composeFor w i r
       = ([Log ("OpenAI error for " ++ name r ++ ": " ++ err ++ " (fallback used)")],
          MainGo.generateEmailBody (name r) (fallbackParagraph (researchText r))))
   /\ contains (snd (snd (MainGo.composeFor w i r)))
        (fallbackParagraph (researchText r))
   /\ MainGo.rowLoop w s e i (row :: rest) st
      = MainGo.rowLoop w s e (i + 1) rest (MainGo.processRecipient w i r st))
  /\ (forall mode err,
         CreateChatCompletion w i (Part001b.topicsRequest (researchText r))
         = ChatError err ->
         Part001b.processRecipient w mode i r st
         = emit st
             [Log ("⚠️ OpenAI topic extraction failed for " ++ name r ++ ": " ++ err);
              Log ("❌ Email generation failed for " ++ name r ++ ": " ++ err)]
         /\ Part001b.rowLoop w mode s e i (row :: rest) st
            = Part001b.rowLoop w mode s e (i + 1) rest
                (Part001b.processRecipient w mode i r st)).
Proof.
  intros Hi Hrow. split.
  - intros Hfail.
    assert (Hgen : exists err,
               MainGo.generateResearchParagraph w i (researchText r) = Err err).
    { unfold MainGo.generateResearchParagraph.
      destruct (CreateChatCompletion w i (MainGo.researchRequest (researchText r)))
        as [err0|[|content more]]; cbn in Hfail.
      - now exists err0.
      - now eexists.
      - contradiction. }
    destruct Hgen as [err Hgen].
    assert (Hc : MainGo.composeFor w i r
                 = ([Log ("OpenAI error for " ++ name r ++ ": " ++ err
                          ++ " (fallback used)")],
                    MainGo.generateEmailBody (name r)
                      (fallbackParagraph (researchText r)))).
    { unfold MainGo.composeFor. now rewrite Hgen. }
    split; [now exists err|]. split.
    + rewrite Hc. cbn [snd]. apply generateEmailBody_contains.
    + apply rowLoop_step; assumption.
  - intros mode err Hchat. split.
    + unfold Part001b.processRecipient, Part001b.generateEmail.
      rewrite Hchat. cbn [emit count events]. unfold emit. cbn [count events].
      now rewrite <- app_assoc.
    + cbn [Part001b.rowLoop]. rewrite Hrow.
      replace (i <? s) with false by lia.
      replace (i >=? e) with false by lia.
      reflexivity.
Qed.

Lemma generation_failure_handling_witness :
  contains (snd (snd (MainGo.composeFor Sample.chatDown 1 Sample.ann)))
    (fallbackParagraph "graph algorithms")
  /\ Part001b.processRecipient Sample.chatDown "initial" 1 Sample.ann Sample.start
     = emit Sample.start
         [Log "⚠️ OpenAI topic extraction failed for Ann Lee: request timed out";
          Log "❌ Email generation failed for Ann Lee: request timed out"].
Proof.
  assert (Hi : 1 <= 1 < 31) by lia.
  assert (Hrow : extractRecipient
                   ["1"; " Ann Lee : ann@uni.example "; " graph algorithms "]
                 = Some Sample.ann) by reflexivity.
  destruct (generation_failure_handling Sample.chatDown 1 31 1 _ []
              Sample.ann Sample.start Hi Hrow) as [Hmain Hpart].
  split.
  - exact (proj1 (proj2 (Hmain I))).
  - exact (proj1 (Hpart "initial" "request timed out" eq_refl)).
Defined.

(** ** Row extractor *)

Lemma cut_Some (s a b : string) :
  Strings.cut 58 s = Some (a, b) ->
  s = (a ++ ":" ++ b)%string /\ ~ contains a ":".
Proof.
  revert a b. induction s as [|c s IH]; intros a b; cbn [Strings.cut].
  - discriminate.
  - destruct (byteZ c =? 58) eqn:Hc.
    + intros H. injection H as <- <-. split.
      * apply Z.eqb_eq in Hc. rewrite <- (Zbyte_byteZ c), Hc. reflexivity.
      * intros (pre & post & H). destruct pre; discriminate H.
    + destruct (Strings.cut 58 s) as [[a0 b0]|]; [|discriminate].
      intros H. injection H as <- <-.
      destruct (IH a0 b0 eq_refl) as [-> Hno]. split; [reflexivity|].
      intros (pre & post & H). destruct pre as [|x pre].
      * cbn in H. injection H as H _. rewrite H in Hc. discriminate Hc.
      * cbn in H. injection H as _ H. apply Hno. now exists pre, post.
Qed.

Lemma cut_first (a b : string) :
  ~ contains a ":" -> Strings.cut 58 (a ++ ":" ++ b) = Some (a, b).
Proof.
  change (":" ++ b)%string with (String ":"%char b).
  induction a as [|c a IH]; intros Hno.
  - reflexivity.
  - change (String c a ++ String ":"%char b)%string
      with (String c (a ++ String ":"%char b)).
    cbn [Strings.cut].
    destruct (byteZ c =? 58) eqn:Hc.
    + exfalso. apply Hno. exists EmptyString, a.
      apply Z.eqb_eq in Hc. rewrite <- (Zbyte_byteZ c), Hc. reflexivity.
    + rewrite IH; [reflexivity|].
      intros (pre & post & H). apply Hno. exists (String c pre), post.
      cbn. now rewrite H.
Qed.

(** C7: a row yields a recipient exactly when it has at least three
    columns, its trimmed contact and research fields are not empty, and
    the trimmed contact field splits at its first colon into two parts
    that are both non-empty once trimmed; the recipient is then made of
    those trimmed parts and the trimmed research field.  In particular a
    row with fewer than three columns, or with an empty name or email
    around the colon, yields none. *)
Theorem extractRecipient_spec (row : list string) (r : Recipient) :
  extractRecipient row = Some r
  <-> (3 <= Z.of_nat (List.length row)
       /\ Strings.TrimSpace (cell row 1) <> EmptyString
       /\ Strings.TrimSpace (cell row 2) <> EmptyString
       /\ exists a b,
           Strings.TrimSpace (cell row 1) = (a ++ ":" ++ b)%string
           /\ ~ contains a ":"
           /\ Strings.TrimSpace a <> EmptyString
           /\ Strings.TrimSpace b <> EmptyString
           /\ r = mkRecipient (Strings.TrimSpace a) (Strings.TrimSpace b)
                    (Strings.TrimSpace (cell row 2))).
Proof.
  unfold extractRecipient, Strings.SplitN_colon_2. split.
  - destruct (Z.of_nat (List.length row) <? 3) eqn:Hlen; [discriminate|].
    destruct (String.eqb_spec (Strings.TrimSpace (cell row 1)) "") as [|Hprof];
      [discriminate|].
    destruct (String.eqb_spec (Strings.TrimSpace (cell row 2)) "") as [|Hres];
      [discriminate|].
    cbn [orb].
    destruct (Strings.cut 58 (Strings.TrimSpace (cell row 1))) as [[a b]|] eqn:Hcut;
      [|discriminate].
    cbn [List.length Z.of_nat Z.ltb Z.compare Pos.compare Pos.compare_cont
         Pos.of_succ_nat Pos.succ cell nth].
    destruct (String.eqb_spec (Strings.TrimSpace a) "") as [|Hname]; [discriminate|].
    destruct (String.eqb_spec (Strings.TrimSpace b) "") as [|Hmail]; [discriminate|].
    cbn [orb]. intros H. injection H as <-.
    destruct (cut_Some _ _ _ Hcut) as [Hsplit Hno].
    repeat split; try assumption; try lia.
    exists a, b. repeat split; assumption.
  - intros (Hlen & Hprof & Hres & a & b & Hsplit & Hno & Hname & Hmail & ->).
    replace (Z.of_nat (List.length row) <? 3) with false by lia.
    apply String.eqb_neq in Hprof, Hres, Hname, Hmail.
    rewrite Hprof, Hres. cbn [orb].
    rewrite Hsplit, (cut_first a b Hno).
    cbn [List.length Z.of_nat Z.ltb Z.compare Pos.compare Pos.compare_cont
         Pos.of_succ_nat Pos.succ cell nth].
    rewrite Hname, Hmail. reflexivity.
Qed.

Lemma extractRecipient_spec_witness :
  3 <= Z.of_nat (List.length ["1"; " Ann Lee : ann@uni.example "; " graph algorithms "])
  /\ extractRecipient ["2"; "Bo Chen"; "consensus"] = None.
Proof.
  split.
  - exact (proj1 (proj1 (extractRecipient_spec
                           ["1"; " Ann Lee : ann@uni.example "; " graph algorithms "]
                           Sample.ann) eq_refl)).
  - destruct (extractRecipient ["2"; "Bo Chen"; "consensus"]) as [r|] eqn:H;
      [|reflexivity].
    destruct (proj1 (extractRecipient_spec _ r) H) as (_ & _ & _ & a & b & Hs & _).
    exfalso. vm_compute in Hs.
    destruct a as [|c0 [|c1 [|c2 [|c3 [|c4 [|c5 [|c6 [|c7 a]]]]]]]];
      cbn in Hs; discriminate Hs.
Defined.

(** ** Message composer *)

(** C4, as stated, fails for the composer of the second program of
    part_001: two invocations with the same recipient name, the same
    generated topics and the same mode return the same body under
    different subjects, because the subject is drawn at random. *)
Lemma random_subject_counterexample :
  CreateChatCompletion (Sample.world None) 1 (Part001b.topicsRequest "graph algorithms")
  = CreateChatCompletion (Sample.world None) 2 (Part001b.topicsRequest "graph algorithms")
  /\ snd (Part001b.generateEmail (Sample.world None) 1 "Ann Lee" "graph algorithms" "initial")
     <> snd (Part001b.generateEmail (Sample.world None) 2 "Ann Lee" "graph algorithms" "initial").
Proof.
  split; [reflexivity|].
  intros H.
  assert (Hs : Part001b.getRandomSubject (Sample.world None) 1
               = Part001b.getRandomSubject (Sample.world None) 2).
  { unfold Part001b.generateEmail in H.
    change (CreateChatCompletion (Sample.world None) 1
              (Part001b.topicsRequest "graph algorithms"))
      with (ChatChoices ["Your work on graphs is of interest."]) in H.
    change (CreateChatCompletion (Sample.world None) 2
              (Part001b.topicsRequest "graph algorithms"))
      with (ChatChoices ["Your work on graphs is of interest."]) in H.
    cbn [snd] in H. congruence. }
  vm_compute in Hs. discriminate Hs.
Qed.

Lemma getRandomSubject_in_subjects (w : World) (i : Z) :
  In (Part001b.getRandomSubject w i) Part001b.subjects.
Proof.
  unfold Part001b.getRandomSubject.
  apply nth_In.
  change (Z.of_nat (List.length Part001b.subjects)) with 10.
  change (List.length Part001b.subjects) with 10%nat.
  pose proof (Z.mod_pos_bound (Int31 w i) 10 ltac:(lia)). lia.
Qed.

(** C4 (amended): the HTML body returned by the composer is determined by
    the recipient name, the generated text and the template variant.  In
    src/main.go the subject is determined too (it is a constant).  In the
    second program of part_001 the subject is one of ten fixed subjects
    chosen by a random draw, so only the body is the same on two
    invocations with the same inputs. *)
Theorem composer_body_deterministic
  (w1 w2 : World) (i1 i2 : Z) (r : Recipient) (mode : string) :
  (MainGo.generateResearchParagraph w1 i1 (researchText r)
   = MainGo.generateResearchParagraph w2 i2 (researchText r) ->
   snd (MainGo.composeFor w1 i1 r) = snd (MainGo.composeFor w2 i2 r))
  /\ (forall content more1 more2,
         CreateChatCompletion w1 i1 (Part001b.topicsRequest (researchText r))
         = ChatChoices (content :: more1) ->
         CreateChatCompletion w2 i2 (Part001b.topicsRequest (researchText r))
         = ChatChoices (content :: more2) ->
         exists subject1 subject2 body,
           snd (Part001b.generateEmail w1 i1 (name r) (researchText r) mode)
           = Ok (subject1, body)
           /\ snd (Part001b.generateEmail w2 i2 (name r) (researchText r) mode)
              = Ok (subject2, body)
           /\ In subject1 Part001b.subjects
           /\ In subject2 Part001b.subjects).
Proof.
  split.
  - intros H. unfold MainGo.composeFor. rewrite H.
    destruct (MainGo.generateResearchParagraph w2 i2 (researchText r)); reflexivity.
  - intros content more1 more2 H1 H2.
    unfold Part001b.generateEmail. rewrite H1, H2. cbn [snd].
    eexists _, _, _. split; [reflexivity|]. split; [reflexivity|].
    split; apply getRandomSubject_in_subjects.
Qed.

Lemma composer_body_deterministic_witness :
  snd (MainGo.composeFor (Sample.world None) 1 Sample.ann)
  = snd (MainGo.composeFor (Sample.world (Some "7")) 2 Sample.ann).
Proof.
  apply (proj1 (composer_body_deterministic (Sample.world None)
                  (Sample.world (Some "7")) 1 2 Sample.ann "initial")).
  reflexivity.
Defined.

(** ** Base64 and the 76-column line wrapper *)

Lemma land_shiftl_small (x k y : Z) :
  0 <= k -> 0 <= y < 2 ^ k -> Z.land (Z.shiftl x k) y = 0.
Proof.
  intros Hk Hy. apply Z.bits_inj'. intros n Hn.
  rewrite Z.land_spec, Z.bits_0.
  destruct (Z.lt_ge_cases n k) as [Hlt|Hge].
  - rewrite Z.shiftl_spec_low by assumption. reflexivity.
  - rewrite <- (Z.mod_small y (2 ^ k)) by assumption.
    rewrite Z.mod_pow2_bits_high by lia. apply andb_false_r.
Qed.

Lemma lor_shiftl_add (x k y : Z) :
  0 <= k -> 0 <= y < 2 ^ k -> Z.lor (Z.shiftl x k) y = x * 2 ^ k + y.
Proof.
  intros Hk Hy.
  pose proof (Z.add_lor_land (Z.shiftl x k) y) as H.
  rewrite land_shiftl_small in H by assumption.
  rewrite Z.shiftl_mul_pow2 in * by assumption. lia.
Qed.

Lemma sextet (v k : Z) : 0 <= k -> Z.land (Z.shiftr v k) 63 = (v / 2 ^ k) mod 64.
Proof.
  intros Hk. change 63 with (Z.ones 6).
  rewrite Z.land_ones by lia. rewrite Z.shiftr_div_pow2 by assumption. reflexivity.
Qed.

Lemma group_value (A B C : Z) :
  0 <= A < 256 -> 0 <= B < 256 -> 0 <= C < 256 ->
  Z.lor (Z.shiftl A 16) (Z.lor (Z.shiftl B 8) C) = A * 65536 + B * 256 + C.
Proof.
  intros HA HB HC.
  rewrite (lor_shiftl_add B 8 C) by lia.
  rewrite lor_shiftl_add by lia. lia.
Qed.

Lemma regroup (A B C : Z) :
  0 <= A < 256 -> 0 <= B < 256 -> 0 <= C < 256 ->
  let val := Z.lor (Z.shiftl A 16) (Z.lor (Z.shiftl B 8) C) in
  let s0 := Z.land (Z.shiftr val 18) 63 in
  let s1 := Z.land (Z.shiftr val 12) 63 in
  let s2 := Z.land (Z.shiftr val 6) 63 in
  let s3 := Z.land val 63 in
  (0 <= s0 < 64 /\ 0 <= s1 < 64 /\ 0 <= s2 < 64 /\ 0 <= s3 < 64)
  /\ Z.lor (Z.shiftl s0 2) (Z.shiftr s1 4) mod 256 = A
  /\ Z.lor (Z.shiftl s1 4) (Z.shiftr s2 2) mod 256 = B
  /\ Z.lor (Z.shiftl s2 6) s3 mod 256 = C.
Proof.
  intros HA HB HC val s0 s1 s2 s3.
  assert (Hval : val = A * 65536 + B * 256 + C) by (apply group_value; assumption).
  assert (H0 : s0 = (val / 2 ^ 18) mod 64) by (apply sextet; lia).
  assert (H1 : s1 = (val / 2 ^ 12) mod 64) by (apply sextet; lia).
  assert (H2 : s2 = (val / 2 ^ 6) mod 64) by (apply sextet; lia).
  assert (H3 : s3 = val mod 64).
  { unfold s3. change 63 with (Z.ones 6). now rewrite Z.land_ones by lia. }
  change (2 ^ 18) with 262144 in H0. change (2 ^ 12) with 4096 in H1.
  change (2 ^ 6) with 64 in H2.
  assert (R : 0 <= s0 < 64 /\ 0 <= s1 < 64 /\ 0 <= s2 < 64 /\ 0 <= s3 < 64).
  { rewrite H0, H1, H2, H3. repeat split; apply Z.mod_pos_bound; lia. }
  split; [exact R|].
  clearbody val s0 s1 s2 s3.
  rewrite !Z.shiftr_div_pow2 by lia.
  change (2 ^ 4) with 16. change (2 ^ 2) with 4.
  assert (B1 : 0 <= s1 / 16 < 2 ^ 2).
  { change (2 ^ 2) with 4. split; [apply Z.div_pos | apply Z.div_lt_upper_bound]; lia. }
  assert (B2 : 0 <= s2 / 4 < 2 ^ 4).
  { change (2 ^ 4) with 16. split; [apply Z.div_pos | apply Z.div_lt_upper_bound]; lia. }
  assert (B3 : 0 <= s3 < 2 ^ 6) by (change (2 ^ 6) with 64; lia).
  rewrite (lor_shiftl_add s0 2 _ ltac:(lia) B1).
  rewrite (lor_shiftl_add s1 4 _ ltac:(lia) B2).
  rewrite (lor_shiftl_add s2 6 _ ltac:(lia) B3).
  clear B1 B2 B3.
  change (2 ^ 2) with 4. change (2 ^ 4) with 16. change (2 ^ 6) with 64.
  subst val. subst s0 s1 s2 s3.
  repeat split; Z.div_mod_to_equations; lia.
Qed.

Lemma alphabet_lookup (k : Z) :
  0 <= k < 64 ->
  Base64.decodeChar Base64.encodeStd (Base64.encodeAt Base64.encodeStd k) = Some k
  /\ Base64.isPad (Base64.encodeAt Base64.encodeStd k) = false.
Proof.
  intros Hk.
  assert (Hall : forallb
            (fun n =>
               let c := Base64.encodeAt Base64.encodeStd (Z.of_nat n) in
               match Base64.decodeChar Base64.encodeStd c with
               | Some j => (j =? Z.of_nat n) && negb (Base64.isPad c)
               | None => false
               end) (seq 0 64) = true) by (vm_compute; reflexivity).
  rewrite forallb_forall in Hall.
  specialize (Hall (Z.to_nat k)).
  rewrite Z2Nat.id in Hall by lia.
  assert (Hin : In (Z.to_nat k) (seq 0 64)) by (apply in_seq; lia).
  specialize (Hall Hin). cbn zeta in Hall.
  destruct (Base64.decodeChar Base64.encodeStd (Base64.encodeAt Base64.encodeStd k))
    as [j|]; [|discriminate].
  apply andb_true_iff in Hall. destruct Hall as [Hj Hp].
  apply Z.eqb_eq in Hj. subst j.
  split; [reflexivity|]. now apply negb_true_iff in Hp.
Qed.

Lemma Zbyte_mod (z : Z) (c : ascii) : z mod 256 = byteZ c -> Zbyte z = c.
Proof.
  intros H. unfold Zbyte. rewrite H. unfold byteZ.
  rewrite N2Z.id. apply ascii_N_embedding.
Qed.

Lemma decode_last_one (a : ascii) :
  Base64.DecodeString Base64.encodeStd
    (Base64.EncodeToString Base64.encodeStd (String a EmptyString))
  = Some (String a EmptyString).
Proof.
  pose proof (regroup (byteZ a) 0 0 (byteZ_range a) ltac:(lia) ltac:(lia)) as H.
  cbn zeta in H. rewrite Z.shiftl_0_l, !Z.lor_0_r in H.
  destruct H as ((R0 & R1 & _ & _) & Ha & _ & _).
  cbn [Base64.EncodeToString Base64.DecodeString].
  destruct (alphabet_lookup _ R0) as [E0 _].
  destruct (alphabet_lookup _ R1) as [E1 _].
  rewrite E0, E1.
  change (Base64.isPad Base64.padChar) with true. cbn iota.
  rewrite (Zbyte_mod _ a Ha). reflexivity.
Qed.

Lemma decode_last_two (a b : ascii) :
  Base64.DecodeString Base64.encodeStd
    (Base64.EncodeToString Base64.encodeStd (String a (String b EmptyString)))
  = Some (String a (String b EmptyString)).
Proof.
  pose proof (regroup (byteZ a) (byteZ b) 0 (byteZ_range a) (byteZ_range b)
                ltac:(lia)) as H.
  cbn zeta in H. rewrite !Z.lor_0_r in H.
  destruct H as ((R0 & R1 & R2 & _) & Ha & Hb & _).
  cbn [Base64.EncodeToString Base64.DecodeString].
  destruct (alphabet_lookup _ R0) as [E0 _].
  destruct (alphabet_lookup _ R1) as [E1 _].
  destruct (alphabet_lookup _ R2) as [E2 P2].
  rewrite E0, E1, E2, P2.
  change (Base64.isPad Base64.padChar) with true. cbn iota.
  rewrite (Zbyte_mod _ a Ha), (Zbyte_mod _ b Hb). reflexivity.
Qed.

Lemma decode_full_group (a b c : ascii) (data : string) :
  Base64.DecodeString Base64.encodeStd (Base64.EncodeToString Base64.encodeStd data)
  = Some data ->
  Base64.DecodeString Base64.encodeStd
    (Base64.EncodeToString Base64.encodeStd (String a (String b (String c data))))
  = Some (String a (String b (String c data))).
Proof.
  intros IH0.
  pose proof (regroup (byteZ a) (byteZ b) (byteZ c) (byteZ_range a)
                (byteZ_range b) (byteZ_range c)) as H.
  cbn zeta in H.
  destruct H as ((R0 & R1 & R2 & R3) & Ha & Hb & Hc).
  cbn [Base64.EncodeToString Base64.DecodeString].
  destruct (alphabet_lookup _ R0) as [E0 _].
  destruct (alphabet_lookup _ R1) as [E1 _].
  destruct (alphabet_lookup _ R2) as [E2 _].
  destruct (alphabet_lookup _ R3) as [E3 P3].
  rewrite E0, E1, E2, E3, P3, IH0.
  rewrite (Zbyte_mod _ a Ha), (Zbyte_mod _ b Hb), (Zbyte_mod _ c Hc). reflexivity.
Qed.

(** Decoding undoes encoding, for every length of input. *)
Lemma DecodeString_EncodeToString (data : string) :
  Base64.DecodeString Base64.encodeStd (Base64.EncodeToString Base64.encodeStd data)
  = Some data.
Proof.
  enough (H : Base64.DecodeString Base64.encodeStd
                (Base64.EncodeToString Base64.encodeStd data) = Some data
              /\ (forall a,
                     Base64.DecodeString Base64.encodeStd
                       (Base64.EncodeToString Base64.encodeStd (String a data))
                     = Some (String a data))
              /\ (forall a b,
                     Base64.DecodeString Base64.encodeStd
                       (Base64.EncodeToString Base64.encodeStd
                          (String a (String b data)))
                     = Some (String a (String b data)))) by exact (proj1 H).
  induction data as [|c data (IH0 & IH1 & IH2)].
  - split; [exact eq_refl|].
    split; [exact decode_last_one | exact decode_last_two].
  - split; [exact (IH1 c)|].
    split; [exact (fun a => IH2 a c)|].
    intros a b. exact (decode_full_group a b c data IH0).
Qed.

Lemma string_app_nil_r (s : string) : (s ++ "")%string = s.
Proof. induction s as [|c s IH]; simpl; [reflexivity|]. now rewrite IH. Qed.

Lemma substring_none (s : string) (n : nat) : substring n 0 s = EmptyString.
Proof.
  revert n. induction s as [|c s IH]; intros [|n]; simpl; auto.
Qed.

Lemma substring_split (s : string) :
  forall n m k : nat,
    (substring n m s ++ substring (n + m) k s)%string = substring n (m + k) s.
Proof.
  induction s as [|c s IH]; intros n m k.
  - destruct n, m, k; reflexivity.
  - destruct n as [|n].
    + destruct m as [|m].
      * reflexivity.
      * cbn [Nat.add substring append]. f_equal. apply (IH 0%nat m k).
    + cbn [Nat.add substring]. apply IH.
Qed.

Lemma substring_length (s : string) :
  forall n m : nat,
    (n + m <= String.length s)%nat -> String.length (substring n m s) = m.
Proof.
  induction s as [|c s IH]; intros n m H; cbn [String.length] in H.
  - assert (n = 0%nat /\ m = 0%nat) as [-> ->] by lia. reflexivity.
  - destruct n as [|n].
    + destruct m as [|m]; [reflexivity|].
      cbn [substring String.length]. f_equal. apply IH. lia.
    + cbn [substring]. apply IH. lia.
Qed.

Lemma substring_all (s : string) : substring 0 (String.length s) s = s.
Proof.
  induction s as [|c s IH]; [reflexivity|].
  cbn [String.length substring]. now rewrite IH.
Qed.

Lemma stripCRLF_app (a b : string) :
  Base64.stripCRLF (a ++ b) = (Base64.stripCRLF a ++ Base64.stripCRLF b)%string.
Proof.
  induction a as [|c a IH]; [reflexivity|].
  cbn [append Base64.stripCRLF].
  destruct ((byteZ c =? 13) || (byteZ c =? 10)); [assumption|].
  cbn [append]. now rewrite IH.
Qed.

Lemma stripCRLF_joinLines (chunks : list string) :
  Base64.stripCRLF (joinLines chunks) = Base64.stripCRLF (concatChunks chunks).
Proof.
  induction chunks as [|c rest IH]; [reflexivity|].
  cbn [joinLines concatChunks]. rewrite !stripCRLF_app, IH. reflexivity.
Qed.

Lemma encodeAt_not_newline (k : Z) :
  (byteZ (Base64.encodeAt Base64.encodeStd k) =? 13)
  || (byteZ (Base64.encodeAt Base64.encodeStd k) =? 10) = false.
Proof.
  unfold Base64.encodeAt. generalize (Z.to_nat k). intros n.
  do 64 (destruct n as [|n]; [reflexivity|]).
  destruct n; reflexivity.
Qed.

Lemma stripCRLF_EncodeToString (data : string) :
  Base64.stripCRLF (Base64.EncodeToString Base64.encodeStd data)
  = Base64.EncodeToString Base64.encodeStd data.
Proof.
  enough (H : Base64.stripCRLF (Base64.EncodeToString Base64.encodeStd data)
              = Base64.EncodeToString Base64.encodeStd data
              /\ (forall a,
                     Base64.stripCRLF
                       (Base64.EncodeToString Base64.encodeStd (String a data))
                     = Base64.EncodeToString Base64.encodeStd (String a data))
              /\ (forall a b,
                     Base64.stripCRLF
                       (Base64.EncodeToString Base64.encodeStd
                          (String a (String b data)))
                     = Base64.EncodeToString Base64.encodeStd
                         (String a (String b data)))) by exact (proj1 H).
  induction data as [|c data (IH0 & IH1 & IH2)].
  - split; [exact eq_refl|]. split.
    + intros a. cbn [Base64.EncodeToString Base64.stripCRLF].
      rewrite !encodeAt_not_newline. reflexivity.
    + intros a b. cbn [Base64.EncodeToString Base64.stripCRLF].
      rewrite !encodeAt_not_newline. reflexivity.
  - split; [exact (IH1 c)|].
    split; [exact (fun a => IH2 a c)|].
    intros a b. cbn [Base64.EncodeToString Base64.stripCRLF].
    rewrite !encodeAt_not_newline, IH0. reflexivity.
Qed.

Lemma wrapped76_nonempty (chunks : list string) :
  wrapped76 chunks -> concatChunks chunks = EmptyString -> chunks = [].
Proof.
  intros Hw Hc. destruct Hw as [|c Hlen|c rest Hlen Hne Hw]; [reflexivity| |].
  - cbn in Hc. destruct c; [cbn in Hlen; lia | discriminate Hc].
  - cbn in Hc. destruct c; [cbn in Hlen; lia | discriminate Hc].
Qed.

(** What the loop appends from index [i] on: the rest of the encoding cut
    into lines. *)
Lemma wrapLoop_lines (encoded : string) (i : Z) (msg : string) :
  0 <= i ->
  exists chunks,
    wrapLoop encoded i msg = (msg ++ joinLines chunks)%string
    /\ concatChunks chunks = slice encoded i (len encoded)
    /\ wrapped76 chunks.
Proof.
  funelim (wrapLoop encoded i msg); intros Hi.
  - match goal with
    | IH : 0 <= _ -> exists _, _ |- _ =>
        destruct (IH ltac:(lia)) as (chunks & Hloop & Hcat & Hw)
    end.
    unfold len in *. unfold slice in *.
    set (L := String.length encoded) in *.
    set (c := substring (Z.to_nat i) _ encoded) in *.
    exists (c :: chunks). cbn [joinLines concatChunks].
    split; [rewrite Hloop; now rewrite !string_app_assoc|].
    destruct (i + 76 >? Z.of_nat L) eqn:Hgt.
    + assert (Hrest : concatChunks chunks = EmptyString).
      { rewrite Hcat.
        replace (Z.to_nat (Z.of_nat L - (i + 76))) with 0%nat by lia.
        apply substring_none. }
      rewrite (wrapped76_nonempty chunks Hw Hrest) in *.
      split.
      * cbn [concatChunks]. now rewrite string_app_nil_r.
      * apply wrapped_last. subst c.
        rewrite substring_length by lia. lia.
    + split.
      * rewrite Hcat. subst c.
        replace (Z.to_nat (i + 76)) with (Z.to_nat i + Z.to_nat (i + 76 - i))%nat
          by lia.
        rewrite substring_split. f_equal. lia.
      * assert (Hc : String.length c = 76%nat).
        { subst c. rewrite substring_length by lia. lia. }
        destruct chunks as [|c1 rest].
        -- apply wrapped_last. lia.
        -- apply wrapped_full; [assumption|discriminate|assumption].
  - exists []. cbn [joinLines concatChunks].
    split; [now rewrite string_app_nil_r|].
    split; [|constructor].
    unfold slice. replace (Z.to_nat (len encoded - i)) with 0%nat by lia.
    symmetry. apply substring_none.
Qed.

Lemma string_app_length (a b : string) :
  String.length (a ++ b) = (String.length a + String.length b)%nat.
Proof. induction a as [|x a IH]; cbn; [reflexivity|]. now f_equal. Qed.

Lemma string_app_same_length (x : string) :
  forall (y p q : string),
    String.length x = String.length y ->
    (x ++ p)%string = (y ++ q)%string -> x = y /\ p = q.
Proof.
  induction x as [|a x IHx]; intros [|b y] p q Hlen Happ;
    try discriminate Hlen.
  - now split.
  - cbn in Happ. injection Happ as -> Happ.
    cbn in Hlen. injection Hlen as Hlen.
    destruct (IHx y p q Hlen Happ) as [-> ->]. now split.
Qed.

(** A text has one cutting into lines of 76. *)
Lemma wrapped76_unique (l1 : list string) :
  wrapped76 l1 ->
  forall l2, wrapped76 l2 -> concatChunks l1 = concatChunks l2 -> l1 = l2.
Proof.
  intros H1.
  induction H1 as [|c Hc|c rest Hc Hne H1 IH]; intros l2 H2 Heq.
  - symmetry. apply wrapped76_nonempty; [assumption|]. now rewrite <- Heq.
  - destruct H2 as [|d Hd|d rest2 Hd Hne2 H2].
    + cbn in Heq. rewrite string_app_nil_r in Heq. subst c.
      cbn in Hc. lia.
    + cbn in Heq. rewrite !string_app_nil_r in Heq. now subst.
    + exfalso. cbn in Heq. rewrite string_app_nil_r in Heq.
      assert (Hr : concatChunks rest2 <> EmptyString).
      { intros Hr. apply Hne2. now apply wrapped76_nonempty. }
      pose proof (string_app_length d (concatChunks rest2)) as Hl.
      rewrite <- Heq in Hl.
      destruct (concatChunks rest2); [now apply Hr|]. cbn in Hl. lia.
  - destruct H2 as [|d Hd|d rest2 Hd Hne2 H2].
    + exfalso. cbn in Heq.
      destruct c; [cbn in Hc; lia | discriminate Heq].
    + exfalso. cbn in Heq. rewrite string_app_nil_r in Heq.
      assert (Hr : concatChunks rest <> EmptyString).
      { intros Hr. apply Hne. now apply wrapped76_nonempty. }
      pose proof (string_app_length c (concatChunks rest)) as Hl.
      rewrite Heq in Hl.
      destruct (concatChunks rest); [now apply Hr|]. cbn in Hl. lia.
    + cbn in Heq.
      destruct (string_app_same_length c d _ _ ltac:(lia) Heq) as [-> Hrest].
      f_equal. now apply IH.
Qed.

(** C9: for every attachment, the loop of buildRawEmail appends the
    standard base64 encoding cut into CRLF-terminated lines, every line of
    76 characters except the last, which has between 1 and 76; removing
    the CRs and LFs and decoding gives back the attachment bytes. *)
Theorem attachment_lines_round_trip (data : string) :
  let encoded := Base64.EncodeToString Base64.encodeStd data in
  exists chunks,
    (forall msg, wrapLoop encoded 0 msg = (msg ++ joinLines chunks)%string)
    /\ wrapLines encoded = joinLines chunks
    /\ concatChunks chunks = encoded
    /\ wrapped76 chunks
    /\ Base64.DecodeString Base64.encodeStd (Base64.stripCRLF (wrapLines encoded))
       = Some data.
Proof.
  intros encoded.
  destruct (wrapLoop_lines encoded 0 EmptyString ltac:(lia))
    as (chunks & Hloop & Hcat & Hw).
  assert (Hall : slice encoded 0 (len encoded) = encoded).
  { unfold slice, len. rewrite Z.sub_0_r, Nat2Z.id. apply substring_all. }
  rewrite Hall in Hcat.
  assert (Hlines : wrapLines encoded = joinLines chunks) by exact Hloop.
  exists chunks.
  split.
  - intros msg.
    destruct (wrapLoop_lines encoded 0 msg ltac:(lia))
      as (chunks' & Hloop' & Hcat' & Hw').
    rewrite Hloop'. rewrite Hall in Hcat'.
    now rewrite (wrapped76_unique chunks' Hw' chunks Hw) by congruence.
  - split; [exact Hlines|]. split; [exact Hcat|]. split; [exact Hw|].
    rewrite Hlines, stripCRLF_joinLines, Hcat.
    unfold encoded. rewrite stripCRLF_EncodeToString.
    apply DecodeString_EncodeToString.
Qed.

(* ===================================================================== *)
(** * Further properties of the code *)

(** ** The loops of the three programs are one loop *)

Lemma MainGo_rowLoop_loopWith (w : World) (s e : Z) :
  forall rows i st,
    MainGo.rowLoop w s e i rows st = loopWith (MainGo.processRecipient w) s e i rows st.
Proof.
  induction rows as [|row rest IH]; intros i st; cbn [MainGo.rowLoop loopWith].
  - reflexivity.
  - destruct (i <? s); [apply IH|].
    destruct (i >=? e); [reflexivity|].
    destruct (extractRecipient row); apply IH.
Qed.

Lemma Part001a_rowLoop_loopWith (w : World) (mode : string) (s e : Z) :
  forall rows i st,
    Part001a.rowLoop w mode s e i rows st
    = loopWith (Part001a.processRecipient w mode) s e i rows st.
Proof.
  induction rows as [|row rest IH]; intros i st; cbn [Part001a.rowLoop loopWith].
  - reflexivity.
  - destruct (i <? s); [apply IH|].
    destruct (i >=? e); [reflexivity|].
    destruct (extractRecipient row); apply IH.
Qed.

Lemma Part001b_rowLoop_loopWith (w : World) (mode : string) (s e : Z) :
  forall rows i st,
    Part001b.rowLoop w mode s e i rows st
    = loopWith (Part001b.processRecipient w mode) s e i rows st.
Proof.
  induction rows as [|row rest IH]; intros i st; cbn [Part001b.rowLoop loopWith].
  - reflexivity.
  - destruct (i <? s); [apply IH|].
    destruct (i >=? e); [reflexivity|].
    destruct (extractRecipient row); apply IH.
Qed.

Section LoopWith.

Variable process : Z -> Recipient -> LoopState -> LoopState.

(** Once the index has reached the start, the start no longer matters. *)
Lemma loopWith_start_passed (a b e : Z) :
  forall rows i st,
    a <= i -> b <= i ->
    loopWith process a e i rows st = loopWith process b e i rows st.
Proof.
  induction rows as [|row rest IH]; intros i st Ha Hb; cbn [loopWith].
  - reflexivity.
  - replace (i <? a) with false by lia. replace (i <? b) with false by lia.
    destruct (i >=? e); [reflexivity|].
    destruct (extractRecipient row); apply IH; lia.
Qed.

(** Two adjacent windows, one after the other, do what their union does. *)
Lemma loopWith_compose (a b c : Z) :
  a <= b <= c ->
  forall rows i st,
    loopWith process b c i rows (loopWith process a b i rows st)
    = loopWith process a c i rows st.
Proof.
  intros Habc. induction rows as [|row rest IH]; intros i st.
  - reflexivity.
  - cbn [loopWith]. destruct (i <? a) eqn:Ha.
    + replace (i <? b) with true by lia. apply IH.
    + destruct (i >=? b) eqn:Hb.
      * replace (i <? b) with false by lia.
        destruct (i >=? c); [reflexivity|].
        destruct (extractRecipient row); apply loopWith_start_passed; lia.
      * replace (i >=? c) with false by lia.
        replace (i <? b) with true by lia.
        destruct (extractRecipient row); apply IH.
Qed.

(** Rows in front of the start index are skipped unread. *)
Lemma loopWith_skip (s e : Z) :
  forall (n : nat) rows i st,
    i + Z.of_nat n <= s ->
    loopWith process s e i rows st
    = loopWith process s e (i + Z.of_nat n) (skipn n rows) st.
Proof.
  induction n as [|n IH]; intros rows i st H.
  - cbn [skipn Z.of_nat]. now rewrite Z.add_0_r.
  - destruct rows as [|row rest].
    + reflexivity.
    + cbn [skipn loopWith]. replace (i <? s) with true by lia.
      rewrite (IH rest (i + 1) st) by lia. f_equal. lia.
Qed.

(** Rows from the end index on are never read. *)
Lemma loopWith_truncate (s e : Z) :
  forall rows i st,
    loopWith process s e i rows st
    = loopWith process s e i (firstn (Z.to_nat (e - i)) rows) st.
Proof.
  induction rows as [|row rest IH]; intros i st.
  - now rewrite firstn_nil.
  - destruct (Z.to_nat (e - i)) as [|k] eqn:Hk.
    + cbn [firstn loopWith].
      destruct (i <? s) eqn:Hs.
      * rewrite IH. replace (Z.to_nat (e - (i + 1))) with 0%nat by lia.
        reflexivity.
      * replace (i >=? e) with true by lia. reflexivity.
    + cbn [firstn loopWith].
      replace k with (Z.to_nat (e - (i + 1))) by lia.
      destruct (i <? s); [apply IH|].
      destruct (i >=? e); [reflexivity|].
      destruct (extractRecipient row); apply IH.
Qed.

End LoopWith.

(** ** What one pass through a loop can add *)

Lemma countOf_app (kind : Event -> bool) (a b : list Event) :
  countOf kind (a ++ b) = countOf kind a + countOf kind b.
Proof.
  unfold countOf. rewrite filter_app, length_app. lia.
Qed.

Lemma countOf_nonneg (kind : Event -> bool) (a : list Event) : 0 <= countOf kind a.
Proof. unfold countOf. lia. Qed.

(** What a step may add to the state: no file write, at most one draft
    call and at most one pause, a call only with a pause, and one more
    counted draft only with a call. *)
Definition modest (process : Z -> Recipient -> LoopState -> LoopState) : Prop :=
  forall i r st,
    exists evs,
      events (process i r st) = (events st ++ evs)%list
      /\ filter isWriteFile evs = []
      /\ countOf isDraftsCreateCall evs <= countOf isSleep evs <= 1
      /\ (count (process i r st) = count st
          \/ (count (process i r st) = GoInt.add (count st) 1
              /\ countOf isDraftsCreateCall evs = 1)).

Section LoopAccounting.

Variable process : Z -> Recipient -> LoopState -> LoopState.
Hypothesis process_modest : modest process.

Lemma loopWith_accounting (s e : Z) :
  forall rows i st,
    count st + Z.max 0 (e - Z.max i s) <= GoInt.max_int ->
    GoInt.min_int <= count st ->
    exists evs,
      events (loopWith process s e i rows st) = (events st ++ evs)%list
      /\ filter isWriteFile evs = []
      /\ 0 <= count (loopWith process s e i rows st) - count st
           <= countOf isDraftsCreateCall evs
      /\ countOf isDraftsCreateCall evs <= countOf isSleep evs
           <= Z.max 0 (e - Z.max i s).
Proof.
  induction rows as [|row rest IH]; intros i st Hmax Hmin; cbn [loopWith].
  - exists []. rewrite app_nil_r. cbn. repeat split; lia.
  - destruct (i <? s) eqn:Hlt.
    + destruct (IH (i + 1) st ltac:(lia) Hmin) as (evs & He & Hw & Hc & Hs).
      exists evs. repeat split; try tauto; lia.
    + destruct (i >=? e) eqn:Hge.
      * exists []. rewrite app_nil_r. cbn. repeat split; lia.
      * destruct (extractRecipient row) as [r|].
        -- destruct (process_modest i r st) as (ev1 & He1 & Hw1 & Hs1 & Hc1).
           pose proof (countOf_nonneg isDraftsCreateCall ev1) as Hn1.
           assert (Hcount : count st <= count (process i r st) <= count st + 1
                            /\ count (process i r st) - count st
                               <= countOf isDraftsCreateCall ev1).
           { destruct Hc1 as [Hc1|[Hc1 Hcall]]; [lia|].
             rewrite Hc1. unfold GoInt.add.
             rewrite (wrap_in_range (count st + 1))
               by (unfold GoInt.in_range; lia).
             lia. }
           destruct (IH (i + 1) (process i r st) ltac:(lia) ltac:(lia))
             as (ev2 & He2 & Hw2 & Hc2 & Hs2).
           exists (ev1 ++ ev2)%list.
           rewrite He2, He1, <- app_assoc, filter_app, Hw1, Hw2, !countOf_app.
           repeat split; try reflexivity; lia.
        -- destruct (IH (i + 1) st ltac:(lia) Hmin) as (evs & He & Hw & Hc & Hs).
           exists evs. repeat split; try tauto; lia.
Qed.

End LoopAccounting.

Lemma createDraft_shape (w : World) (i : Z) (to subject body path : string) :
  (exists err, createDraft w i to subject body path = ([], Some err))
  \/ (exists raw, createDraft w i to subject body path
                  = ([DraftsCreateCall raw], DraftsCreate w i raw)).
Proof.
  unfold createDraft.
  destruct (buildRawEmail w i to subject body path) as [raw|err].
  - right. now exists raw.
  - left. now eexists.
Qed.

(** A step made of log lines followed by a dispatch is modest. *)
Lemma dispatch_after_logs_modest
  (dispatch : LoopState -> LoopState) (st : LoopState) (logs : list Event)
  (w : World) (i : Z) (r : Recipient) (subject body path : string) :
  filter isWriteFile logs = [] ->
  countOf isDraftsCreateCall logs = 0 ->
  countOf isSleep logs = 0 ->
  (forall st0,
      dispatch st0
      = let '(evs, err) := createDraft w i (email r) subject body path in
        let st1 := emit st0 evs in
        let st2 :=
          match err with
          | Some err =>
              emit st1 [Log ("❌ Draft creation failed for " ++ name r ++ ": " ++ err)]
          | None =>
              mkLoopState (GoInt.add (count st1) 1)
                (events st1 ++ [Log ("✅ Draft created for " ++ name r ++ " <"
                                     ++ email r ++ ">")])%list
          end in
        emit st2 [Sleep 2]) ->
  exists evs,
    events (dispatch (emit st logs)) = (events st ++ evs)%list
    /\ filter isWriteFile evs = []
    /\ countOf isDraftsCreateCall evs <= countOf isSleep evs <= 1
    /\ (count (dispatch (emit st logs)) = count st
        \/ (count (dispatch (emit st logs)) = GoInt.add (count st) 1
            /\ countOf isDraftsCreateCall evs = 1)).
Proof.
  intros Hw Hc Hs Hd. rewrite Hd.
  destruct (createDraft_shape w i (email r) subject body path)
    as [[err ->]|[raw ->]].
  - cbn [emit count events]. eexists. split.
    + rewrite app_nil_r, <- !app_assoc. reflexivity.
    + rewrite !filter_app, Hw, !countOf_app, Hc, Hs. cbn. repeat split; auto; lia.
  - destruct (DraftsCreate w i raw) as [err|]; cbn [emit count events].
    + eexists. split.
      * rewrite <- !app_assoc. reflexivity.
      * rewrite !filter_app, Hw, !countOf_app, Hc, Hs. cbn. repeat split; auto; lia.
    + eexists. split.
      * rewrite <- !app_assoc. reflexivity.
      * rewrite !filter_app, Hw, !countOf_app, Hc, Hs. cbn.
        repeat split; auto; try lia.
Qed.

Lemma MainGo_processRecipient_modest (w : World) :
  modest (MainGo.processRecipient w).
Proof.
  intros i r st. unfold MainGo.processRecipient.
  destruct (MainGo.composeFor w i r) as [logs [subject body]] eqn:Hc.
  apply (dispatch_after_logs_modest (MainGo.dispatch w i r subject body) st logs
           w i r subject body MainGo.attachmentPath).
  - unfold MainGo.composeFor in Hc.
    destruct (MainGo.generateResearchParagraph w i (researchText r));
      injection Hc as <- _; reflexivity.
  - unfold MainGo.composeFor in Hc.
    destruct (MainGo.generateResearchParagraph w i (researchText r));
      injection Hc as <- _; reflexivity.
  - unfold MainGo.composeFor in Hc.
    destruct (MainGo.generateResearchParagraph w i (researchText r));
      injection Hc as <- _; reflexivity.
  - intros st0. reflexivity.
Qed.

Lemma Part001a_composeFor_logs (w : World) (mode : string) (i : Z) (r : Recipient) :
  filter isWriteFile (fst (Part001a.composeFor w mode i r)) = []
  /\ countOf isDraftsCreateCall (fst (Part001a.composeFor w mode i r)) = 0
  /\ countOf isSleep (fst (Part001a.composeFor w mode i r)) = 0.
Proof.
  unfold Part001a.composeFor, Part001a.getRelevantTopics,
    Part001a.generateResearchParagraph0.
  destruct (mode =? "followup")%string.
  - destruct (CreateChatCompletion w i (Part001a.topicsRequest (researchText r)))
      as [err|[|content more]]; cbn; auto.
  - destruct (CreateChatCompletion w i (Part001a.researchRequest0 (researchText r)))
      as [err|[|content more]]; cbn; auto.
Qed.

Lemma Part001a_processRecipient_modest (w : World) (mode : string) :
  modest (Part001a.processRecipient w mode).
Proof.
  intros i r st. unfold Part001a.processRecipient.
  pose proof (Part001a_composeFor_logs w mode i r) as (Hw & Hc & Hs).
  destruct (Part001a.composeFor w mode i r) as [logs [subject body]].
  cbn [fst] in Hw, Hc, Hs.
  apply (dispatch_after_logs_modest (Part001a.dispatch w i r subject body) st logs
           w i r subject body Part001a.attachmentPath); try assumption.
  intros st0. reflexivity.
Qed.

Lemma Part001b_processRecipient_modest (w : World) (mode : string) :
  modest (Part001b.processRecipient w mode).
Proof.
  intros i r st. unfold Part001b.processRecipient.
  destruct (Part001b.generateEmail w i (name r) (researchText r) mode)
    as [logs res] eqn:Hg.
  assert (Hlogs : filter isWriteFile logs = []
                  /\ countOf isDraftsCreateCall logs = 0
                  /\ countOf isSleep logs = 0).
  { unfold Part001b.generateEmail in Hg.
    destruct (CreateChatCompletion w i (Part001b.topicsRequest (researchText r)))
      as [err|[|content more]]; injection Hg as <- _; cbn; auto. }
  destruct Hlogs as (Hw & Hc & Hs).
  destruct res as [[subject body]|err].
  - apply (dispatch_after_logs_modest (Part001b.dispatch w i r subject body) st logs
             w i r subject body Part001b.attachmentPath); try assumption.
    intros st0. reflexivity.
  - cbn [emit count events]. eexists. split.
    + rewrite <- app_assoc. reflexivity.
    + rewrite filter_app, Hw, !countOf_app, Hc, Hs. cbn.
      repeat split; auto; lia.
Qed.

(** The end of a run, whatever the program: the loop from a loaded start
    index, then the cursor write and the two summary lines. *)
Lemma run_books (process : Z -> Recipient -> LoopState -> LoopState)
  (s : Z) (rows : list (list string)) (l1 l3 path content : string)
  (summary : Z -> string) :
  modest process -> GoInt.in_range s ->
  let st := loopWith process s (endIndexOf s 30) 0 rows (mkLoopState 0 [Log l1]) in
  let r := Completed (emit st [WriteFile path content; Log (summary (count st)); Log l3]) in
  accounted r 30
  /\ filter isWriteFile (finalEvents r) = [WriteFile path content].
Proof.
  intros Hm Hs st r.
  assert (He : endIndexOf s 30 <= s + 30).
  { apply endIndexOf_le; [assumption|]. unfold GoInt.max_int. lia. }
  destruct (loopWith_accounting process Hm s (endIndexOf s 30) rows 0
              (mkLoopState 0 [Log l1])) as (evs & Hev & Hw & Hc & Hsl).
  { cbn [count]. unfold GoInt.max_int. lia. }
  { cbn [count]. unfold GoInt.min_int. lia. }
  fold st in Hev, Hc. cbn [count events] in Hev, Hc.
  unfold accounted, r. cbn [draftsCreated finalEvents emit count events].
  rewrite Hev. split.
  - rewrite !countOf_app. unfold countOf in *.
    cbn [filter isSleep isDraftsCreateCall List.length]. lia.
  - rewrite !filter_app, Hw. reflexivity.
Qed.

(** X1: in each of the three programs a run that reports [n] drafts made
    at least [n] draft-creation calls, paused at least once per call, and
    paused at most [maxDrafts] times. *)
Theorem runs_are_accounted (w : World) (mode : string) :
  accounted (MainGo.generateDrafts w) MainGo.maxDrafts
  /\ accounted (Part001a.generateDrafts w mode) Part001a.maxDrafts
  /\ accounted (Part001b.generateDrafts w mode) Part001b.maxDrafts.
Proof.
  assert (Hsetup : forall err, accounted (SetupError err) 30).
  { intros err. unfold accounted. cbn. lia. }
  split; [|split].
  - unfold MainGo.generateDrafts, MainGo.maxDrafts.
    destruct (OpenFile w MainGo.excelPath); [apply Hsetup|].
    destruct (GetRows w MainGo.sheetName) as [rows|]; [|apply Hsetup].
    destruct (Z.of_nat (List.length rows) <=? 1); [apply Hsetup|].
    destruct (getGmailService w); [apply Hsetup|].
    destruct (Getenv w "OPENAI_API_KEY" =? "")%string; [apply Hsetup|].
    rewrite MainGo_rowLoop_loopWith.
    apply (run_books (MainGo.processRecipient w) _ rows _ _ _ _
             (fun c => "Total drafts created: " ++ Fmt.Sprintf_d c)%string).
    + apply MainGo_processRecipient_modest.
    + apply loadStart_in_range.
  - unfold Part001a.generateDrafts, Part001a.maxDrafts.
    destruct (OpenFile w Part001a.excelPath); [apply Hsetup|].
    destruct (GetRows w (Part001a.sheetOf mode)) as [rows|]; [|apply Hsetup].
    destruct (Z.of_nat (List.length rows) <=? 1); [apply Hsetup|].
    destruct (getGmailService w); [apply Hsetup|].
    destruct (Getenv w "OPENAI_API_KEY" =? "")%string; [apply Hsetup|].
    rewrite Part001a_rowLoop_loopWith.
    apply (run_books (Part001a.processRecipient w mode) _ rows _ _ _ _
             (fun c => "Total drafts created: " ++ Fmt.Sprintf_d c)%string).
    + apply Part001a_processRecipient_modest.
    + apply loadStart_in_range.
  - unfold Part001b.generateDrafts, Part001b.maxDrafts.
    destruct (OpenFile w Part001b.excelPath); [apply Hsetup|].
    destruct (GetRows w _) as [rows|]; [|apply Hsetup].
    destruct (Z.of_nat (List.length rows) <=? 1); [apply Hsetup|].
    destruct (getGmailService w); [apply Hsetup|].
    destruct (Getenv w "OPENAI_API_KEY" =? "")%string; [apply Hsetup|].
    rewrite Part001b_rowLoop_loopWith.
    apply (run_books (Part001b.processRecipient w mode) _ rows _ _ _ _
             (fun c => "Total drafts created: " ++ Fmt.Sprintf_d c)%string).
    + apply Part001b_processRecipient_modest.
    + apply loadStart_in_range.
Qed.

Lemma loopWith_no_writes (process : Z -> Recipient -> LoopState -> LoopState)
  (s e : Z) :
  modest process ->
  forall rows i st,
    filter isWriteFile (events (loopWith process s e i rows st))
    = filter isWriteFile (events st).
Proof.
  intros Hm. induction rows as [|row rest IH]; intros i st; cbn [loopWith].
  - reflexivity.
  - destruct (i <? s); [apply IH|].
    destruct (i >=? e); [reflexivity|].
    destruct (extractRecipient row) as [r|]; [|apply IH].
    rewrite IH. destruct (Hm i r st) as (evs & Hev & Hw & _).
    rewrite Hev, filter_app, Hw. apply app_nil_r.
Qed.

(** X2: handling the rows writes no file.  In each of the three programs
    the row loop leaves the file writes of the trace as they were when it
    started, whatever the rows, the window, the mode and the answers of
    the outside world: the cursor write that follows the loop is the only
    write from the first row on. *)
Theorem row_loop_writes_no_file (w : World) (mode : string) (s e i : Z)
  (rows : list (list string)) (st : LoopState) :
  filter isWriteFile (events (MainGo.rowLoop w s e i rows st))
  = filter isWriteFile (events st)
  /\ filter isWriteFile (events (Part001a.rowLoop w mode s e i rows st))
     = filter isWriteFile (events st)
  /\ filter isWriteFile (events (Part001b.rowLoop w mode s e i rows st))
     = filter isWriteFile (events st).
Proof.
  split; [|split].
  - rewrite MainGo_rowLoop_loopWith.
    apply loopWith_no_writes, MainGo_processRecipient_modest.
  - rewrite Part001a_rowLoop_loopWith.
    apply loopWith_no_writes, Part001a_processRecipient_modest.
  - rewrite Part001b_rowLoop_loopWith.
    apply loopWith_no_writes, Part001b_processRecipient_modest.
Qed.

(** ** The cursor from run to run *)

Lemma fileAfter_no_writes (path : string) (before : option string) (evs : list Event) :
  filter isWriteFile evs = [] -> fileAfter path before evs = before.
Proof.
  induction evs as [|e evs IH]; intros H; [reflexivity|].
  destruct e; cbn in H; try discriminate H; cbn [fileAfter]; now apply IH.
Qed.

Lemma fileAfter_app (path : string) (evs1 evs2 : list Event) :
  forall before,
    fileAfter path before (evs1 ++ evs2)
    = fileAfter path (fileAfter path before evs1) evs2.
Proof.
  induction evs1 as [|e evs1 IH]; intros before; [reflexivity|].
  destruct e; cbn [app fileAfter]; try apply IH.
  destruct (path0 =? path)%string; apply IH.
Qed.

Lemma loadStart_Sprintf (n : Z) :
  GoInt.in_range n -> loadStart (Some (Fmt.Sprintf_d n)) = n.
Proof.
  intros H. unfold loadStart.
  rewrite <- (string_app_nil_r (Fmt.Sprintf_d n)).
  now rewrite Sscanf_Sprintf.
Qed.

(** One run of src/main.go leaves the clamped end index in the cursor
    file, and the setup of the next run passes as this one's did. *)
Lemma nextWorld_cursor (w : World) (rows : list (list string)) :
  setupPasses w rows ->
  ReadProgress (nextWorld w) "progress.txt"
  = Some (Fmt.Sprintf_d
            (newProgressOf
               (endIndexOf (loadStart (ReadProgress w "progress.txt")) MainGo.maxDrafts)
               (Z.of_nat (List.length rows))))
  /\ setupPasses (nextWorld w) rows.
Proof.
  intros (Hopen & Hrows & Hlen & Hgmail & Hkey).
  unfold nextWorld, MainGo.generateDrafts.
  rewrite Hopen, Hrows, Hgmail.
  replace (Z.of_nat (List.length rows) <=? 1) with false by lia.
  apply String.eqb_neq in Hkey. rewrite Hkey.
  split.
  - cbn [withProgress ReadProgress emit events].
    rewrite MainGo_rowLoop_loopWith.
    set (s := loadStart (ReadProgress w "progress.txt")).
    destruct (loopWith_accounting (MainGo.processRecipient w)
                (MainGo_processRecipient_modest w) s (endIndexOf s MainGo.maxDrafts)
                rows 0
                (mkLoopState 0
                   [Log ("Processing professors " ++ Fmt.Sprintf_d s ++ " to "
                         ++ Fmt.Sprintf_d (endIndexOf s MainGo.maxDrafts) ++ " ...")]))
      as (evs & Hev & Hw & _).
    { pose proof (loadStart_in_range (ReadProgress w "progress.txt")) as Hs.
      fold s in Hs.
      assert (He : endIndexOf s MainGo.maxDrafts <= s + MainGo.maxDrafts).
      { apply endIndexOf_le; [assumption|].
        unfold MainGo.maxDrafts, GoInt.max_int. lia. }
      cbn [count]. unfold GoInt.max_int, MainGo.maxDrafts in *. lia. }
    { cbn [count]. unfold GoInt.min_int. lia. }
    rewrite Hev. cbn [events].
    rewrite fileAfter_app, fileAfter_app.
    rewrite (fileAfter_no_writes _ _ evs Hw).
    reflexivity.
  - unfold setupPasses. cbn. apply String.eqb_neq in Hkey. tauto.
Qed.

(** X3: resuming works.  When the setup passes, the sheet stays the same
    and the cursor starts inside it, the run after [n] runs of
    src/main.go starts at row [min(start + 30 n, totalRows)]: each run
    moves the cursor one batch on until it reaches the row count, where
    it stays. *)
Theorem cursor_after_n_runs (w : World) (rows : list (list string)) (n : nat) :
  let start := loadStart (ReadProgress w "progress.txt") in
  let total := Z.of_nat (List.length rows) in
  setupPasses w rows ->
  1 <= start <= total ->
  total + MainGo.maxDrafts <= GoInt.max_int ->
  loadStart (ReadProgress (afterRuns n w) "progress.txt")
  = Z.min (start + MainGo.maxDrafts * Z.of_nat n) total.
Proof.
  intros start total Hsetup Hstart Hfit.
  enough (H : setupPasses (afterRuns n w) rows
              /\ loadStart (ReadProgress (afterRuns n w) "progress.txt")
                 = Z.min (start + MainGo.maxDrafts * Z.of_nat n) total)
    by exact (proj2 H).
  unfold MainGo.maxDrafts in *.
  induction n as [|n [IHs IHc]].
  - split; [assumption|]. cbn [afterRuns]. fold start. lia.
  - cbn [afterRuns].
    destruct (nextWorld_cursor (afterRuns n w) rows IHs) as [Hfile Hnext].
    split; [assumption|].
    rewrite Hfile, IHc. fold total. unfold MainGo.maxDrafts.
    set (s := Z.min (start + 30 * Z.of_nat n) total).
    assert (Hs : 1 <= s <= total) by (unfold s; lia).
    assert (Hend : endIndexOf s 30 = s + 30).
    { unfold endIndexOf, GoInt.add. apply wrap_in_range.
      unfold GoInt.in_range, GoInt.min_int, GoInt.max_int in *. lia. }
    assert (Hnew : newProgressOf (endIndexOf s 30) total = Z.min (s + 30) total).
    { rewrite Hend. unfold newProgressOf.
      destruct (s + 30 >? total) eqn:Hgt; lia. }
    rewrite Hnew, loadStart_Sprintf.
    + unfold s. lia.
    + unfold GoInt.in_range, GoInt.min_int, GoInt.max_int in *. lia.
Qed.

Lemma cursor_after_n_runs_witness :
  loadStart (ReadProgress (afterRuns 2 Sample.noAttachment) "progress.txt")
  = Z.min (1 + MainGo.maxDrafts * 2) 3.
Proof.
  apply (cursor_after_n_runs Sample.noAttachment Sample.rows 2).
  - unfold setupPasses. cbn. repeat split; try reflexivity; try lia.
    discriminate.
  - cbn. lia.
  - cbn. unfold GoInt.max_int. lia.
Defined.

(** ** Windows of rows *)

(** X4: two adjacent windows handled one after the other leave the state
    that the one window covering both leaves, in each program's loop (the
    world answering alike): splitting a sheet into batches neither drops
    nor repeats a row. *)
Theorem adjacent_windows_compose
  (w : World) (mode : string) (a b c : Z) (rows : list (list string)) (st : LoopState) :
  a <= b <= c ->
  MainGo.rowLoop w b c 0 rows (MainGo.rowLoop w a b 0 rows st)
  = MainGo.rowLoop w a c 0 rows st
  /\ Part001a.rowLoop w mode b c 0 rows (Part001a.rowLoop w mode a b 0 rows st)
     = Part001a.rowLoop w mode a c 0 rows st
  /\ Part001b.rowLoop w mode b c 0 rows (Part001b.rowLoop w mode a b 0 rows st)
     = Part001b.rowLoop w mode a c 0 rows st.
Proof.
  intros H.
  rewrite !MainGo_rowLoop_loopWith, !Part001a_rowLoop_loopWith,
    !Part001b_rowLoop_loopWith.
  repeat split; apply loopWith_compose; assumption.
Qed.

Lemma adjacent_windows_compose_witness :
  MainGo.rowLoop Sample.noAttachment 2 3 0 Sample.rows
    (MainGo.rowLoop Sample.noAttachment 1 2 0 Sample.rows Sample.start)
  = MainGo.rowLoop Sample.noAttachment 1 3 0 Sample.rows Sample.start.
Proof.
  apply (adjacent_windows_compose Sample.noAttachment "initial" 1 2 3
           Sample.rows Sample.start).
  lia.
Defined.

(** X5: the loop reads the rows of its window only.  With a start index
    that is not negative, running it over the whole sheet is running it
    over the rows from [start] up to, not including, [end]; the header
    and every row outside the window could hold anything. *)
Theorem loop_reads_its_window_only
  (w : World) (mode : string) (s e : Z) (rows : list (list string)) (st : LoopState) :
  0 <= s ->
  let window := firstn (Z.to_nat (e - s)) (skipn (Z.to_nat s) rows) in
  MainGo.rowLoop w s e 0 rows st = MainGo.rowLoop w s e s window st
  /\ Part001a.rowLoop w mode s e 0 rows st = Part001a.rowLoop w mode s e s window st
  /\ Part001b.rowLoop w mode s e 0 rows st = Part001b.rowLoop w mode s e s window st.
Proof.
  intros Hs window.
  rewrite !MainGo_rowLoop_loopWith, !Part001a_rowLoop_loopWith,
    !Part001b_rowLoop_loopWith.
  assert (H : forall process,
             loopWith process s e 0 rows st = loopWith process s e s window st).
  { intros process.
    rewrite (loopWith_skip process s e (Z.to_nat s) rows 0 st) by lia.
    rewrite Z.add_0_l, Z2Nat.id by lia.
    apply loopWith_truncate. }
  repeat split; apply H.
Qed.

Lemma loop_reads_its_window_only_witness :
  MainGo.rowLoop Sample.noAttachment 2 3 0 Sample.rows Sample.start
  = MainGo.rowLoop Sample.noAttachment 2 3 2
      [["2"; "Bo Chen:bo@uni.example"; "consensus protocols"]] Sample.start.
Proof.
  apply (loop_reads_its_window_only Sample.noAttachment "initial" 2 3
           Sample.rows Sample.start).
  lia.
Defined.

(** ** The raw message handed to the mail service *)

Section AnyAlphabet.

Variable alphabet : string.
Hypothesis alphabet_inverts :
  forall k, 0 <= k < 64 ->
    Base64.decodeChar alphabet (Base64.encodeAt alphabet k) = Some k
    /\ Base64.isPad (Base64.encodeAt alphabet k) = false.

Lemma any_decode_last_one (a : ascii) :
  Base64.DecodeString alphabet (Base64.EncodeToString alphabet (String a EmptyString))
  = Some (String a EmptyString).
Proof.
  pose proof (regroup (byteZ a) 0 0 (byteZ_range a) ltac:(lia) ltac:(lia)) as H.
  cbn zeta in H. rewrite Z.shiftl_0_l, !Z.lor_0_r in H.
  destruct H as ((R0 & R1 & _ & _) & Ha & _ & _).
  cbn [Base64.EncodeToString Base64.DecodeString].
  destruct (alphabet_inverts _ R0) as [E0 _].
  destruct (alphabet_inverts _ R1) as [E1 _].
  rewrite E0, E1.
  change (Base64.isPad Base64.padChar) with true. cbn iota.
  rewrite (Zbyte_mod _ a Ha). reflexivity.
Qed.

Lemma any_decode_last_two (a b : ascii) :
  Base64.DecodeString alphabet
    (Base64.EncodeToString alphabet (String a (String b EmptyString)))
  = Some (String a (String b EmptyString)).
Proof.
  pose proof (regroup (byteZ a) (byteZ b) 0 (byteZ_range a) (byteZ_range b)
                ltac:(lia)) as H.
  cbn zeta in H. rewrite !Z.lor_0_r in H.
  destruct H as ((R0 & R1 & R2 & _) & Ha & Hb & _).
  cbn [Base64.EncodeToString Base64.DecodeString].
  destruct (alphabet_inverts _ R0) as [E0 _].
  destruct (alphabet_inverts _ R1) as [E1 _].
  destruct (alphabet_inverts _ R2) as [E2 P2].
  rewrite E0, E1, E2, P2.
  change (Base64.isPad Base64.padChar) with true. cbn iota.
  rewrite (Zbyte_mod _ a Ha), (Zbyte_mod _ b Hb). reflexivity.
Qed.

Lemma any_decode_full_group (a b c : ascii) (data : string) :
  Base64.DecodeString alphabet (Base64.EncodeToString alphabet data) = Some data ->
  Base64.DecodeString alphabet
    (Base64.EncodeToString alphabet (String a (String b (String c data))))
  = Some (String a (String b (String c data))).
Proof.
  intros IH0.
  pose proof (regroup (byteZ a) (byteZ b) (byteZ c) (byteZ_range a)
                (byteZ_range b) (byteZ_range c)) as H.
  cbn zeta in H.
  destruct H as ((R0 & R1 & R2 & R3) & Ha & Hb & Hc).
  cbn [Base64.EncodeToString Base64.DecodeString].
  destruct (alphabet_inverts _ R0) as [E0 _].
  destruct (alphabet_inverts _ R1) as [E1 _].
  destruct (alphabet_inverts _ R2) as [E2 _].
  destruct (alphabet_inverts _ R3) as [E3 P3].
  rewrite E0, E1, E2, E3, P3, IH0.
  rewrite (Zbyte_mod _ a Ha), (Zbyte_mod _ b Hb), (Zbyte_mod _ c Hc). reflexivity.
Qed.

Lemma any_DecodeString_EncodeToString (data : string) :
  Base64.DecodeString alphabet (Base64.EncodeToString alphabet data) = Some data.
Proof.
  enough (H : Base64.DecodeString alphabet (Base64.EncodeToString alphabet data)
              = Some data
              /\ (forall a,
                     Base64.DecodeString alphabet
                       (Base64.EncodeToString alphabet (String a data))
                     = Some (String a data))
              /\ (forall a b,
                     Base64.DecodeString alphabet
                       (Base64.EncodeToString alphabet (String a (String b data)))
                     = Some (String a (String b data)))) by exact (proj1 H).
  induction data as [|c data (IH0 & IH1 & IH2)].
  - split; [exact eq_refl|].
    split; [exact any_decode_last_one | exact any_decode_last_two].
  - split; [exact (IH1 c)|].
    split; [exact (fun a => IH2 a c)|].
    intros a b. exact (any_decode_full_group a b c data IH0).
Qed.

(** Every character written is a character of the alphabet, or padding. *)
Lemma any_encodeAt_inAlphabet (v k : Z) :
  0 <= k ->
  (match Base64.decodeChar alphabet
           (Base64.encodeAt alphabet (Z.land (Z.shiftr v k) 63)) with
   | Some _ => true
   | None => false
   end || Base64.isPad (Base64.encodeAt alphabet (Z.land (Z.shiftr v k) 63))) = true.
Proof.
  intros Hk.
  assert (R : 0 <= Z.land (Z.shiftr v k) 63 < 64).
  { rewrite sextet by assumption. apply Z.mod_pos_bound. lia. }
  destruct (alphabet_inverts _ R) as [E _]. now rewrite E.
Qed.

Lemma any_EncodeToString_inAlphabet (data : string) :
  inAlphabet alphabet (Base64.EncodeToString alphabet data) = true.
Proof.
  enough (H : inAlphabet alphabet (Base64.EncodeToString alphabet data) = true
              /\ (forall a,
                     inAlphabet alphabet
                       (Base64.EncodeToString alphabet (String a data)) = true)
              /\ (forall a b,
                     inAlphabet alphabet
                       (Base64.EncodeToString alphabet (String a (String b data)))
                     = true)) by exact (proj1 H).
  assert (Hlast : forall v : Z,
             (match Base64.decodeChar alphabet
                      (Base64.encodeAt alphabet (Z.land v 63)) with
              | Some _ => true
              | None => false
              end || Base64.isPad (Base64.encodeAt alphabet (Z.land v 63))) = true).
  { intros v. rewrite <- (Z.shiftr_0_r v) at 1 2.
    apply any_encodeAt_inAlphabet. lia. }
  induction data as [|c data (IH0 & IH1 & IH2)].
  - split; [exact eq_refl|]. split.
    + intros a. cbn [Base64.EncodeToString inAlphabet].
      rewrite !any_encodeAt_inAlphabet by lia.
      change (Base64.isPad Base64.padChar) with true.
      rewrite !orb_true_r. reflexivity.
    + intros a b. cbn [Base64.EncodeToString inAlphabet].
      rewrite !any_encodeAt_inAlphabet by lia.
      change (Base64.isPad Base64.padChar) with true.
      rewrite !orb_true_r. reflexivity.
  - split; [exact (IH1 c)|].
    split; [exact (fun a => IH2 a c)|].
    intros a b. cbn [Base64.EncodeToString inAlphabet].
    rewrite !any_encodeAt_inAlphabet by lia.
    rewrite Hlast, IH0. reflexivity.
Qed.

End AnyAlphabet.

Lemma encodeURL_inverts (k : Z) :
  0 <= k < 64 ->
  Base64.decodeChar Base64.encodeURL (Base64.encodeAt Base64.encodeURL k) = Some k
  /\ Base64.isPad (Base64.encodeAt Base64.encodeURL k) = false.
Proof.
  intros Hk.
  assert (Hall : forallb
            (fun n =>
               let c := Base64.encodeAt Base64.encodeURL (Z.of_nat n) in
               match Base64.decodeChar Base64.encodeURL c with
               | Some j => (j =? Z.of_nat n) && negb (Base64.isPad c)
               | None => false
               end) (seq 0 64) = true) by (vm_compute; reflexivity).
  rewrite forallb_forall in Hall.
  specialize (Hall (Z.to_nat k)).
  rewrite Z2Nat.id in Hall by lia.
  assert (Hin : In (Z.to_nat k) (seq 0 64)) by (apply in_seq; lia).
  specialize (Hall Hin). cbn zeta in Hall.
  destruct (Base64.decodeChar Base64.encodeURL (Base64.encodeAt Base64.encodeURL k))
    as [j|]; [|discriminate].
  apply andb_true_iff in Hall. destruct Hall as [Hj Hp].
  apply Z.eqb_eq in Hj. subst j.
  split; [reflexivity|]. now apply negb_true_iff in Hp.
Qed.

(** The loop appends the same lines to whatever was written before. *)
Lemma wrapLoop_appends (encoded msg : string) :
  wrapLoop encoded 0 msg = (msg ++ wrapLines encoded)%string.
Proof.
  destruct (wrapLoop_lines encoded 0 msg ltac:(lia)) as (c1 & H1 & C1 & W1).
  destruct (wrapLoop_lines encoded 0 EmptyString ltac:(lia)) as (c2 & H2 & C2 & W2).
  unfold wrapLines. rewrite H1, H2. cbn [append].
  now rewrite (wrapped76_unique c1 W1 c2 W2) by congruence.
Qed.

Lemma buildRawEmail_document
  (w : World) (i : Z) (to subject body path data : string) :
  ReadAttachment w i path = Ok data ->
  buildRawEmail w i to subject body path
  = Ok (Base64.EncodeToString Base64.encodeURL
          (mimeDocument w to subject body path data)).
Proof.
  intros Hread. unfold buildRawEmail, mimeDocument. rewrite Hread.
  cbn zeta. rewrite wrapLoop_appends. do 2 f_equal.
  rewrite !string_app_assoc. cbn [append]. reflexivity.
Qed.

(** X7: whenever the attachment can be read, buildRawEmail succeeds, and
    what it returns is made of characters of the URL-safe alphabet (and
    padding) and decodes, as base64url, to the MIME document: the four
    header lines, the HTML part with the body verbatim, the attachment
    part with its declared type (application/octet-stream when the
    extension is unknown) and the base64 lines of the attachment, and the
    closing boundary. *)
Theorem raw_message_decodes_to_document
  (w : World) (i : Z) (to subject body path data : string) :
  ReadAttachment w i path = Ok data ->
  exists raw,
    buildRawEmail w i to subject body path = Ok raw
    /\ inAlphabet Base64.encodeURL raw = true
    /\ Base64.DecodeString Base64.encodeURL raw
       = Some (mimeDocument w to subject body path data).
Proof.
  intros Hread.
  exists (Base64.EncodeToString Base64.encodeURL
            (mimeDocument w to subject body path data)).
  split; [exact (buildRawEmail_document w i to subject body path data Hread)|].
  split.
  - apply any_EncodeToString_inAlphabet. exact encodeURL_inverts.
  - apply any_DecodeString_EncodeToString. exact encodeURL_inverts.
Qed.

Lemma raw_message_decodes_to_document_witness :
  exists raw,
    buildRawEmail (Sample.world None) 1 "ann@uni.example" "Hello" "<p>Hi</p>"
      MainGo.attachmentPath = Ok raw
    /\ inAlphabet Base64.encodeURL raw = true
    /\ Base64.DecodeString Base64.encodeURL raw
       = Some (mimeDocument (Sample.world None) "ann@uni.example" "Hello" "<p>Hi</p>"
                 MainGo.attachmentPath "%PDF-1.4 sample").
Proof.
  apply (raw_message_decodes_to_document (Sample.world None) 1).
  reflexivity.
Defined.

(** ** Trimmed fields *)

Lemma TrimLeftSpace_trimWith (s : string) :
  Strings.TrimLeftSpace s = trimWith asciiSpace space2 space3 s.
Proof.
  enough (H : forall n s, (String.length s <= n)%nat ->
                Strings.TrimLeftSpace s = trimWith asciiSpace space2 space3 s)
    by (apply (H (String.length s)); lia).
  clear s. induction n as [|n IH]; intros s Hn.
  - destruct s; [reflexivity|cbn in Hn; lia].
  - destruct s as [|a r1]; [reflexivity|].
    cbn [String.length] in Hn. cbn [Strings.TrimLeftSpace trimWith].
    destruct (asciiSpace (byteZ a)); [apply IH; lia|].
    destruct r1 as [|b r2]; [reflexivity|]. cbn [String.length] in Hn.
    destruct (space2 (byteZ a) (byteZ b)); [apply IH; lia|].
    destruct r2 as [|c r3]; [reflexivity|]. cbn [String.length] in Hn.
    destruct (space3 (byteZ a) (byteZ b) (byteZ c)); [apply IH; lia|reflexivity].
Qed.

Lemma trimRevSpace_trimWith (s : string) :
  Strings.trimRevSpace s
  = trimWith asciiSpace (fun c b => space2 b c) (fun c b a => space3 a b c) s.
Proof.
  enough (H : forall n s, (String.length s <= n)%nat ->
                Strings.trimRevSpace s
                = trimWith asciiSpace (fun c b => space2 b c)
                    (fun c b a => space3 a b c) s)
    by (apply (H (String.length s)); lia).
  clear s. induction n as [|n IH]; intros s Hn.
  - destruct s; [reflexivity|cbn in Hn; lia].
  - destruct s as [|a r1]; [reflexivity|].
    cbn [String.length] in Hn. cbn [Strings.trimRevSpace trimWith].
    destruct (asciiSpace (byteZ a)); [apply IH; lia|].
    destruct r1 as [|b r2]; [reflexivity|]. cbn [String.length] in Hn.
    destruct (space2 (byteZ b) (byteZ a)); [apply IH; lia|].
    destruct r2 as [|c r3]; [reflexivity|]. cbn [String.length] in Hn.
    destruct (space3 (byteZ c) (byteZ b) (byteZ a)); [apply IH; lia|reflexivity].
Qed.

Section TrimWith.

Variable p1 : Z -> bool.
Variable p2 : Z -> Z -> bool.
Variable p3 : Z -> Z -> Z -> bool.

Let trim := trimWith p1 p2 p3.

(** What is kept is the end of the text, and it does not begin with a
    white space unit. *)
Lemma trimWith_suffix_fixed :
  forall n s, (String.length s <= n)%nat ->
    (exists p, s = (p ++ trim s)%string) /\ trim (trim s) = trim s.
Proof.
  unfold trim.
  induction n as [|n IH]; intros s Hn.
  - destruct s; [|cbn in Hn; lia]. split; [now exists EmptyString|reflexivity].
  - destruct s as [|a r1]; [split; [now exists EmptyString|reflexivity]|].
    cbn [String.length] in Hn.
    destruct (p1 (byteZ a)) eqn:H1.
    + destruct (IH r1 ltac:(lia)) as [[p Hp] Hf].
      cbn [trimWith]. rewrite H1. split; [|assumption].
      exists (String a p). cbn [append]. now rewrite <- Hp.
    + destruct r1 as [|b r2].
      * cbn [trimWith]. rewrite H1. split; [now exists EmptyString|].
        cbn [trimWith]. now rewrite H1.
      * cbn [String.length] in Hn.
        destruct (p2 (byteZ a) (byteZ b)) eqn:H2.
        -- destruct (IH r2 ltac:(lia)) as [[p Hp] Hf].
           cbn [trimWith]. rewrite H1, H2. split; [|assumption].
           exists (String a (String b p)). cbn [append]. now rewrite <- Hp.
        -- destruct r2 as [|c r3].
           ++ cbn [trimWith]. rewrite H1, H2. split; [now exists EmptyString|].
              cbn [trimWith]. now rewrite H1, H2.
           ++ cbn [String.length] in Hn.
              destruct (p3 (byteZ a) (byteZ b) (byteZ c)) eqn:H3.
              ** destruct (IH r3 ltac:(lia)) as [[p Hp] Hf].
                 cbn [trimWith]. rewrite H1, H2, H3. split; [|assumption].
                 exists (String a (String b (String c p))). cbn [append].
                 now rewrite <- Hp.
              ** cbn [trimWith]. rewrite H1, H2, H3.
                 split; [now exists EmptyString|].
                 cbn [trimWith]. now rewrite H1, H2, H3.
Qed.

Lemma trimWith_length (s : string) :
  (String.length (trim s) <= String.length s)%nat.
Proof.
  destruct (trimWith_suffix_fixed (String.length s) s ltac:(lia)) as [[p Hp] _].
  rewrite Hp at 2. rewrite string_app_length. lia.
Qed.

(** A text that does not begin with a white space unit has no beginning
    that does. *)
Lemma trimWith_fixed_prefix (u q : string) :
  trim (u ++ q) = (u ++ q)%string -> trim u = u.
Proof.
  unfold trim. intros H.
  assert (Hshort : forall t x, trimWith p1 p2 p3 t <> (x ++ t)%string
                               \/ x = EmptyString).
  { intros t x. destruct x as [|c x]; [now right|]. left. intros Heq.
    pose proof (trimWith_length t) as Hl. unfold trim in Hl.
    rewrite Heq, string_app_length in Hl. cbn in Hl. lia. }
  destruct u as [|a r1]; [reflexivity|].
  cbn [append trimWith] in H. cbn [trimWith].
  destruct (p1 (byteZ a)).
  { destruct (Hshort (r1 ++ q)%string (String a EmptyString)) as [Hn|Hn];
      [now elim Hn | discriminate Hn]. }
  destruct r1 as [|b r2]; [reflexivity|].
  cbn [append] in H.
  destruct (p2 (byteZ a) (byteZ b)).
  { destruct (Hshort (r2 ++ q)%string (String a (String b EmptyString))) as [Hn|Hn];
      [now elim Hn | discriminate Hn]. }
  destruct r2 as [|c r3]; [reflexivity|].
  cbn [append] in H.
  destruct (p3 (byteZ a) (byteZ b) (byteZ c)); [|reflexivity].
  destruct (Hshort (r3 ++ q)%string (String a (String b (String c EmptyString))))
    as [Hn|Hn]; [now elim Hn | discriminate Hn].
Qed.

End TrimWith.

Lemma list_ascii_of_string_app (a b : string) :
  list_ascii_of_string (a ++ b) = (list_ascii_of_string a ++ list_ascii_of_string b)%list.
Proof. induction a as [|c a IH]; cbn; [reflexivity|]. now rewrite IH. Qed.

Lemma string_of_list_ascii_app (l1 l2 : list ascii) :
  string_of_list_ascii (l1 ++ l2)
  = (string_of_list_ascii l1 ++ string_of_list_ascii l2)%string.
Proof. induction l1 as [|c l1 IH]; cbn; [reflexivity|]. now rewrite IH. Qed.

Lemma rev_rev (s : string) : Strings.rev (Strings.rev s) = s.
Proof.
  unfold Strings.rev.
  now rewrite list_ascii_of_string_of_list_ascii, rev_involutive,
    string_of_list_ascii_of_string.
Qed.

Lemma rev_app (a b : string) :
  Strings.rev (a ++ b) = (Strings.rev b ++ Strings.rev a)%string.
Proof.
  unfold Strings.rev.
  now rewrite list_ascii_of_string_app, rev_app_distr, string_of_list_ascii_app.
Qed.

(** What TrimSpace keeps is a piece of its argument. *)
Lemma TrimSpace_inside (s : string) :
  exists p q, s = (p ++ Strings.TrimSpace s ++ q)%string.
Proof.
  unfold Strings.TrimSpace, Strings.TrimRightSpace.
  set (t := Strings.TrimLeftSpace s).
  destruct (trimWith_suffix_fixed asciiSpace space2 space3 (String.length s) s
              ltac:(lia)) as [[p Hp] _].
  rewrite <- TrimLeftSpace_trimWith in Hp. fold t in Hp.
  destruct (trimWith_suffix_fixed asciiSpace (fun c b => space2 b c)
              (fun c b a => space3 a b c) (String.length (Strings.rev t))
              (Strings.rev t) ltac:(lia)) as [[p' Hp'] _].
  rewrite <- trimRevSpace_trimWith in Hp'.
  exists p, (Strings.rev p').
  rewrite <- rev_app, <- Hp', rev_rev. exact Hp.
Qed.

(** Trimming twice is trimming once. *)
Lemma TrimSpace_fixed (s : string) :
  Strings.TrimSpace (Strings.TrimSpace s) = Strings.TrimSpace s.
Proof.
  unfold Strings.TrimSpace, Strings.TrimRightSpace.
  set (t := Strings.TrimLeftSpace s).
  set (x := Strings.trimRevSpace (Strings.rev t)).
  destruct (trimWith_suffix_fixed asciiSpace space2 space3 (String.length s) s
              ltac:(lia)) as [_ Hfix].
  rewrite <- (TrimLeftSpace_trimWith s) in Hfix. fold t in Hfix.
  rewrite <- (TrimLeftSpace_trimWith t) in Hfix.
  destruct (trimWith_suffix_fixed asciiSpace (fun c b => space2 b c)
              (fun c b a => space3 a b c) (String.length (Strings.rev t))
              (Strings.rev t) ltac:(lia)) as [[p' Hp'] Hfix'].
  rewrite <- (trimRevSpace_trimWith (Strings.rev t)) in Hp', Hfix'.
  fold x in Hp', Hfix'.
  rewrite <- (trimRevSpace_trimWith x) in Hfix'.
  assert (Ht : t = (Strings.rev x ++ Strings.rev p')%string).
  { rewrite <- rev_app, <- Hp'. symmetry. apply rev_rev. }
  assert (Hleft : Strings.TrimLeftSpace (Strings.rev x) = Strings.rev x).
  { rewrite TrimLeftSpace_trimWith.
    apply (trimWith_fixed_prefix asciiSpace space2 space3 _ (Strings.rev p')).
    rewrite <- Ht, <- TrimLeftSpace_trimWith. exact Hfix. }
  rewrite Hleft, rev_rev, Hfix'. reflexivity.
Qed.

Lemma contains_inside (s p q sub : string) :
  contains s sub -> contains (p ++ s ++ q) sub.
Proof.
  intros (a & b & ->). exists (p ++ a)%string, (b ++ q)%string.
  now rewrite !string_app_assoc.
Qed.

(** X8: the fields of an extracted recipient are clean: none is empty,
    trimming any of them again changes nothing, the name holds no colon,
    and each is a piece of the cell it was read from. *)
Theorem recipient_fields_are_clean (row : list string) (r : Recipient) :
  extractRecipient row = Some r ->
  (name r <> EmptyString /\ email r <> EmptyString /\ researchText r <> EmptyString)
  /\ (Strings.TrimSpace (name r) = name r
      /\ Strings.TrimSpace (email r) = email r
      /\ Strings.TrimSpace (researchText r) = researchText r)
  /\ ~ contains (name r) ":"
  /\ (contains (cell row 1) (name r)
      /\ contains (cell row 1) (email r)
      /\ contains (cell row 2) (researchText r)).
Proof.
  unfold extractRecipient, Strings.SplitN_colon_2.
  destruct (Z.of_nat (List.length row) <? 3); [discriminate|].
  destruct (String.eqb_spec (Strings.TrimSpace (cell row 1)) "") as [|Hprof];
    [discriminate|].
  destruct (String.eqb_spec (Strings.TrimSpace (cell row 2)) "") as [|Hres];
    [discriminate|].
  cbn [orb].
  destruct (Strings.cut 58 (Strings.TrimSpace (cell row 1))) as [[a b]|] eqn:Hcut;
    [|discriminate].
  cbn [List.length Z.of_nat Z.ltb Z.compare Pos.compare Pos.compare_cont
       Pos.of_succ_nat Pos.succ cell nth].
  destruct (String.eqb_spec (Strings.TrimSpace a) "") as [|Hname]; [discriminate|].
  destruct (String.eqb_spec (Strings.TrimSpace b) "") as [|Hmail]; [discriminate|].
  cbn [orb]. intros H. injection H as <-. cbn [name email researchText].
  destruct (cut_Some _ _ _ Hcut) as [Hsplit Hno].
  destruct (TrimSpace_inside a) as (pa & qa & Ha).
  destruct (TrimSpace_inside b) as (pb & qb & Hb).
  destruct (TrimSpace_inside (cell row 1)) as (p1 & q1 & H1).
  destruct (TrimSpace_inside (cell row 2)) as (p2 & q2 & H2).
  unfold cell in *.
  split; [tauto|]. split; [repeat split; apply TrimSpace_fixed|]. split.
  - intros Hc. apply Hno. rewrite Ha. apply contains_inside. exact Hc.
  - split; [|split].
    + rewrite H1. apply contains_inside. rewrite Hsplit.
      exists pa, (qa ++ ":" ++ b)%string. rewrite Ha at 1.
      now rewrite !string_app_assoc.
    + rewrite H1. apply contains_inside. rewrite Hsplit.
      exists (a ++ ":" ++ pb)%string, qb. rewrite Hb at 1.
      now rewrite !string_app_assoc.
    + exists p2, q2. exact H2.
Qed.

Lemma recipient_fields_are_clean_witness :
  ~ contains (name Sample.ann) ":"
  /\ Strings.TrimSpace (email Sample.ann) = email Sample.ann.
Proof.
  destruct (recipient_fields_are_clean
              ["1"; " Ann Lee : ann@uni.example "; " graph algorithms "]
              Sample.ann eq_refl) as (_ & (_ & Hm & _) & Hno & _).
  split; assumption.
Defined.

(** ** Dispatch *)

Lemma createDraft_readable
  (w : World) (i : Z) (to subject body path data : string) :
  ReadAttachment w i path = Ok data ->
  createDraft w i to subject body path
  = ([DraftsCreateCall (Base64.EncodeToString Base64.encodeURL
                          (mimeDocument w to subject body path data))],
     DraftsCreate w i (Base64.EncodeToString Base64.encodeURL
                         (mimeDocument w to subject body path data))).
Proof.
  intros Hread. unfold createDraft.
  now rewrite (buildRawEmail_document w i to subject body path data Hread).
Qed.

(** X9: with a readable attachment the dispatch step of src/main.go makes
    exactly one draft-creation call, carrying the encoded document; the
    draft is counted only when the mail service returns no error,
    otherwise its error is logged; either way the step ends with the
    two-second pause. *)
Theorem dispatch_outcome
  (w : World) (i : Z) (r : Recipient) (subject body data : string) (st : LoopState) :
  ReadAttachment w i MainGo.attachmentPath = Ok data ->
  let raw := Base64.EncodeToString Base64.encodeURL
               (mimeDocument w (email r) subject body MainGo.attachmentPath data) in
  events (MainGo.dispatch w i r subject body st)
  = (events st
     ++ [DraftsCreateCall raw;
         Log (match DraftsCreate w i raw with
              | Some err => "❌ Draft creation failed for " ++ name r ++ ": " ++ err
              | None => "✅ Draft created for " ++ name r ++ " <" ++ email r ++ ">"
              end);
         Sleep 2])%list
  /\ count (MainGo.dispatch w i r subject body st)
     = match DraftsCreate w i raw with
       | Some _ => count st
       | None => GoInt.add (count st) 1
       end.
Proof.
  intros Hread raw. unfold MainGo.dispatch.
  rewrite (createDraft_readable w i (email r) subject body _ data Hread).
  fold raw. destruct (DraftsCreate w i raw) as [err|];
    cbn [emit count events]; rewrite <- !app_assoc; split; reflexivity.
Qed.

Lemma dispatch_outcome_witness :
  count (MainGo.dispatch (Sample.world None) 1 Sample.ann "Hello" "<p>Hi</p>"
           Sample.start) = 1.
Proof.
  exact (proj2 (dispatch_outcome (Sample.world None) 1 Sample.ann "Hello" "<p>Hi</p>"
                  "%PDF-1.4 sample" Sample.start eq_refl)).
Defined.

(** X10: in the second program of part_001, when the model returns no
    candidate and no error, generateEmail returns an empty subject and an
    empty body without an error, and the loop dispatches them: with a
    readable attachment a draft with empty subject and body is sent to
    the mail service. *)
Theorem no_candidates_dispatches_empty_email
  (w : World) (mode : string) (i : Z) (r : Recipient) (data : string) (st : LoopState) :
  CreateChatCompletion w i (Part001b.topicsRequest (researchText r)) = ChatChoices [] ->
  ReadAttachment w i Part001b.attachmentPath = Ok data ->
  snd (Part001b.generateEmail w i (name r) (researchText r) mode)
  = Ok (EmptyString, EmptyString)
  /\ exists outcome,
      events (Part001b.processRecipient w mode i r st)
      = (events st
         ++ [Log ("⚠️ OpenAI topic extraction failed for " ++ name r ++ ": <nil>");
             DraftsCreateCall
               (Base64.EncodeToString Base64.encodeURL
                  (mimeDocument w (email r) EmptyString EmptyString
                     Part001b.attachmentPath data));
             Log outcome;
             Sleep 2])%list.
Proof.
  intros Hchat Hread.
  unfold Part001b.processRecipient, Part001b.generateEmail. rewrite Hchat.
  split; [reflexivity|].
  unfold Part001b.dispatch.
  rewrite (createDraft_readable w i (email r) "" "" _ data Hread).
  destruct (DraftsCreate w i _) as [err|]; eexists;
    cbn [emit count events]; rewrite <- !app_assoc; reflexivity.
Qed.

Lemma no_candidates_dispatches_empty_email_witness :
  snd (Part001b.generateEmail Edge.noCandidates 1 (name Sample.ann)
         (researchText Sample.ann) "initial")
  = Ok (EmptyString, EmptyString).
Proof.
  exact (proj1 (no_candidates_dispatches_empty_email Edge.noCandidates "initial" 1
                  Sample.ann "%PDF-1.4 sample" Sample.start eq_refl eq_refl)).
Defined.

(** ** The first program of part_001 *)

Lemma generateFollowupEmailBody_contains_line
  (professorName universityName topics line : string) :
  line = (if negb (topics =? "")%string
          then ("<p>I’m particularly interested in your research on <strong>"
                ++ topics
                ++ "</strong>, and I believe my background in backend development and Golang aligns well with these areas.</p>")%string
          else "<p>I remain deeply interested in your ongoing research directions.</p>") ->
  contains (Part001a.generateFollowupEmailBody professorName universityName topics) line.
Proof.
  intros ->. unfold Part001a.generateFollowupEmailBody.
  do 5 apply contains_later. apply contains_here.
Qed.

(** X11: in follow-up mode the topics never fail the recipient.  The
    subject is fixed and the body is the follow-up template for the
    follow-up school; when the model call fails (an error, or no
    candidate) or answers with blank text, the body carries the general
    sentence about ongoing research, otherwise it names the trimmed
    topics in bold. *)
Theorem followup_body_topics (w : World) (i : Z) (r : Recipient) :
  let topics := snd (Part001a.getRelevantTopics w i (researchText r)) in
  let body := snd (snd (Part001a.composeFor w "followup" i r)) in
  snd (Part001a.composeFor w "followup" i r)
  = ("Follow up on Master's Supervision Request (September 2026 Intake)",
     Part001a.generateFollowupEmailBody (name r) Part001a.followUpSchoolName topics)
  /\ (chatFailed (CreateChatCompletion w i (Part001a.topicsRequest (researchText r)))
      -> topics = EmptyString)
  /\ (forall content more,
         CreateChatCompletion w i (Part001a.topicsRequest (researchText r))
         = ChatChoices (content :: more) ->
         topics = Strings.TrimSpace content)
  /\ (topics = EmptyString ->
      contains body
        "<p>I remain deeply interested in your ongoing research directions.</p>")
  /\ (topics <> EmptyString ->
      contains body ("<strong>" ++ topics ++ "</strong>")).
Proof.
  intros topics body.
  assert (Hc : snd (Part001a.composeFor w "followup" i r)
               = ("Follow up on Master's Supervision Request (September 2026 Intake)",
                  Part001a.generateFollowupEmailBody (name r)
                    Part001a.followUpSchoolName topics)).
  { unfold Part001a.composeFor, topics. cbn [String.eqb Ascii.eqb Bool.eqb].
    destruct (Part001a.getRelevantTopics w i (researchText r)); reflexivity. }
  split; [exact Hc|]. split; [|split; [|split]].
  - unfold topics, Part001a.getRelevantTopics.
    destruct (CreateChatCompletion w i (Part001a.topicsRequest (researchText r)))
      as [err|[|content more]]; cbn; tauto.
  - intros content more H. unfold topics, Part001a.getRelevantTopics.
    now rewrite H.
  - intros Ht. unfold body. rewrite Hc. cbn [snd].
    apply generateFollowupEmailBody_contains_line. now rewrite Ht.
  - intros Ht. unfold body. rewrite Hc. cbn [snd].
    apply String.eqb_neq in Ht.
    pose proof (generateFollowupEmailBody_contains_line (name r)
                  Part001a.followUpSchoolName topics _ eq_refl) as H.
    rewrite Ht in H. cbn [negb] in H.
    destruct H as (pre & post & H). rewrite H.
    exists (pre ++ "<p>I’m particularly interested in your research on ")%string.
    eexists. rewrite !string_app_assoc. cbn [append]. reflexivity.
Qed.

Lemma followup_body_topics_witness :
  contains (snd (snd (Part001a.composeFor Edge.blankAnswer "followup" 1 Sample.ann)))
    "<p>I remain deeply interested in your ongoing research directions.</p>".
Proof.
  destruct (followup_body_topics Edge.blankAnswer 1 Sample.ann)
    as (_ & _ & _ & Hgeneral & _).
  apply Hgeneral. reflexivity.
Defined.

Lemma generateEmailBody1_contains (profName researchPara : string) :
  contains (snd (Part001a.generateEmailBody1 profName researchPara)) researchPara.
Proof.
  unfold Part001a.generateEmailBody1. cbn [snd].
  do 3 apply contains_later. apply contains_here.
Qed.

(** X12: in first-contact mode of the first program of part_001 (any mode
    other than "followup"), when the model call fails (an error, or no
    candidate) the failure is logged and the body is the first-contact
    template filled with the fallback sentence built from the research
    text. *)
Theorem first_contact_fallback (w : World) (mode : string) (i : Z) (r : Recipient) :
  mode <> "followup" ->
  chatFailed (CreateChatCompletion w i (Part001a.researchRequest0 (researchText r))) ->
  (exists err,
      Part001a.composeFor w mode i r
      = ([Log ("OpenAI error for " ++ name r ++ ": " ++ err ++ " (fallback used)")],
         Part001a.generateEmailBody1 (name r) (fallbackParagraph (researchText r))))
  /\ contains (snd (snd (Part001a.composeFor w mode i r)))
       (fallbackParagraph (researchText r)).
Proof.
  intros Hmode Hfail. apply String.eqb_neq in Hmode.
  assert (Hc : exists err,
             Part001a.composeFor w mode i r
             = ([Log ("OpenAI error for " ++ name r ++ ": " ++ err
                      ++ " (fallback used)")],
                Part001a.generateEmailBody1 (name r)
                  (fallbackParagraph (researchText r)))).
  { unfold Part001a.composeFor, Part001a.generateResearchParagraph0.
    rewrite Hmode.
    destruct (CreateChatCompletion w i (Part001a.researchRequest0 (researchText r)))
      as [err|[|content more]]; cbn in Hfail.
    - now exists err.
    - now eexists.
    - contradiction. }
  split; [exact Hc|].
  destruct Hc as [err ->]. cbn [snd]. apply generateEmailBody1_contains.
Qed.

Lemma first_contact_fallback_witness :
  contains (snd (snd (Part001a.composeFor Sample.chatDown "initial" 1 Sample.ann)))
    (fallbackParagraph "graph algorithms").
Proof.
  apply (first_contact_fallback Sample.chatDown "initial" 1 Sample.ann).
  - discriminate.
  - exact I.
Defined.

(** X13: generateEmailBody of the first program of part_001 (a function
    its generateDrafts does not call) fills its placeholders in argument
    order: the generated paragraph lands in the scholarship slot ("via
    the <b>... 2026</b>") and the scholarship name in the paragraph's
    place after it. *)
Theorem generateEmailBody_slots (profName researchPara : string) :
  contains (snd (Part001a.generateEmailBody profName researchPara))
    (Part001a.schoolName ++ "</b> via the <b>" ++ researchPara ++ " 2026</b>")
  /\ exists between after,
      snd (Part001a.generateEmailBody profName researchPara)
      = (between ++ researchPara ++ " 2026</b>.<br><br> " ++ LF ++ chr 9
         ++ Part001a.scholarshipType ++ LF ++ after)%string.
Proof.
  unfold Part001a.generateEmailBody. cbn [snd]. split.
  - do 3 apply contains_later.
    exists EmptyString. eexists.
    rewrite !string_app_assoc. cbn [append]. reflexivity.
  - match goal with
    | |- exists between after, (?a ++ ?n ++ ?b ++ ?s ++ ?c ++ _)%string = _ =>
        exists (a ++ n ++ b ++ s ++ c)%string
    end.
    eexists. rewrite !string_app_assoc. cbn. reflexivity.
Qed.

(** ** A cursor below the sheet *)

(** X14: with a cursor of -30 or less, a run of the loop of src/main.go
    handles no row at all (the first index already lies at or beyond the
    end index) and the value saved for the next run is the cursor plus
    one batch: such a cursor climbs by 30 per run without any draft. *)
Theorem negative_cursor_only_climbs
  (w : World) (rows : list (list string)) (st : LoopState) (start : Z) :
  GoInt.in_range start ->
  start + MainGo.maxDrafts <= 0 ->
  MainGo.rowLoop w start (endIndexOf start MainGo.maxDrafts) 0 rows st = st
  /\ newProgressOf (endIndexOf start MainGo.maxDrafts) (Z.of_nat (List.length rows))
     = start + MainGo.maxDrafts.
Proof.
  unfold MainGo.maxDrafts, GoInt.in_range, GoInt.min_int. intros Hr Hneg.
  assert (Hend : endIndexOf start 30 = start + 30).
  { unfold endIndexOf, GoInt.add. apply wrap_in_range.
    unfold GoInt.in_range, GoInt.min_int, GoInt.max_int. lia. }
  rewrite Hend. split.
  - destruct rows as [|row rest]; [reflexivity|].
    cbn [MainGo.rowLoop].
    replace (0 <? start) with false by lia.
    replace (0 >=? start + 30) with true by lia.
    reflexivity.
  - unfold newProgressOf.
    destruct (start + 30 >? Z.of_nat (List.length rows)) eqn:Hgt; [lia|reflexivity].
Qed.

Lemma negative_cursor_only_climbs_witness :
  MainGo.rowLoop (Sample.world (Some "-100"))
    (loadStart (Some "-100")) (endIndexOf (loadStart (Some "-100")) MainGo.maxDrafts)
    0 Sample.rows Sample.start = Sample.start.
Proof.
  apply (negative_cursor_only_climbs (Sample.world (Some "-100")) Sample.rows
           Sample.start (loadStart (Some "-100"))).
  - apply loadStart_in_range.
  - vm_compute. discriminate.
Defined.

(** ** The composer of the second program of part_001 *)

(** X15: when the model answers, generateEmail writes no log line and
    returns a body that greets the recipient by name and names a topic in
    bold: the trimmed answer, or "computer science and related
    technologies" when the answer is blank.  In follow-up mode the
    greeting is followed by the follow-up sentence. *)
Theorem generateEmail_names_a_topic
  (w : World) (i : Z) (profName researchText mode content : string)
  (more : list string) :
  CreateChatCompletion w i (Part001b.topicsRequest researchText)
  = ChatChoices (content :: more) ->
  let topics :=
    if (Strings.TrimSpace content =? "")%string
    then "computer science and related technologies"
    else Strings.TrimSpace content in
  exists subject body,
    Part001b.generateEmail w i profName researchText mode = ([], Ok (subject, body))
    /\ contains body ("Respected Professor " ++ profName ++ ",<br><br>")
    /\ contains body ("your work in <b>" ++ topics ++ "</b>")
    /\ (mode = "followup" ->
        contains body
          ("I hope you are doing well. I wanted to kindly follow up on my previous email")).
Proof.
  intros Hchat topics.
  unfold Part001b.generateEmail. rewrite Hchat. fold topics.
  eexists _, _. split; [reflexivity|].
  split; [|split].
  - apply contains_later.
    destruct (mode =? "followup")%string.
    + exists (String (Zbyte 10) EmptyString). eexists.
      rewrite !string_app_assoc. cbn. reflexivity.
    + exists (String (Zbyte 10) EmptyString). eexists.
      rewrite !string_app_assoc. cbn. reflexivity.
  - do 2 apply contains_later.
    match goal with
    | |- contains (?l1 ++ _)%string _ =>
        let pre := eval vm_compute in
          (substring 0 (String.length l1 - String.length "your work in <b>") l1) in
        exists pre
    end.
    eexists. rewrite !string_app_assoc. cbn. reflexivity.
  - intros ->. cbn [String.eqb Ascii.eqb Bool.eqb].
    apply contains_later.
    match goal with
    | |- contains ((?l1 ++ ?n ++ ?l2) ++ _)%string _ =>
        let p2 := eval vm_compute in
          (substring 0 (String.length ",<br><br>" + 1) l2) in
        exists (l1 ++ n ++ p2)%string
    end.
    eexists. rewrite !string_app_assoc. cbn. reflexivity.
Qed.

Lemma generateEmail_names_a_topic_witness :
  exists subject body,
    Part001b.generateEmail Edge.blankAnswer 1 "Ann Lee" "graph algorithms" "initial"
    = ([], Ok (subject, body))
    /\ contains body "your work in <b>computer science and related technologies</b>".
Proof.
  destruct (generateEmail_names_a_topic Edge.blankAnswer 1 "Ann Lee"
              "graph algorithms" "initial" "  " [] eq_refl)
    as (subject & body & Hgen & _ & Htopic & _).
  exists subject, body. split; [exact Hgen|exact Htopic].
Defined.
